(** * VerseReferences: the internal Bible verse reference classes

    A shallow embedding of [src/VerseReferences.py] (BibleOrgSys): the
    module's regular expressions, the four classes [SimpleVerseKey],
    [SimpleVersesKey], [VerseRangeKey] and [FlexibleVersesKey], and the
    properties of their constructors, serialisers and expansions.

    Conventions of the embedding.
    - A Python [str] is a Rocq [string]; a character outside ASCII stands
      as its UTF-8 bytes (the en-dash U+2013 is the three bytes E2 80 93).
      Every character class of the module is ASCII, so matching over the
      bytes agrees with matching over the code points.
    - [re.search] is a backtracking matcher over the operators the module's
      patterns use, with Python's priorities (left alternative first,
      greedy [?]) and Python's group numbering (by opening parenthesis).
    - An effectful call returns its log records and an outcome: a value, a
      raised exception, or [OutOfFuel] for a [while True] loop that has not
      left after the given number of iterations.
    - The attributes of [BibleOrgSysGlobals] the module reads are the
      fields of [Globals]. *)

From Stdlib Require Import String Ascii List ZArith Lia Bool Arith.
From Stdlib Require Decimal DecimalString DecimalPos DecimalZ.
Import ListNotations.
Open Scope string_scope.

Set Implicit Arguments.

(* ===================================================================== *)
(** ** Python strings and integers *)

Definition newline : ascii := ascii_of_nat 10.

(** The en-dash of [CHAPTER_RANGE_RE], U+2013, in UTF-8. *)
Definition en_dash : string :=
  String (ascii_of_nat 226) (String (ascii_of_nat 128) (String (ascii_of_nat 147) "")).

Definition is_continuation_byte (c : ascii) : bool :=
  (128 <=? nat_of_ascii c)%nat && (nat_of_ascii c <? 192)%nat.

(** [len(s)]: the number of code points. *)
Fixpoint len (s : string) : nat :=
  match s with
  | EmptyString => 0
  | String c s' => if is_continuation_byte c then len s' else S (len s')
  end.

(** [c in s] for a one-character [c]. *)
Fixpoint char_in (c : ascii) (s : string) : bool :=
  match s with
  | EmptyString => false
  | String d s' => Ascii.eqb c d || char_in c s'
  end.

(** [s.startswith(p)], returning what follows the prefix. *)
Fixpoint strip_prefix (p s : string) : option string :=
  match p, s with
  | EmptyString, _ => Some s
  | String a p', String b s' => if Ascii.eqb a b then strip_prefix p' s' else None
  | String _ _, EmptyString => None
  end.

(** Truthiness of a string: [if s] holds when [s] is not empty. *)
Definition truthy (s : string) : bool :=
  match s with EmptyString => false | String _ _ => true end.

(** [str(n)] for an integer. *)
Definition str (n : Z) : string := DecimalString.NilZero.string_of_int (Z.to_int n).

(** [int(s)] on a string of decimal digits with an optional minus sign, the
    only strings the module passes to it; [None] is [ValueError]. *)
Definition int (s : string) : option Z :=
  option_map Z.of_int (DecimalString.NilZero.int_of_string s).

(* ===================================================================== *)
(** ** Regular expressions *)

Inductive regex : Type :=
| Lit (l : string)                      (* literal text *)
| Class (ranges : list (ascii * ascii)) (* [a-bc-d...] *)
| Cat (r1 r2 : regex)                   (* r1 r2 *)
| Alt (r1 r2 : regex)                   (* r1|r2 *)
| Opt (r : regex)                       (* r?  and  (?:r)? *)
| Group (r : regex)                     (* (r) *)
| Bos                                   (* ^ *)
| Eos.                                  (* $ *)

Declare Scope regex_scope.
Delimit Scope regex_scope with re.
Bind Scope regex_scope with regex.
Notation "r1 +++ r2" := (Cat r1 r2) (at level 60, right associativity) : regex_scope.

Fixpoint ngroups (r : regex) : nat :=
  match r with
  | Lit _ | Class _ | Bos | Eos => 0
  | Cat r1 r2 | Alt r1 r2 => ngroups r1 + ngroups r2
  | Opt r1 => ngroups r1
  | Group r1 => S (ngroups r1)
  end.

Definition in_range (c : ascii) (r : ascii * ascii) : bool :=
  (nat_of_ascii (fst r) <=? nat_of_ascii c)%nat && (nat_of_ascii c <=? nat_of_ascii (snd r))%nat.

Definition in_class (ranges : list (ascii * ascii)) (c : ascii) : bool :=
  existsb (in_range c) ranges.

(** One way of matching a pattern at a position: the text consumed, the
    text left, and the groups of the pattern in the order of their opening
    parentheses ([None] for a group that took no part). *)
Record rmatch : Type := mkMatch {
  matched : string;
  rest : string;
  groups : list (option string)
}.

Definition nones (n : nat) : list (option string) := repeat None n.

Definition at_end (s : string) : bool :=
  match s with
  | EmptyString => true
  | String c EmptyString => Ascii.eqb c newline
  | _ => false
  end.

(** All the ways of matching [r] at the head of [s], in the order in which
    a backtracking matcher tries them. [bos] tells whether the position is
    the start of the subject string. *)
Fixpoint run (r : regex) (bos : bool) (s : string) : list rmatch :=
  match r with
  | Lit l =>
      match strip_prefix l s with
      | Some s' => [mkMatch l s' []]
      | None => []
      end
  | Class ranges =>
      match s with
      | String c s' => if in_class ranges c then [mkMatch (String c "") s' []] else []
      | EmptyString => []
      end
  | Cat r1 r2 =>
      flat_map (fun m1 =>
        map (fun m2 => mkMatch (matched m1 ++ matched m2) (rest m2) (groups m1 ++ groups m2))
            (run r2 (bos && negb (truthy (matched m1))) (rest m1)))
        (run r1 bos s)
  | Alt r1 r2 =>
      map (fun m => mkMatch (matched m) (rest m) (groups m ++ nones (ngroups r2))) (run r1 bos s)
      ++ map (fun m => mkMatch (matched m) (rest m) (nones (ngroups r1) ++ groups m)) (run r2 bos s)
  | Opt r1 =>
      run r1 bos s ++ [mkMatch "" s (nones (ngroups r1))]
  | Group r1 =>
      map (fun m => mkMatch (matched m) (rest m) (Some (matched m) :: groups m)) (run r1 bos s)
  | Bos => if bos then [mkMatch "" s []] else []
  | Eos => if at_end s then [mkMatch "" s []] else []
  end.

Fixpoint search_from (r : regex) (bos : bool) (s : string) : option rmatch :=
  match run r bos s with
  | m :: _ => Some m
  | [] =>
      match s with
      | EmptyString => None
      | String _ s' => search_from r false s'
      end
  end.

(** [re.search( r, s )]: the first match at the leftmost offset that has one. *)
Definition re_search (r : regex) (s : string) : option rmatch := search_from r true s.

(** [match.group(i)] for [i >= 1]. *)
Definition group (m : rmatch) (i : nat) : option string := nth (i - 1) (groups m) None.

(** [match.group(i)] where the group always takes part in a match. *)
Definition group_str (m : rmatch) (i : nat) : string :=
  match group m i with Some x => x | None => "" end.

(** [match.group(i) if match.group(i) else ''] *)
Definition group_or_empty (m : rmatch) (i : nat) : string :=
  match group m i with
  | Some x => if truthy x then x else ""
  | None => ""
  end.

(** *** The patterns of the module *)

Definition rng (a b : string) : ascii * ascii :=
  match a, b with
  | String x _, String y _ => (x, y)
  | _, _ => (zero, zero)
  end.

Definition BBB_RE : regex :=
  Group (Class [rng "A" "P"; rng "R" "X"; rng "Z" "Z"]
         +++ Class [rng "A" "E"; rng "G" "V"; rng "X" "Z"; rng "1" "1"]
         +++ Class [rng "A" "W"; rng "Y" "Y"; rng "Z" "Z"; rng "1" "6"]).
Definition C_RE : regex :=
  Group (Alt (Class [rng "1" "9"] +++ Opt (Class [rng "0" "9"]))
             (Class [rng "1" "1"] +++ Class [rng "0" "9"] +++ Class [rng "0" "9"])).
Definition V_RE : regex :=
  Group (Alt (Class [rng "1" "9"] +++ Opt (Class [rng "0" "9"]))
             (Class [rng "1" "1"] +++ Class [rng "0" "9"] +++ Class [rng "0" "9"])).
Definition S_RE : regex := Group (Opt (Class [rng "a" "f"])).

Definition VS_RE : regex := V_RE +++ Opt (Lit "!" +++ S_RE).
Definition CVS_RE : regex := C_RE +++ Lit ":" +++ VS_RE.
Definition BCVS_RE : regex := BBB_RE +++ Lit "_" +++ CVS_RE.

Definition VERSE_RE : regex := Bos +++ BCVS_RE +++ Eos.
Definition VERSES2_RE : regex := Bos +++ BCVS_RE +++ Lit "," +++ VS_RE +++ Eos.
Definition VERSES2C_RE : regex := Bos +++ BCVS_RE +++ Lit ";" +++ CVS_RE +++ Eos.
Definition VERSES3_RE : regex :=
  Bos +++ BCVS_RE +++ Lit "," +++ VS_RE +++ Lit "," +++ VS_RE +++ Eos.
Definition VERSES3C_RE : regex :=
  Bos +++ BCVS_RE +++ Lit ";" +++ CVS_RE +++ Lit ";" +++ CVS_RE +++ Eos.
Definition CHAPTER_RE : regex := Bos +++ BBB_RE +++ Lit "_" +++ C_RE +++ Eos.
Definition VERSE_RANGE_RE : regex := Bos +++ BCVS_RE +++ Lit "-" +++ VS_RE +++ Eos.
Definition CHAPTER_RANGE_RE : regex := Bos +++ BCVS_RE +++ Lit en_dash +++ CVS_RE +++ Eos.
Definition VERSE_RANGE_PLUS_RE : regex :=
  Bos +++ BCVS_RE +++ Lit "-" +++ VS_RE +++ Lit "," +++ VS_RE +++ Eos.
Definition VERSE_PLUS_RANGE_RE : regex :=
  Bos +++ BCVS_RE +++ Lit "," +++ VS_RE +++ Lit "-" +++ VS_RE +++ Eos.
Definition VERSE_PLUS_RANGE_PLUS_RE : regex :=
  Bos +++ BCVS_RE +++ Lit "," +++ VS_RE +++ Lit "-" +++ VS_RE +++ Lit "," +++ VS_RE +++ Eos.

(* ===================================================================== *)
(** ** More of Python's strings: [int()] on any text, slices, [split] *)

(** [c.isdigit()] and the white space that [int()] skips, for an ASCII
    character. The tables of the code points outside ASCII are not part of
    the embedding: the statements about these functions are about ASCII
    text. *)
Definition isdigit (c : ascii) : bool := in_class [rng "0" "9"] c.
Definition isspace (c : ascii) : bool :=
  in_class [(ascii_of_nat 9, ascii_of_nat 13); rng " " " "] c.
Definition isalpha (c : ascii) : bool := in_class [rng "A" "Z"; rng "a" "z"] c.
Definition isascii (c : ascii) : bool := (nat_of_ascii c <? 128)%nat.

(** [s[0] == c] on a text that may be empty. *)
Definition head_is (c : ascii) (s : string) : bool :=
  match s with
  | String d _ => Ascii.eqb d c
  | EmptyString => false
  end.

Fixpoint lstrip (s : string) : string :=
  match s with
  | String c s' => if isspace c then lstrip s' else s
  | EmptyString => s
  end.

(** The digits at the head of a text and what follows them. One underscore
    may stand between two digits; [None] where an underscore follows
    another or ends the digits. [prev] tells that the character before was
    an underscore. *)
Fixpoint scan_digits (prev : bool) (s : string) : option (string * string) :=
  match s with
  | String c s' =>
      if isdigit c then
        match scan_digits false s' with
        | Some (d, r) => Some (String c d, r)
        | None => None
        end
      else if Ascii.eqb c "_" then
        if prev then None else scan_digits true s'
      else if prev then None else Some (EmptyString, s)
  | EmptyString => if prev then None else Some (EmptyString, EmptyString)
  end.

(** [int( s )] on any ASCII text, in base ten: white space, a sign, the
    digits, white space; [None] is [ValueError]. The limit that recent
    interpreters put on the number of digits is left out. *)
Definition py_int (s : string) : option Z :=
  let s := lstrip s in
  let '(negative, s) :=
    match s with
    | String c s' =>
        if Ascii.eqb c "-" then (true, s')
        else if Ascii.eqb c "+" then (false, s')
        else (false, s)
    | EmptyString => (false, s)
    end in
  if head_is "_" s then None else
  match scan_digits false s with
  | Some (String c d, r) =>
      match lstrip r, DecimalString.NilEmpty.uint_of_string (String c d) with
      | EmptyString, Some u => Some (if negative then (- Z.of_uint u)%Z else Z.of_uint u)
      | _, _ => None
      end
  | _ => None
  end.

(** The number of characters of [s] that are digits. *)
Fixpoint count_digits (s : string) : nat :=
  match s with
  | EmptyString => 0
  | String c s' => (if isdigit c then 1 else 0) + count_digits s'
  end.

(** [s[:n]], counting code points. *)
Fixpoint take (n : nat) (s : string) : string :=
  match s with
  | EmptyString => EmptyString
  | String c s' =>
      if is_continuation_byte c then String c (take n s')
      else match n with
           | O => EmptyString
           | S n' => String c (take n' s')
           end
  end.

(** [s.split( sep, 1 )] for a [sep] that is not empty: the text before the
    first [sep] and the text after it; [None] when [sep] is not in [s] and
    the list holds [s] alone. *)
Fixpoint split_once (sep s : string) : option (string * string) :=
  match strip_prefix sep s with
  | Some after => Some (EmptyString, after)
  | None =>
      match s with
      | EmptyString => None
      | String c s' =>
          match split_once sep s' with
          | Some (before, after) => Some (String c before, after)
          | None => None
          end
      end
  end.

(** [sep.join( l )] *)
Fixpoint join (sep : string) (l : list string) : string :=
  match l with
  | [] => EmptyString
  | [x] => x
  | x :: l' => x ++ sep ++ join sep l'
  end.

(* ===================================================================== *)
(** ** Effects: logging, exceptions, unbounded loops *)

Inductive exn : Type := TypeError | AssertionError | AttributeError | ValueError.

(** [logging.error( fmt.format( arg ) )]; the pattern of the message and the
    value that [{!r}] renders. *)
Inductive logrec : Type := LogError (fmt : string) (arg : string).

Inductive outcome (A : Type) : Type :=
| Done (a : A)
| Raise (e : exn)
| OutOfFuel.
Arguments Raise {A} e.
Arguments OutOfFuel {A}.

Definition M (A : Type) : Type := (list logrec * outcome A)%type.

Definition ret {A} (a : A) : M A := ([], Done a).
Definition raise {A} (e : exn) : M A := ([], Raise e).
Definition out_of_fuel {A} : M A := ([], OutOfFuel).
Definition bind {A B} (m : M A) (f : A -> M B) : M B :=
  match m with
  | (l, Done a) => let '(l', o) := f a in ((l ++ l')%list, o)
  | (l, Raise e) => (l, Raise e)
  | (l, OutOfFuel) => (l, OutOfFuel)
  end.

Declare Scope py_scope.
Delimit Scope py_scope with py.
Notation "x <- m ;; k" := (bind m (fun x => k))
  (at level 61, m at next level, right associativity) : py_scope.
Notation "m ;; k" := (bind m (fun _ => k))
  (at level 61, right associativity) : py_scope.
Open Scope py_scope.

Definition logging_error (fmt arg : string) : M unit := ([LogError fmt arg], Done tt).
(** [assert( b )] *)
Definition assert (b : bool) : M unit := if b then ret tt else raise AssertionError.
(** [if b: body] *)
Definition when (b : bool) (body : M unit) : M unit := if b then body else ret tt.
(** [try: body  except TypeError: pass], telling whether [body] completed. *)
Definition try_except_TypeError {A} (body : M A) : M (option A) :=
  match body with
  | (l, Done a) => (l, Done (Some a))
  | (l, Raise TypeError) => (l, Done None)
  | (l, Raise e) => (l, Raise e)
  | (l, OutOfFuel) => (l, OutOfFuel)
  end.
(** [int( s )], raising [ValueError]. *)
Definition int_of (s : string) : M Z :=
  match int s with Some n => ret n | None => raise ValueError end.

(** The attributes of [BibleOrgSysGlobals] read by the module.
    [BibleBooksCodes] is the registry of book codes, through its [in]. *)
Record Globals : Type := {
  debugFlag : bool;
  strictCheckingFlag : bool;
  BibleBooksCodes : string -> bool
}.


(* ===================================================================== *)
(** ** The names of the module *)

Module VerseReferences.

Definition ShortProgName : string := "VerseReferences".
Definition debuggingThisModule : bool := false.

Section WithGlobals.
Variable G : Globals.
(** [gettext], the translation of a message. *)
Variable gettext : string -> string.

(** [t( messageString )]: the unpacking of a list of one element raises
    the [ValueError] that the function catches. *)
Definition t (messageString : string) : string :=
  let '(nameBit, errorBit) :=
    match split_once ": " messageString with
    | Some (nameBit, errorBit) => (nameBit, errorBit)
    | None => (EmptyString, messageString)
    end in
  let nameBit :=
    if debugFlag G || debuggingThisModule
    then ShortProgName ++ (if truthy nameBit then "." else "") ++ nameBit
    else nameBit in
  nameBit ++ ": " ++ gettext errorBit.
End WithGlobals.

End VerseReferences.

(* ===================================================================== *)
(** ** class SimpleVerseKey *)

Module SimpleVerseKey.

(** The attributes of an instance once [__init__] has returned. *)
Record t : Type := Build {
  ignoreParseErrors : bool;
  BBB : string;
  C : string;
  V : string;
  S : string;
  keyType : string
}.

(** [__eq__] between two instances of the class. *)
Definition eq (self other : t) : bool :=
  String.eqb (BBB self) (BBB other) && String.eqb (C self) (C other)
  && String.eqb (V self) (V other) && String.eqb (S self) (S other).

(** ["{} {}:{}{}".format( self.BBB, self.C, self.V, self.S )] *)
Definition getShortText (self : t) : string :=
  BBB self ++ " " ++ C self ++ ":" ++ V self ++ S self.

(** ["{}_{}:{}{}{}".format( self.BBB, self.C, self.V, '!' if self.S else '', self.S )] *)
Definition getVerseKeyText (self : t) : string :=
  BBB self ++ "_" ++ C self ++ ":" ++ V self
  ++ (if truthy (S self) then "!" else "") ++ S self.

(** ["{}:{}".format( self.BBB, self.C, self.V, self.S )]: the pattern has
    two fields, and [str.format] drops the arguments left over. *)
Definition makeHash (self : t) : string :=
  BBB self ++ ":" ++ C self.

(** The generator [getIncludedVerses], as the list of what it yields. *)
Definition getIncludedVerses (self : t) : list t := [self].

Section WithGlobals.
Variable G : Globals.

(** The assertions of [__init__] under [debugFlag], for the call with
    separate fields. *)
Definition debug_checks (BBB C V S : string) : bool :=
  (len BBB =? 3)%nat
  && ((1 <=? len C)%nat && (len C <=? 3)%nat)
  && ((1 <=? len V)%nat && (len V <=? 3)%nat)
  && (len S <? 3)%nat
  && (BibleBooksCodes G BBB || String.eqb BBB "   ")
  && forallb (fun checkChar =>
        negb (char_in checkChar BBB)
        && negb (char_in checkChar C)
        && (negb (char_in checkChar V) || (String.eqb C "0" && String.eqb V "-1"))
        && negb (char_in checkChar S))
      (list_ascii_of_string " -,.:").

(** [SimpleVerseKey( BBB, C, V, S )] and [SimpleVerseKey( BBB, C, V )]
    ([S] is [None]): the branch of [__init__] for separate fields, with
    [C] and [V] strings. *)
Definition init_BCVS (BBB C V : string) (S : option string) : M t :=
  let S := match S with None => "" | Some S => S end in
  when (debugFlag G) (assert (debug_checks BBB C V S)) ;;
  ret (Build false BBB C V S "AssignedBVCS").

(** [parseReferenceString]: [Some] of the instance as the method leaves
    it when it returns [True], [None] when it returns [False]. *)
Definition parseReferenceString (ignoreParseErrors : bool) (referenceString : string)
  : M (option t) :=
  match re_search VERSE_RE referenceString with
  | Some m =>
      let BBB := group_str m 1 in
      let C := group_str m 2 in
      let V := group_str m 3 in
      let S := group_or_empty m 4 in
      when (negb (BibleBooksCodes G BBB))
           (logging_error "SimpleVerseKey: Invalid {!r} book code" BBB) ;;
      when (strictCheckingFlag G) (assert (BibleBooksCodes G BBB)) ;;
      ret (Some (Build ignoreParseErrors BBB C V S "ParsedBVCS"))
  | None =>
      when (negb ignoreParseErrors)
           (logging_error "SimpleVerseKey was unable to parse {!r}" referenceString) ;;
      ret None
  end.

(** [SimpleVerseKey( referenceString )] and
    [SimpleVerseKey( referenceString, ignoreParseErrors=... )]:
    the branch of [__init__] that parses a string. *)
Definition init (referenceString : string) (ignoreParseErrors : bool) : M t :=
  r <- parseReferenceString ignoreParseErrors referenceString ;;
  match r with
  | Some self => ret self
  | None => raise TypeError
  end.
End WithGlobals.

(** [__ne__] *)
Definition __ne__ (self other : t) : bool := negb (eq self other).

(** ["SimpleVerseKey object: {}".format( self.getShortText() )] *)
Definition __str__ (self : t) : string := "SimpleVerseKey object: " ++ getShortText self.

Definition __len__ (self : t) : Z := 4.

(** [__getitem__]; [None] stands for [raise IndexError]. *)
Definition __getitem__ (self : t) (keyIndex : Z) : option string :=
  if (keyIndex =? 0)%Z then Some (BBB self)
  else if (keyIndex =? 1)%Z then Some (C self)
  else if (keyIndex =? 2)%Z then Some (V self)
  else if (keyIndex =? 3)%Z then Some (S self)
  else None.

(** What a loop over the instance yields: with no [__iter__], the items
    at 0, 1, 2, ... up to the first [IndexError]. *)
Fixpoint items_from (fuel : nat) (self : t) (keyIndex : Z) : option (list string) :=
  match fuel with
  | O => None
  | Datatypes.S fuel' =>
      match __getitem__ self keyIndex with
      | None => Some []
      | Some x =>
          match items_from fuel' self (keyIndex + 1) with
          | Some l => Some (x :: l)
          | None => None
          end
      end
  end.

Definition getBCV (self : t) : string * string * string := (BBB self, C self, V self).
Definition getBCVS (self : t) : string * string * string * string :=
  (BBB self, C self, V self, S self).

(** An argument of [__init__] that is a [str] or an [int]. *)
Inductive str_or_int : Type := Str (s : string) | Int (n : Z).

(** A record of [logging.warning]: the pattern after [t] and the value
    that [repr] renders into it. *)
Inductive warnrec : Type := LogWarning (fmt : string) (arg : string).

Section Numbers.
Variable G : Globals.
Variable gettext : string -> string.

(** [SimpleVerseKey( BBB, C, V, S )] where [C] and [V] may be integers:
    [if isinstance( C, int ): C = str( C )], and so for [V]. *)
Definition init_fields (BBB : string) (C V : str_or_int) (S : option string) : M t :=
  let C := match C with Int n => str n | Str s => s end in
  let V := match V with Int n => str n | Str s => s end in
  init_BCVS G BBB C V S.

(** The body that [getChapterNumberInt] and [getVerseNumberInt] share,
    for the message [fmt] and the field [X]. The result [None] is the
    [return None] of the method; a [ValueError] of the second [int()] is
    not caught. *)
Definition number_of (fmt X : string) : list warnrec * outcome (option Z) :=
  match py_int X with
  | Some n => ([], Done (Some n))
  | None =>
      let warning := LogWarning (VerseReferences.t G gettext fmt) X in
      if truthy X && match X with String c _ => isdigit c | EmptyString => false end then
        let digitCount := count_digits X in
        match py_int (take digitCount X) with
        | Some n => ([warning], Done (Some n))
        | None => ([warning], Raise ValueError)
        end
      else ([warning], Done None)
  end.

Definition getChapterNumberInt (self : t) : list warnrec * outcome (option Z) :=
  number_of "getChapterNumberInt: Unusual C value: {}" (C self).

Definition getVerseNumberInt (self : t) : list warnrec * outcome (option Z) :=
  number_of "getVerseNumberInt: Unusual V value: {}" (V self).
End Numbers.

End SimpleVerseKey.

(* ===================================================================== *)
(** ** class SimpleVersesKey *)

Module SimpleVersesKey.

Record t : Type := Build {
  ignoreParseErrors : bool;
  verseKeysList : list SimpleVerseKey.t;
  keyType : string
}.

Definition getIncludedVerses (self : t) : list SimpleVerseKey.t := verseKeysList self.

(** The loop of [getShortText] and [getVerseKeyText]. *)
Fixpoint join_texts (f : SimpleVerseKey.t -> string) (resultStr : string)
         (l : list SimpleVerseKey.t) : string :=
  match l with
  | [] => resultStr
  | svk :: l' =>
      join_texts f ((if truthy resultStr then resultStr ++ ", " else resultStr) ++ f svk) l'
  end.
Definition getShortText (self : t) : string :=
  join_texts SimpleVerseKey.getShortText "" (verseKeysList self).
Definition getVerseKeyText (self : t) : string :=
  join_texts SimpleVerseKey.getVerseKeyText "" (verseKeysList self).

Section WithGlobals.
Variable G : Globals.

(** [int(V2)>int(V1)+1 or S2!=S1] and its like; [k] is 1 or 0. *)
Definition assert_after (k : Z) (V1 S1 V2 S2 : string) : M unit :=
  n2 <- int_of V2 ;;
  n1 <- int_of V1 ;;
  assert ((n1 + k <? n2)%Z || negb (String.eqb S2 S1)).

(** [logging.error( "...".format( self.BBB ) )]: the class sets no
    [BBB] attribute, so reading it raises before anything is logged. *)
Definition log_invalid_self_BBB : M unit := raise AttributeError.

Definition parseReferenceString (self : t) (referenceString : string) : M (bool * t) :=
  match re_search VERSES2_RE referenceString with
  | Some m =>
      let BBB := group_str m 1 in let C := group_str m 2 in
      let V1 := group_str m 3 in let S1 := group_or_empty m 4 in
      let V2 := group_str m 5 in let S2 := group_or_empty m 6 in
      when (negb (BibleBooksCodes G BBB))
           (logging_error "SimpleVerseKey: Invalid {!r} book code" BBB) ;;
      when (strictCheckingFlag G)
           (assert (BibleBooksCodes G BBB) ;;
            assert_after 1 V1 S1 V2 S2) ;;
      k1 <- SimpleVerseKey.init_BCVS G BBB C V1 (Some S1) ;;
      k2 <- SimpleVerseKey.init_BCVS G BBB C V2 (Some S2) ;;
      ret (true, Build (ignoreParseErrors self) [k1; k2] "2V")
  | None =>
  match re_search VERSES2C_RE referenceString with
  | Some m =>
      let BBB := group_str m 1 in
      let C1 := group_str m 2 in let V1 := group_str m 3 in let S1 := group_or_empty m 4 in
      let C2 := group_str m 5 in let V2 := group_str m 6 in let S2 := group_or_empty m 7 in
      when (negb (BibleBooksCodes G BBB)) log_invalid_self_BBB ;;
      when (strictCheckingFlag G) (assert (BibleBooksCodes G BBB)) ;;
      k1 <- SimpleVerseKey.init_BCVS G BBB C1 V1 (Some S1) ;;
      k2 <- SimpleVerseKey.init_BCVS G BBB C2 V2 (Some S2) ;;
      ret (true, Build (ignoreParseErrors self) [k1; k2] "2CV")
  | None =>
  match re_search VERSES3_RE referenceString with
  | Some m =>
      let BBB := group_str m 1 in let C := group_str m 2 in
      let V1 := group_str m 3 in let S1 := group_or_empty m 4 in
      let V2 := group_str m 5 in let S2 := group_or_empty m 6 in
      let V3 := group_str m 7 in let S3 := group_or_empty m 8 in
      when (negb (BibleBooksCodes G BBB)) log_invalid_self_BBB ;;
      when (strictCheckingFlag G)
           (assert (BibleBooksCodes G BBB) ;;
            assert_after 1 V1 S1 V2 S2 ;;
            assert_after 1 V2 S2 V3 S3) ;;
      ret (true, Build (ignoreParseErrors self) (verseKeysList self) "3V")
  | None =>
  match re_search VERSES3C_RE referenceString with
  | Some m =>
      let BBB := group_str m 1 in
      when (negb (BibleBooksCodes G BBB)) log_invalid_self_BBB ;;
      when (strictCheckingFlag G) (assert (BibleBooksCodes G BBB)) ;;
      ret (true, Build (ignoreParseErrors self) (verseKeysList self) "3CV")
  | None =>
      when (negb (ignoreParseErrors self))
           (logging_error "SimpleVerseKey was unable to parse {!r}" referenceString) ;;
      ret (false, self)
  end end end end.

(** [__init__]: [keyType] is set by the parse only; the value before it
    does not outlive a successful construction. *)
Definition init (referenceString : string) (ignoreParseErrors : bool) : M t :=
  let self := Build ignoreParseErrors [] "" in
  r <- parseReferenceString self referenceString ;;
  if fst r then ret (snd r) else raise TypeError.
End WithGlobals.

End SimpleVersesKey.

(* ===================================================================== *)
(** ** class VerseRangeKey *)

Module VerseRangeKey.

(** [verseKeysList] is [None] while the attribute has not been assigned. *)
Record t : Type := Build {
  ignoreParseErrors : bool;
  rangeStart : SimpleVerseKey.t;
  rangeEnd : SimpleVerseKey.t;
  verseKeysList : option (list SimpleVerseKey.t);
  keyType : string
}.

(** ['{}-{}'.format( self.rangeStart.getShortText(), self.rangeEnd.getShortText() )] *)
Definition getShortText (self : t) : string :=
  SimpleVerseKey.getShortText (rangeStart self) ++ "-"
  ++ SimpleVerseKey.getShortText (rangeEnd self).

(** ['{}-{}'.format( self.rangeStart.getVerseKeyText(), self.rangeEnd.getVerseKeyText() )] *)
Definition getVerseKeyText (self : t) : string :=
  SimpleVerseKey.getVerseKeyText (rangeStart self) ++ "-"
  ++ SimpleVerseKey.getVerseKeyText (rangeEnd self).

(** Running the generator [getIncludedVerses] to its end: reading an
    attribute that was never assigned raises [AttributeError]. *)
Definition getIncludedVerses (self : t) : M (list SimpleVerseKey.t) :=
  match verseKeysList self with
  | Some l => ret l
  | None => raise AttributeError
  end.

Section WithGlobals.
Variable G : Globals.

(** The [while True] loop of the [V-V] branch; [fuel] bounds the number
    of iterations. *)
Fixpoint expand_VV (fuel : nat) (BBB C V V2 S2 : string)
         (verseKeysList : list SimpleVerseKey.t) : M (list SimpleVerseKey.t) :=
  match fuel with
  | O => out_of_fuel
  | Datatypes.S fuel' =>
      if String.eqb V V2 then
        k <- SimpleVerseKey.init_BCVS G BBB C V2 (Some S2) ;;
        ret (verseKeysList ++ [k])%list
      else
        k <- SimpleVerseKey.init_BCVS G BBB C V None ;;
        n <- int_of V ;;
        expand_VV fuel' BBB C (str (n + 1)) V2 S2 (verseKeysList ++ [k])%list
  end.

(** The [while True] loop of the [CV-CV] branch. *)
Fixpoint expand_CVCV (fuel : nat) (BBB C V C2 V2 S2 : string)
         (verseKeysList : list SimpleVerseKey.t) : M (list SimpleVerseKey.t) :=
  match fuel with
  | O => out_of_fuel
  | Datatypes.S fuel' =>
      if String.eqb C C2 && String.eqb V V2 then
        k <- SimpleVerseKey.init_BCVS G BBB C V2 (Some S2) ;;
        ret (verseKeysList ++ [k])%list
      else
        k <- SimpleVerseKey.init_BCVS G BBB C V None ;;
        n <- int_of V ;;
        let V := str (n + 1) in
        n' <- int_of V ;;
        if (222 <? n')%Z then
          c <- int_of C ;;
          expand_CVCV fuel' BBB (str (c + 1)) "1" C2 V2 S2 (verseKeysList ++ [k])%list
        else
          expand_CVCV fuel' BBB C V C2 V2 S2 (verseKeysList ++ [k])%list
  end.

(** The body of the [V-V] branch after the groups are read. *)
Definition parse_VV (fuel : nat) (ignoreParseErrors : bool)
           (BBB C V1 S1 V2 S2 : string) : M t :=
  when (negb (BibleBooksCodes G BBB))
       (logging_error "VerseRangeKey: Invalid {!r} book code" BBB) ;;
  when (strictCheckingFlag G) (assert (BibleBooksCodes G BBB)) ;;
  rangeStart <- SimpleVerseKey.init_BCVS G BBB C V1 (Some S1) ;;
  rangeEnd <- SimpleVerseKey.init_BCVS G BBB C V2 (Some S2) ;;
  verseKeysList <- expand_VV fuel BBB C V1 V2 S2 [] ;;
  ret (Build ignoreParseErrors rangeStart rangeEnd (Some verseKeysList) "V-V").

(** [parseReferenceString]: [Some] of the instance as the method leaves
    it when it returns [True], [None] when it returns [False]. *)
Definition parseReferenceString (fuel : nat) (ignoreParseErrors : bool)
           (referenceString : string) : M (option t) :=
  match re_search VERSE_RANGE_RE referenceString with
  | Some m =>
      let BBB := group_str m 1 in let C := group_str m 2 in
      let V1 := group_str m 3 in let S1 := group_or_empty m 4 in
      let V2 := group_str m 5 in let S2 := group_or_empty m 6 in
      self <- parse_VV fuel ignoreParseErrors BBB C V1 S1 V2 S2 ;;
      ret (Some self)
  | None =>
  match re_search CHAPTER_RANGE_RE referenceString with
  | Some m =>
      let BBB := group_str m 1 in
      let C1 := group_str m 2 in let V1 := group_str m 3 in let S1 := group_or_empty m 4 in
      let C2 := group_str m 5 in let V2 := group_str m 6 in let S2 := group_or_empty m 7 in
      when (negb (BibleBooksCodes G BBB))
           (logging_error "VerseRangeKey: Invalid {!r} book code" BBB) ;;
      when (strictCheckingFlag G) (assert (BibleBooksCodes G BBB)) ;;
      rangeStart <- SimpleVerseKey.init_BCVS G BBB C1 V1 (Some S1) ;;
      rangeEnd <- SimpleVerseKey.init_BCVS G BBB C2 V2 (Some S2) ;;
      verseKeysList <- expand_CVCV fuel BBB C1 V1 C2 V2 S2 [] ;;
      ret (Some (Build ignoreParseErrors rangeStart rangeEnd (Some verseKeysList) "CV-CV"))
  | None =>
  match re_search CHAPTER_RE referenceString with
  | Some m =>
      let BBB := group_str m 1 in let C := group_str m 2 in
      when (negb (BibleBooksCodes G BBB)) SimpleVersesKey.log_invalid_self_BBB ;;
      when (strictCheckingFlag G) (assert (BibleBooksCodes G BBB)) ;;
      rangeStart <- SimpleVerseKey.init_BCVS G BBB C "1" None ;;
      rangeEnd <- SimpleVerseKey.init_BCVS G BBB C "999" None ;;
      ret (Some (Build ignoreParseErrors rangeStart rangeEnd None "C"))
  | None =>
      when (negb ignoreParseErrors)
           (logging_error "VerseRangeKey was unable to parse {!r}" referenceString) ;;
      ret None
  end end end.

Definition init (fuel : nat) (referenceString : string) (ignoreParseErrors : bool) : M t :=
  r <- parseReferenceString fuel ignoreParseErrors referenceString ;;
  match r with
  | Some self => ret self
  | None => raise TypeError
  end.
End WithGlobals.

End VerseRangeKey.

(* ===================================================================== *)
(** ** class FlexibleVersesKey *)

Module FlexibleVersesKey.

Inductive verseKeyObject : Type :=
| Verse (k : SimpleVerseKey.t)
| Verses (k : SimpleVersesKey.t)
| VerseRange (k : VerseRangeKey.t).

(** [keyType] is assigned by the three compound branches only. *)
Record t : Type := Build {
  verseKeyObjectList : list verseKeyObject;
  keyType : option string
}.

Definition getVerseKeyText_of (o : verseKeyObject) : string :=
  match o with
  | Verse k => SimpleVerseKey.getVerseKeyText k
  | Verses k => SimpleVersesKey.getVerseKeyText k
  | VerseRange k => VerseRangeKey.getVerseKeyText k
  end.

Definition getIncludedVerses_of (o : verseKeyObject) : M (list SimpleVerseKey.t) :=
  match o with
  | Verse k => ret (SimpleVerseKey.getIncludedVerses k)
  | Verses k => ret (SimpleVersesKey.getIncludedVerses k)
  | VerseRange k => VerseRangeKey.getIncludedVerses k
  end.

Fixpoint extend_all (resultList : list SimpleVerseKey.t) (l : list verseKeyObject)
  : M (list SimpleVerseKey.t) :=
  match l with
  | [] => ret resultList
  | o :: l' =>
      vs <- getIncludedVerses_of o ;;
      extend_all (resultList ++ vs)%list l'
  end.

Definition getIncludedVerses (self : t) : M (list SimpleVerseKey.t) :=
  extend_all [] (verseKeyObjectList self).

(** ['{}_{}:{}{}{}-{}{}{}'.format( BBB, C, V1, '!' if S1 else '', S1, V2, '!' if S2 else '', S2 )] *)
Definition format_range (BBB C V1 S1 V2 S2 : string) : string :=
  BBB ++ "_" ++ C ++ ":" ++ V1 ++ (if truthy S1 then "!" else "") ++ S1
  ++ "-" ++ V2 ++ (if truthy S2 then "!" else "") ++ S2.

Section WithGlobals.
Variable G : Globals.

Definition parseReferenceString (fuel : nat) (self : t) (referenceString : string)
  : M (bool * t) :=
  let append o := Build (verseKeyObjectList self ++ [o]) (keyType self) in
  r <- try_except_TypeError (SimpleVerseKey.init G referenceString true) ;;
  match r with
  | Some resultKey => ret (true, append (Verse resultKey))
  | None =>
  r <- try_except_TypeError (SimpleVersesKey.init G referenceString true) ;;
  match r with
  | Some resultKey => ret (true, append (Verses resultKey))
  | None =>
  r <- try_except_TypeError (VerseRangeKey.init G fuel referenceString true) ;;
  match r with
  | Some resultKey => ret (true, append (VerseRange resultKey))
  | None =>
  match re_search VERSE_RANGE_PLUS_RE referenceString with
  | Some m =>
      let BBB := group_str m 1 in let C := group_str m 2 in
      let V1 := group_str m 3 in let S1 := group_or_empty m 4 in
      let V2 := group_str m 5 in let S2 := group_or_empty m 6 in
      let V3 := group_str m 7 in let S3 := group_or_empty m 8 in
      when (negb (BibleBooksCodes G BBB))
           (logging_error "VerseRangeKey: Invalid {!r} book code" BBB) ;;
      when (strictCheckingFlag G)
           (assert (BibleBooksCodes G BBB) ;;
            SimpleVersesKey.assert_after 0 V1 S1 V2 S2 ;;
            SimpleVersesKey.assert_after 1 V2 S2 V3 S3) ;;
      resultKey <- VerseRangeKey.init G fuel (format_range BBB C V1 S1 V2 S2) true ;;
      k3 <- SimpleVerseKey.init_BCVS G BBB C V3 (Some S3) ;;
      ret (true, Build (verseKeyObjectList self ++ [VerseRange resultKey; Verse k3])
                       (Some "V-V,V"))
  | None =>
  match re_search VERSE_PLUS_RANGE_RE referenceString with
  | Some m =>
      let BBB := group_str m 1 in let C := group_str m 2 in
      let V1 := group_str m 3 in let S1 := group_or_empty m 4 in
      let V2 := group_str m 5 in let S2 := group_or_empty m 6 in
      let V3 := group_str m 7 in let S3 := group_or_empty m 8 in
      when (negb (BibleBooksCodes G BBB))
           (logging_error "VerseRangeKey: Invalid {!r} book code" BBB) ;;
      when (strictCheckingFlag G)
           (assert (BibleBooksCodes G BBB) ;;
            SimpleVersesKey.assert_after 1 V1 S1 V2 S2 ;;
            SimpleVersesKey.assert_after 0 V2 S2 V3 S3) ;;
      k1 <- SimpleVerseKey.init_BCVS G BBB C V1 (Some S1) ;;
      resultKey <- VerseRangeKey.init G fuel (format_range BBB C V2 S2 V3 S3) true ;;
      ret (true, Build (verseKeyObjectList self ++ [Verse k1; VerseRange resultKey])
                       (Some "V,V-V"))
  | None =>
  match re_search VERSE_PLUS_RANGE_PLUS_RE referenceString with
  | Some m =>
      let BBB := group_str m 1 in let C := group_str m 2 in
      let V1 := group_str m 3 in let S1 := group_or_empty m 4 in
      let V2 := group_str m 5 in let S2 := group_or_empty m 6 in
      let V3 := group_str m 7 in let S3 := group_or_empty m 8 in
      let V4 := group_str m 9 in let S4 := group_or_empty m 10 in
      when (negb (BibleBooksCodes G BBB))
           (logging_error "VerseRangeKey: Invalid {!r} book code" BBB) ;;
      when (strictCheckingFlag G)
           (assert (BibleBooksCodes G BBB) ;;
            SimpleVersesKey.assert_after 1 V1 S1 V2 S2 ;;
            SimpleVersesKey.assert_after 0 V2 S2 V3 S3 ;;
            SimpleVersesKey.assert_after 1 V3 S3 V4 S4) ;;
      k1 <- SimpleVerseKey.init_BCVS G BBB C V1 (Some S1) ;;
      resultKey <- VerseRangeKey.init G fuel (format_range BBB C V2 S2 V3 S3) true ;;
      k4 <- SimpleVerseKey.init_BCVS G BBB C V4 (Some S4) ;;
      ret (true, Build (verseKeyObjectList self ++ [Verse k1; VerseRange resultKey; Verse k4])
                       (Some "V,V-V,V"))
  | None =>
      logging_error "FlexibleVersesKey was unable to parse {!r}" referenceString ;;
      ret (false, self)
  end end end end end end.

Definition init (fuel : nat) (referenceString : string) : M t :=
  when (debugFlag G)
       (assert ((5 <=? len referenceString)%nat && (len referenceString <=? 20)%nat)) ;;
  let self := Build [] None in
  r <- parseReferenceString fuel self referenceString ;;
  if fst r then ret (snd r) else raise TypeError.
End WithGlobals.

Definition getShortText_of (o : verseKeyObject) : string :=
  match o with
  | Verse k => SimpleVerseKey.getShortText k
  | Verses k => SimpleVersesKey.getShortText k
  | VerseRange k => VerseRangeKey.getShortText k
  end.

(** The loop of [getShortText] and [getVerseKeyText]. *)
Fixpoint join_texts (f : verseKeyObject -> string) (resultText : string)
         (l : list verseKeyObject) : string :=
  match l with
  | [] => resultText
  | o :: l' =>
      join_texts f ((if truthy resultText then resultText ++ ", " else resultText) ++ f o) l'
  end.
Definition getShortText (self : t) : string :=
  join_texts getShortText_of "" (verseKeyObjectList self).
Definition getVerseKeyText (self : t) : string :=
  join_texts getVerseKeyText_of "" (verseKeyObjectList self).

End FlexibleVersesKey.

(* ===================================================================== *)
(** ** class SwordKey( SimpleVerseKey ) of [src/SwordResources.py] *)

Module SwordKey.

Definition getChapter (G : Globals) (gettext : string -> string) (self : SimpleVerseKey.t)
  : list SimpleVerseKey.warnrec * outcome (option Z) :=
  SimpleVerseKey.getChapterNumberInt G gettext self.

Definition getVerse (G : Globals) (gettext : string -> string) (self : SimpleVerseKey.t)
  : list SimpleVerseKey.warnrec * outcome (option Z) :=
  SimpleVerseKey.getVerseNumberInt G gettext self.

End SwordKey.

(* ===================================================================== *)
(** ** Configurations and references used in the examples *)

(** A registry holding a few of the codes of [BibleBooksCodes]. *)
Definition sample_books (BBB : string) : bool :=
  existsb (String.eqb BBB) ["GEN"; "EXO"; "SA2"; "MAT"; "REV"].

Definition lenient : Globals :=
  {| debugFlag := false; strictCheckingFlag := false; BibleBooksCodes := sample_books |}.
Definition strict : Globals :=
  {| debugFlag := false; strictCheckingFlag := true; BibleBooksCodes := sample_books |}.
Definition debugging : Globals :=
  {| debugFlag := true; strictCheckingFlag := false; BibleBooksCodes := sample_books |}.

Definition genesis_1_1 : SimpleVerseKey.t :=
  SimpleVerseKey.Build false "GEN" "1" "1" "" "AssignedBVCS".

(* ===================================================================== *)
(** ** Tests on texts *)

(** [sub in s] *)
Fixpoint contains (sub s : string) : bool :=
  match strip_prefix sub s with
  | Some _ => true
  | None => match s with
            | EmptyString => false
            | String _ s' => contains sub s'
            end
  end.

(** [re.fullmatch( r, s )] as a test. *)
Definition full_match (r : regex) (s : string) : bool :=
  existsb (fun m => negb (truthy (rest m))) (run r true s).

(** [re.search( r, s )] as a test. *)
Definition matches (r : regex) (s : string) : bool :=
  match re_search r s with Some _ => true | None => false end.

(** The patterns behind each shape, in the order in which they are tried. *)
Definition list_grammars : list regex := [VERSES2_RE; VERSES2C_RE; VERSES3_RE; VERSES3C_RE].
Definition range_grammars : list regex := [VERSE_RANGE_RE; CHAPTER_RANGE_RE; CHAPTER_RE].
Definition compound_grammars : list regex :=
  [VERSE_RANGE_PLUS_RE; VERSE_PLUS_RANGE_RE; VERSE_PLUS_RANGE_PLUS_RE].
Definition grammars : list regex :=
  [VERSE_RE] ++ list_grammars ++ range_grammars ++ compound_grammars.

Definition is_list (s : string) : bool := existsb (fun r => matches r s) list_grammars.
Definition is_range (s : string) : bool := existsb (fun r => matches r s) range_grammars.

(** A reference whose book code matches [BBB_RE], whose chapter and verse
    are the decimal text of a number in 1..199 and whose suffix is empty or
    one of the letters a to f. *)
Definition valid_reference (r : SimpleVerseKey.t) : Prop :=
  full_match BBB_RE (SimpleVerseKey.BBB r) = true
  /\ (exists n, (1 <= n <= 199)%Z /\ SimpleVerseKey.C r = str n)
  /\ (exists n, (1 <= n <= 199)%Z /\ SimpleVerseKey.V r = str n)
  /\ In (SimpleVerseKey.S r) [""; "a"; "b"; "c"; "d"; "e"; "f"].

(* ===================================================================== *)
(** ** The texts of the grammar *)

(** The character classes of the patterns. *)
Definition cls19 : list (ascii * ascii) := [rng "1" "9"].
Definition cls09 : list (ascii * ascii) := [rng "0" "9"].
Definition cls11 : list (ascii * ascii) := [rng "1" "1"].
Definition clsaf : list (ascii * ascii) := [rng "a" "f"].
Definition clsB1 : list (ascii * ascii) := [rng "A" "P"; rng "R" "X"; rng "Z" "Z"].
Definition clsB2 : list (ascii * ascii) := [rng "A" "E"; rng "G" "V"; rng "X" "Z"; rng "1" "1"].
Definition clsB3 : list (ascii * ascii) := [rng "A" "W"; rng "Y" "Y"; rng "Z" "Z"; rng "1" "6"].
(** The characters that a verse with its suffix is made of. *)
Definition word : list (ascii * ascii) := [rng "!" "!"; rng "0" "9"; rng "a" "f"].

(** [(?:!([a-f]?))?] *)
Definition OPTS : regex := Opt (Lit "!" +++ S_RE).

Definition head_in (cls : list (ascii * ascii)) (s : string) : bool :=
  match s with
  | String c _ => in_class cls c
  | EmptyString => false
  end.

(** The texts of [BBB_RE], of [C_RE] and [V_RE], and of the optional
    suffix with the value of its group. *)
Inductive bookcode : string -> Prop :=
| bookcode_intro a b c :
    in_class clsB1 a = true -> in_class clsB2 b = true -> in_class clsB3 c = true ->
    bookcode (String a (String b (String c ""))).

Inductive numeral : string -> Prop :=
| numeral1 a : in_class cls19 a = true -> numeral (String a "")
| numeral2 a b :
    in_class cls19 a = true -> in_class cls09 b = true -> numeral (String a (String b ""))
| numeral3 a b c :
    in_class cls11 a = true -> in_class cls09 b = true -> in_class cls09 c = true ->
    numeral (String a (String b (String c ""))).

Inductive sfx : string -> option string -> Prop :=
| sfx_absent : sfx "" None
| sfx_bare : sfx "!" (Some "")
| sfx_letter c : in_class clsaf c = true -> sfx (String "!" (String c "")) (Some (String c "")).

(** The text and the group of the suffix [S] as the serialisers write it. *)
Definition suffix (S : string) : Prop :=
  S = "" \/ exists c, in_class clsaf c = true /\ S = String c "".

Definition bang (S : string) : string := if truthy S then "!" else "".
Definition sfx_group (S : string) : option string := if truthy S then Some S else None.

Definition numeralb (s : string) : bool :=
  match s with
  | String a EmptyString => in_class cls19 a
  | String a (String b EmptyString) => in_class cls19 a && in_class cls09 b
  | String a (String b (String c EmptyString)) =>
      in_class cls11 a && in_class cls09 b && in_class cls09 c
  | _ => false
  end.

Definition numerals : list string := map (fun k => str (Z.of_nat k)) (seq 1 199).

(** The continuation gives up on a text that goes on with a character of
    a reference. *)
Definition stops_at_word {X} (K : rmatch -> list X) : Prop :=
  forall m, head_in word (rest m) = true -> K m = [].
Definition stops_at_digit {X} (K : rmatch -> list X) : Prop :=
  forall m, head_in cls09 (rest m) = true -> K m = [].

(* ===================================================================== *)
(** ** Outcomes *)

Definition invalid_book_log (G : Globals) (fmt w : string) : list logrec :=
  if BibleBooksCodes G w then [] else [LogError fmt w].

Definition unable_to_parse (s : string) : logrec :=
  LogError "FlexibleVersesKey was unable to parse {!r}" s.

Definition no_TypeError {A} (m : M A) : Prop := snd m <> Raise TypeError.

Definition returns {A} (m : M A) : bool :=
  match snd m with Done _ => true | _ => false end.
Definition raises {A} (e : exn) (m : M A) : bool :=
  match snd m, e with
  | Raise TypeError, TypeError | Raise AssertionError, AssertionError
  | Raise AttributeError, AttributeError | Raise ValueError, ValueError => true
  | _, _ => false
  end.

(** The assertion of [FlexibleVersesKey.__init__] under [debugFlag]. *)
Definition debug_length_ok (G : Globals) (s : string) : Prop :=
  debugFlag G = true -> (5 <=? len s)%nat && (len s <=? 20)%nat = true.

(** The verse the loop appends for every verse before the last one:
    [SimpleVerseKey( BBB, C, V )], with no suffix. *)
Definition plain_verse (w c : string) (n : Z) : SimpleVerseKey.t :=
  SimpleVerseKey.Build false w c (str n) "" "AssignedBVCS".

Definition plain_verses (w c : string) (n : Z) (k : nat) : list SimpleVerseKey.t :=
  map (fun i => plain_verse w c (n + Z.of_nat i)) (seq 0 k).

(* ===================================================================== *)
(** ** The dispatch of the specification *)

(** The dispatch as the specification words it: the shapes are tried in a
    fixed order on the text itself, the first one whose grammar matches
    gives the result, whatever that result is, and no other is tried; when
    none matches the failure is logged once and raised. A compound holds
    the range built from the groups of its match. *)
Definition first_match_dispatch (G : Globals) (fuel : nat) (s : string)
  : M FlexibleVersesKey.t :=
  if matches VERSE_RE s then
    k <- SimpleVerseKey.init G s true ;;
    ret (FlexibleVersesKey.Build [FlexibleVersesKey.Verse k] None)
  else if is_list s then
    k <- SimpleVersesKey.init G s true ;;
    ret (FlexibleVersesKey.Build [FlexibleVersesKey.Verses k] None)
  else if is_range s then
    k <- VerseRangeKey.init G fuel s true ;;
    ret (FlexibleVersesKey.Build [FlexibleVersesKey.VerseRange k] None)
  else
  match re_search VERSE_RANGE_PLUS_RE s with
  | Some m =>
      let BBB := group_str m 1 in let C := group_str m 2 in
      let V1 := group_str m 3 in let S1 := group_or_empty m 4 in
      let V2 := group_str m 5 in let S2 := group_or_empty m 6 in
      let V3 := group_str m 7 in let S3 := group_or_empty m 8 in
      when (negb (BibleBooksCodes G BBB))
           (logging_error "VerseRangeKey: Invalid {!r} book code" BBB) ;;
      when (strictCheckingFlag G)
           (assert (BibleBooksCodes G BBB) ;;
            SimpleVersesKey.assert_after 0 V1 S1 V2 S2 ;;
            SimpleVersesKey.assert_after 1 V2 S2 V3 S3) ;;
      range <- VerseRangeKey.parse_VV G fuel true BBB C V1 S1 V2 S2 ;;
      k3 <- SimpleVerseKey.init_BCVS G BBB C V3 (Some S3) ;;
      ret (FlexibleVersesKey.Build
             [FlexibleVersesKey.VerseRange range; FlexibleVersesKey.Verse k3]
             (Some "V-V,V"))
  | None =>
  match re_search VERSE_PLUS_RANGE_RE s with
  | Some m =>
      let BBB := group_str m 1 in let C := group_str m 2 in
      let V1 := group_str m 3 in let S1 := group_or_empty m 4 in
      let V2 := group_str m 5 in let S2 := group_or_empty m 6 in
      let V3 := group_str m 7 in let S3 := group_or_empty m 8 in
      when (negb (BibleBooksCodes G BBB))
           (logging_error "VerseRangeKey: Invalid {!r} book code" BBB) ;;
      when (strictCheckingFlag G)
           (assert (BibleBooksCodes G BBB) ;;
            SimpleVersesKey.assert_after 1 V1 S1 V2 S2 ;;
            SimpleVersesKey.assert_after 0 V2 S2 V3 S3) ;;
      k1 <- SimpleVerseKey.init_BCVS G BBB C V1 (Some S1) ;;
      range <- VerseRangeKey.parse_VV G fuel true BBB C V2 S2 V3 S3 ;;
      ret (FlexibleVersesKey.Build
             [FlexibleVersesKey.Verse k1; FlexibleVersesKey.VerseRange range]
             (Some "V,V-V"))
  | None =>
  match re_search VERSE_PLUS_RANGE_PLUS_RE s with
  | Some m =>
      let BBB := group_str m 1 in let C := group_str m 2 in
      let V1 := group_str m 3 in let S1 := group_or_empty m 4 in
      let V2 := group_str m 5 in let S2 := group_or_empty m 6 in
      let V3 := group_str m 7 in let S3 := group_or_empty m 8 in
      let V4 := group_str m 9 in let S4 := group_or_empty m 10 in
      when (negb (BibleBooksCodes G BBB))
           (logging_error "VerseRangeKey: Invalid {!r} book code" BBB) ;;
      when (strictCheckingFlag G)
           (assert (BibleBooksCodes G BBB) ;;
            SimpleVersesKey.assert_after 1 V1 S1 V2 S2 ;;
            SimpleVersesKey.assert_after 0 V2 S2 V3 S3 ;;
            SimpleVersesKey.assert_after 1 V3 S3 V4 S4) ;;
      k1 <- SimpleVerseKey.init_BCVS G BBB C V1 (Some S1) ;;
      range <- VerseRangeKey.parse_VV G fuel true BBB C V2 S2 V3 S3 ;;
      k4 <- SimpleVerseKey.init_BCVS G BBB C V4 (Some S4) ;;
      ret (FlexibleVersesKey.Build
             [FlexibleVersesKey.Verse k1; FlexibleVersesKey.VerseRange range;
              FlexibleVersesKey.Verse k4]
             (Some "V,V-V,V"))
  | None => ([unable_to_parse s], Raise TypeError)
  end end end.

(* ===================================================================== *)
(** ** Characters and texts of the statements *)

(** A character that counts for one in [len] and is none of " -,.:". *)
Definition plain (c : ascii) : bool :=
  negb (is_continuation_byte c)
  && forallb (fun checkChar => negb (Ascii.eqb checkChar c)) (list_ascii_of_string " -,.:").

(** A verse with its suffix, [V] and then "!" and [S] when there is one,
    as [getVerseKeyText] writes them. *)
Definition verse_suffix (V S : string) : string := V ++ bang S ++ S.

(** The key that [SimpleVerseKey( BBB, C, V, S )] builds. *)
Definition assigned (BBB C V S : string) : SimpleVerseKey.t :=
  SimpleVerseKey.Build false BBB C V S "AssignedBVCS".

(** The suffixes of the grammar. *)
Definition suffixes : list string := [""; "a"; "b"; "c"; "d"; "e"; "f"].

(** The verses that the loop of the [CV-CV] branch lists before the end of
    the range: it takes a chapter to end at verse 222. [whole_chapters]
    lists [k] chapters from chapter [c] on. *)
Fixpoint whole_chapters (w : string) (c : Z) (k : nat) : list SimpleVerseKey.t :=
  match k with
  | O => []
  | S k' => plain_verses w (str c) 1 222 ++ whole_chapters w (c + 1) k'
  end.

Definition cross_chapter_verses (w : string) (c1 v1 c2 v2 : Z) : list SimpleVerseKey.t :=
  if (c1 =? c2)%Z then plain_verses w (str c1) v1 (Z.to_nat (v2 - v1))
  else plain_verses w (str c1) v1 (Z.to_nat (223 - v1))
       ++ whole_chapters w (c1 + 1) (Z.to_nat (c2 - c1 - 1))
       ++ plain_verses w (str c2) 1 (Z.to_nat (v2 - 1)).

(** The key of the range of the verses [n1] to [n2] of a chapter, as the
    [V-V] branch of [VerseRangeKey] builds it. *)
Definition range_key (ipe : bool) (w c : string) (n1 : Z) (S1 : string) (n2 : Z) (S2 : string)
  : VerseRangeKey.t :=
  VerseRangeKey.Build ipe (assigned w c (str n1) S1) (assigned w c (str n2) S2)
    (Some (plain_verses w c n1 (Z.to_nat (n2 - n1)) ++ [assigned w c (str n2) S2])%list)
    "V-V".

(* ===================================================================== *)
(** ** Integers and their decimal text *)

Lemma int_str (n : Z) : int (str n) = Some n.
Proof.
  unfold int, str.
  rewrite DecimalString.NilZero.isi.
  - simpl. now rewrite DecimalZ.of_to.
  - destruct n; simpl; try discriminate.
    intros [= H]. now apply DecimalPos.Unsigned.to_uint_nonnil in H.
  - destruct n; simpl; try discriminate.
    intros [= H]. now apply DecimalPos.Unsigned.to_uint_nonnil in H.
Qed.

Lemma str_inj (n n' : Z) : str n = str n' -> n = n'.
Proof.
  intros H. apply (f_equal int) in H. rewrite !int_str in H. congruence.
Qed.

Lemma str_eqb_neq (n n' : Z) : n <> n' -> String.eqb (str n) (str n') = false.
Proof.
  intros H. apply String.eqb_neq. intros E. now apply str_inj in E.
Qed.

(* ===================================================================== *)
(** ** The monad *)

Lemma bind_ret_l {A B} (a : A) (f : A -> M B) : bind (ret a) f = f a.
Proof. unfold bind, ret. now destruct (f a). Qed.

Lemma bind_ret_r {A} (m : M A) : bind m (fun a => ret a) = m.
Proof. destruct m as [l [a|e|]]; cbn; try reflexivity. now rewrite app_nil_r. Qed.

Lemma bind_assoc {A B C} (m : M A) (f : A -> M B) (g : B -> M C) :
  bind (bind m f) g = bind m (fun a => bind (f a) g).
Proof.
  destruct m as [l [a|e|]]; cbn; try reflexivity.
  destruct (f a) as [l' [b|e|]]; cbn; try reflexivity.
  destruct (g b) as [l'' o]. now rewrite app_assoc.
Qed.

Lemma bind_ext {A B} (m : M A) (f g : A -> M B) :
  (forall a, f a = g a) -> bind m f = bind m g.
Proof. intros H. destruct m as [l [a|e|]]; cbn; try reflexivity. now rewrite H. Qed.

Lemma bind_Done_inv {A B} (m : M A) (f : A -> M B) l b :
  bind m f = (l, Done b) -> exists l1 a l2, m = (l1, Done a) /\ f a = (l2, Done b).
Proof.
  destruct m as [l1 [a|e|]]; cbn; try discriminate.
  destruct (f a) as [l2 o] eqn:E. intros [= <- ->]. now exists l1, a, l2.
Qed.

Lemma ret_Done_inv {A} (a b : A) l : ret a = (l, Done b) -> a = b.
Proof. now intros [= _ ->]. Qed.

Ltac bind_inv H :=
  repeat (rewrite ?bind_assoc in H; apply bind_Done_inv in H;
          let l1 := fresh "l" in let a := fresh "a" in let l2 := fresh "l" in
          let Hm := fresh "Hm" in
          destruct H as (l1 & a & l2 & Hm & H); cbn beta in H);
  repeat match goal with
         | E : ret _ = (_, Done _) |- _ => apply ret_Done_inv in E
         end.

Lemma int_of_str (n : Z) : int_of (str n) = ret n.
Proof. unfold int_of. now rewrite int_str. Qed.

Lemma init_BCVS_nodebug (G : Globals) BBB C V (suffix : option string) :
  debugFlag G = false ->
  SimpleVerseKey.init_BCVS G BBB C V suffix =
  ret (SimpleVerseKey.Build false BBB C V (match suffix with None => "" | Some x => x end)
                            "AssignedBVCS").
Proof. intros H. unfold SimpleVerseKey.init_BCVS. rewrite H. reflexivity. Qed.

Lemma try_TypeError {A} : try_except_TypeError (A := A) ([], Raise TypeError) = ret None.
Proof. reflexivity. Qed.

Ltac bind_step := rewrite ?bind_assoc; apply bind_ext; intros ?.

(* ===================================================================== *)
(** ** Where [TypeError] comes from *)

Lemma nt_ret {A} (a : A) : no_TypeError (ret a).
Proof. discriminate. Qed.

Lemma nt_bind {A B} (m : M A) (f : A -> M B) :
  no_TypeError m -> (forall a, no_TypeError (f a)) -> no_TypeError (bind m f).
Proof.
  unfold no_TypeError. destruct m as [l [a|e|]]; cbn; intros Hm Hf.
  - specialize (Hf a). now destruct (f a).
  - intros [= ->]. now apply Hm.
  - discriminate.
Qed.

Lemma nt_assert b : no_TypeError (assert b).
Proof. destruct b; discriminate. Qed.

Lemma nt_logging_error fmt arg : no_TypeError (logging_error fmt arg).
Proof. discriminate. Qed.

Lemma nt_when b m : no_TypeError m -> no_TypeError (when b m).
Proof. destruct b; [trivial | discriminate]. Qed.

Lemma nt_int_of s : no_TypeError (int_of s).
Proof. unfold int_of. destruct (int s); discriminate. Qed.

Lemma nt_AttributeError : no_TypeError SimpleVersesKey.log_invalid_self_BBB.
Proof. discriminate. Qed.

Create HintDb nt.
#[local] Hint Resolve nt_ret nt_assert nt_logging_error nt_when nt_int_of
  nt_AttributeError : nt.

Ltac nt :=
  repeat first
    [ progress rewrite !bind_assoc
    | rewrite bind_ret_l; cbn [fst snd]
    | apply nt_bind; [|intros ?]
    | solve [auto with nt]
    | apply nt_when ].

Lemma nt_init_BCVS G w c v sf : no_TypeError (SimpleVerseKey.init_BCVS G w c v sf).
Proof. unfold SimpleVerseKey.init_BCVS. nt. Qed.

Lemma nt_assert_after k V1 S1 V2 S2 :
  no_TypeError (SimpleVersesKey.assert_after k V1 S1 V2 S2).
Proof. unfold SimpleVersesKey.assert_after. nt. Qed.

#[local] Hint Resolve nt_init_BCVS nt_assert_after : nt.

Lemma nt_expand_VV G fuel : forall w c v v2 s2 acc,
  no_TypeError (VerseRangeKey.expand_VV G fuel w c v v2 s2 acc).
Proof.
  induction fuel as [|fuel IH]; intros; cbn [VerseRangeKey.expand_VV]; [discriminate|].
  destruct (String.eqb v v2); nt.
Qed.

Lemma nt_expand_CVCV G fuel : forall w c v c2 v2 s2 acc,
  no_TypeError (VerseRangeKey.expand_CVCV G fuel w c v c2 v2 s2 acc).
Proof.
  induction fuel as [|fuel IH]; intros; cbn [VerseRangeKey.expand_CVCV]; [discriminate|].
  destruct (String.eqb c c2 && String.eqb v v2); nt.
  destruct (222 <? _)%Z; nt.
Qed.

#[local] Hint Resolve nt_expand_VV nt_expand_CVCV : nt.

Lemma nt_parse_VV G fuel ipe w c v1 s1 v2 s2 :
  no_TypeError (VerseRangeKey.parse_VV G fuel ipe w c v1 s1 v2 s2).
Proof. unfold VerseRangeKey.parse_VV. nt. Qed.

#[local] Hint Resolve nt_parse_VV : nt.

Lemma try_no_TypeError {A} (m : M A) :
  no_TypeError m -> try_except_TypeError m = bind m (fun a => ret (Some a)).
Proof.
  unfold no_TypeError. destruct m as [l [a|e|]]; cbn; intros H; try reflexivity.
  - now rewrite app_nil_r.
  - destruct e; try reflexivity. now contradiction H.
Qed.

Lemma snd_bind_no_TypeError {A B} (m : M A) (f : A -> M B) :
  no_TypeError m -> (forall a, no_TypeError (f a)) -> snd (bind m f) <> Raise TypeError.
Proof. intros Hm Hf. now apply nt_bind. Qed.

(* ===================================================================== *)
(** ** The matcher on the pieces of a reference *)

(** Each piece [X] of the patterns (book code, number, suffix, verse with
    suffix, ...) gets two lemmas about [flat_map K (run X b s)], the form in
    which [run] continues a match of [X] with what follows it:
    - [.._inv]: any result comes from a text of the piece's shape at the
      head of [s];
    - [.._run]: on a text of that shape the continuation is entered once,
      after the whole piece, as long as what follows cannot start with a
      character of a reference. *)

Lemma append_assoc (a b c : string) : ((a ++ b) ++ c = a ++ (b ++ c))%string.
Proof. induction a as [|x a IH]; cbn; [reflexivity | now rewrite IH]. Qed.

Lemma append_nil_r (a : string) : (a ++ "" = a)%string.
Proof. induction a as [|x a IH]; cbn; [reflexivity | now rewrite IH]. Qed.

Lemma flat_map_flat_map {A B C} (f : A -> list B) (g : B -> list C) (l : list A) :
  flat_map g (flat_map f l) = flat_map (fun a => flat_map g (f a)) l.
Proof.
  induction l as [|a l IH]; cbn; [reflexivity|].
  now rewrite flat_map_app, IH.
Qed.

Lemma flat_map_map {A B C} (f : A -> B) (g : B -> list C) (l : list A) :
  flat_map g (map f l) = flat_map (fun a => g (f a)) l.
Proof. induction l as [|a l IH]; cbn; [reflexivity | now rewrite IH]. Qed.

Lemma flat_map_singleton {A} (l : list A) : flat_map (fun x => [x]) l = l.
Proof. induction l as [|a l IH]; cbn; [reflexivity | now rewrite IH]. Qed.

Lemma BBB_RE_eq : BBB_RE = Group (Class clsB1 +++ Class clsB2 +++ Class clsB3).
Proof. reflexivity. Qed.
Lemma V_RE_eq :
  V_RE = Group (Alt (Class cls19 +++ Opt (Class cls09))
                    (Class cls11 +++ Class cls09 +++ Class cls09)).
Proof. reflexivity. Qed.
Lemma OPTS_eq : OPTS = Opt (Lit "!" +++ Group (Opt (Class clsaf))).
Proof. reflexivity. Qed.

Lemma in_class_09_word c : in_class cls09 c = true -> in_class word c = true.
Proof.
  unfold in_class, cls09, word. cbn [existsb]. intros H.
  rewrite orb_false_r in H. rewrite H. now rewrite orb_true_r.
Qed.
Lemma in_class_af_word c : in_class clsaf c = true -> in_class word c = true.
Proof.
  unfold in_class, clsaf, word. cbn [existsb]. intros H.
  rewrite orb_false_r in H. rewrite H. now rewrite !orb_true_r.
Qed.
Lemma in_class_19_09 c : in_class cls19 c = true -> in_class cls09 c = true.
Proof.
  unfold in_class, cls19, cls09, in_range. cbn [existsb fst snd rng].
  rewrite !orb_false_r, !andb_true_iff, !Nat.leb_le. cbn. lia.
Qed.
Lemma in_class_11_19 c : in_class cls11 c = true -> in_class cls19 c = true.
Proof.
  unfold in_class, cls11, cls19, in_range. cbn [existsb fst snd rng].
  rewrite !orb_false_r, !andb_true_iff, !Nat.leb_le. cbn. lia.
Qed.
Lemma bang_word c : in_class word c = false -> Ascii.eqb "!" c = false.
Proof.
  intros H. destruct (Ascii.eqb_spec "!"%char c) as [<-|]; [|reflexivity].
  discriminate H.
Qed.
Lemma not_word_not_af c : in_class word c = false -> in_class clsaf c = false.
Proof.
  intros H. destruct (in_class clsaf c) eqn:E; [|reflexivity].
  apply in_class_af_word in E. congruence.
Qed.
Lemma not_word_not_09 c : in_class word c = false -> in_class cls09 c = false.
Proof.
  intros H. destruct (in_class cls09 c) eqn:E; [|reflexivity].
  apply in_class_09_word in E. congruence.
Qed.

Lemma digit_not c d : in_class cls09 d = true -> in_class cls09 c = false -> Ascii.eqb c d = false.
Proof.
  intros Hd Hc. destruct (Ascii.eqb_spec c d) as [->|]; [congruence | reflexivity].
Qed.

Lemma word_not c d : in_class word d = true -> in_class word c = false -> Ascii.eqb c d = false.
Proof.
  intros Hd Hc. destruct (Ascii.eqb_spec c d) as [->|]; [congruence | reflexivity].
Qed.

(** Case analysis on what [run] looks at: the next character of the text
    and its membership in a class. *)
Ltac run_simpl :=
  cbn [flat_map map Datatypes.app matched rest groups append In ngroups nones repeat Nat.add
       strip_prefix truthy negb andb].
Ltac run_step :=
  run_simpl;
  match goal with
  | |- False -> _ => intros []
  | |- context [match ?s with EmptyString => _ | String _ _ => _ end] =>
      is_var s; destruct s
  | H : in_class ?cls ?a = _ |- context [if in_class ?cls ?a then _ else _] =>
      rewrite H
  | |- context [if in_class ?cls ?a then _ else _] =>
      let E := fresh "E" in destruct (in_class cls a) eqn:E
  | |- context [Ascii.eqb ?a ?a] => rewrite Ascii.eqb_refl
  | H : Ascii.eqb ?a ?b = _ |- context [if Ascii.eqb ?a ?b then _ else _] =>
      rewrite H
  | |- context [if Ascii.eqb ?a ?b then _ else _] =>
      let E := fresh "E" in destruct (Ascii.eqb a b) eqn:E
  end.
Ltac run_cases := repeat run_step; run_simpl.
Ltac eqb_subst :=
  repeat match goal with
         | E : Ascii.eqb _ _ = true |- _ => apply Ascii.eqb_eq in E; subst
         end.
Ltac word_head :=
  cbn [head_in rest];
  first [ assumption
        | apply in_class_af_word; assumption
        | apply in_class_09_word; assumption
        | reflexivity ].

Ltac in_cases H :=
  repeat (apply in_app_or in H; destruct H as [H|H]);
  try contradiction.

Lemma BBB_inv {X} (K : rmatch -> list X) b s x :
  In x (flat_map K (run BBB_RE b s)) ->
  exists w s', bookcode w /\ s = (w ++ s')%string /\ In x (K (mkMatch w s' [Some w])).
Proof.
  rewrite BBB_RE_eq. cbn [run]. run_cases.
  rewrite ?app_nil_r. intros H.
  eexists (String _ (String _ (String _ ""))), _.
  split; [constructor; eassumption|]. split; [reflexivity | exact H].
Qed.

Lemma BBB_run {X} (K : rmatch -> list X) b w s' :
  bookcode w ->
  flat_map K (run BBB_RE b (w ++ s')) = K (mkMatch w s' [Some w]).
Proof.
  intros [a b0 c Ha Hb Hc]. rewrite BBB_RE_eq. cbn [run append].
  rewrite Ha. run_simpl. rewrite Hb. run_simpl. rewrite Hc. run_simpl.
  now rewrite ?app_nil_r.
Qed.

Lemma NUM_inv {X} (K : rmatch -> list X) b s x :
  In x (flat_map K (run V_RE b s)) ->
  exists v s', numeral v /\ s = (v ++ s')%string /\ In x (K (mkMatch v s' [Some v])).
Proof.
  rewrite V_RE_eq. cbn [run]. run_cases; rewrite ?app_nil_r; intros H; in_cases H;
    refine (ex_intro _ _ (ex_intro _ _ (conj _ (conj _ H))));
    solve [reflexivity | constructor; assumption].
Qed.

Lemma NUM_run {X} (K : rmatch -> list X) b v s' :
  numeral v -> head_in cls09 s' = false -> stops_at_digit K ->
  flat_map K (run V_RE b (v ++ s')) = K (mkMatch v s' [Some v]).
Proof.
  intros Hv Hs' HK.
  destruct Hv as [a Ha|a b0 Ha Hb|a b0 c Ha Hb Hc];
    [| |pose proof (in_class_11_19 _ Ha)];
    destruct s' as [|d s']; cbn [head_in] in Hs';
    rewrite V_RE_eq; cbn [run append]; run_cases;
    repeat match goal with
           | |- context [K ?m] => rewrite (HK m) by (cbn [head_in rest]; assumption)
           end;
    rewrite ?app_nil_r; reflexivity.
Qed.

Lemma OPTS_inv {X} (K : rmatch -> list X) b s x :
  In x (flat_map K (run OPTS b s)) ->
  exists t g s', sfx t g /\ s = (t ++ s')%string /\ In x (K (mkMatch t s' [g])).
Proof.
  rewrite OPTS_eq. cbn [run]. run_cases; rewrite ?app_nil_r; intros H; in_cases H;
    eqb_subst;
    refine (ex_intro _ _ (ex_intro _ _ (ex_intro _ _ (conj _ (conj _ H)))));
    solve [reflexivity | constructor; assumption].
Qed.

Lemma OPTS_run {X} (K : rmatch -> list X) b t g s' :
  sfx t g -> head_in word s' = false -> stops_at_word K ->
  flat_map K (run OPTS b (t ++ s')) = K (mkMatch t s' [g]).
Proof.
  intros Ht Hs' HK.
  destruct Ht as [| |c Hc]; destruct s' as [|d s']; cbn [head_in] in Hs';
    try pose proof (bang_word _ Hs'); try pose proof (not_word_not_af _ Hs');
    rewrite OPTS_eq; cbn [run append]; run_cases;
    repeat match goal with
           | |- context [K ?m] => rewrite (HK m) by word_head
           end;
    rewrite ?app_nil_r; reflexivity.
Qed.

Lemma flat_map_run_Cat {X} (K : rmatch -> list X) r1 r2 b s :
  flat_map K (run (r1 +++ r2) b s) =
  flat_map (fun m1 =>
    flat_map (fun m2 =>
      K (mkMatch (matched m1 ++ matched m2) (rest m2) (groups m1 ++ groups m2)))
      (run r2 (b && negb (truthy (matched m1))) (rest m1)))
    (run r1 b s).
Proof.
  cbn [run]. rewrite flat_map_flat_map. apply flat_map_ext. intros m1.
  now rewrite flat_map_map.
Qed.

Lemma strip_prefix_app l s : strip_prefix l (l ++ s) = Some s.
Proof.
  induction l as [|c l IH]; cbn; [reflexivity|]. now rewrite Ascii.eqb_refl.
Qed.

Lemma strip_prefix_inv l : forall s s', strip_prefix l s = Some s' -> s = (l ++ s')%string.
Proof.
  induction l as [|c l IH]; intros s s'; cbn.
  - now intros [= ->].
  - destruct s as [|d s]; [discriminate|].
    destruct (Ascii.eqb_spec c d) as [->|]; [|discriminate].
    intros H. now rewrite (IH _ _ H).
Qed.

Lemma Lit_inv {X} (K : rmatch -> list X) l b s x :
  In x (flat_map K (run (Lit l) b s)) ->
  exists s', s = (l ++ s')%string /\ In x (K (mkMatch l s' [])).
Proof.
  cbn [run]. destruct (strip_prefix l s) as [s'|] eqn:E; cbn [flat_map]; [|intros []].
  rewrite app_nil_r. intros H. exists s'. split; [now apply strip_prefix_inv | exact H].
Qed.

Lemma Lit_run {X} (K : rmatch -> list X) l b s' :
  flat_map K (run (Lit l) b (l ++ s')) = K (mkMatch l s' []).
Proof. cbn [run]. rewrite strip_prefix_app. cbn [flat_map]. now rewrite app_nil_r. Qed.

(** A literal stops a text that goes on with another character. *)
Lemma Lit_stop {X} (K : rmatch -> list X) c l b d s :
  Ascii.eqb c d = false -> flat_map K (run (Lit (String c l)) b (String d s)) = [].
Proof. intros H. cbn [run strip_prefix]. now rewrite H. Qed.

Lemma sfx_head_not_digit t g s' :
  sfx t g -> head_in word s' = false -> head_in cls09 (t ++ s') = false.
Proof.
  intros [| |c Hc] Hs'; cbn [append]; try reflexivity.
  destruct s' as [|d s']; [reflexivity|]. now apply not_word_not_09.
Qed.

(** The optional suffix does not start at a digit, and what follows a
    verse does not either. *)
Lemma OPTS_stop {X} (K : rmatch -> list X) b s :
  stops_at_word K -> head_in cls09 s = true -> flat_map K (run OPTS b s) = [].
Proof.
  intros HK Hs. destruct s as [|d s]; [discriminate|]. cbn [head_in] in Hs.
  pose proof (@digit_not "!"%char d Hs eq_refl).
  pose proof (in_class_09_word _ Hs).
  rewrite OPTS_eq. cbn [run]. run_cases.
  rewrite (HK (mkMatch _ _ _)) by word_head. reflexivity.
Qed.

Lemma VS_inv {X} (K : rmatch -> list X) b s x :
  In x (flat_map K (run VS_RE b s)) ->
  exists v t g s', numeral v /\ sfx t g /\ s = (v ++ t ++ s')%string
                   /\ In x (K (mkMatch (v ++ t) s' [Some v; g])).
Proof.
  change VS_RE with (V_RE +++ OPTS)%re. rewrite flat_map_run_Cat. intros H.
  apply NUM_inv in H. destruct H as (v & s1 & Hv & -> & H). cbn [matched rest groups] in H.
  apply OPTS_inv in H. destruct H as (t & g & s' & Ht & -> & H).
  cbn [matched rest groups Datatypes.app] in H.
  now exists v, t, g, s'.
Qed.

Lemma VS_run {X} (K : rmatch -> list X) b v t g s' :
  numeral v -> sfx t g -> head_in word s' = false -> stops_at_word K ->
  flat_map K (run VS_RE b (v ++ t ++ s')) = K (mkMatch (v ++ t) s' [Some v; g]).
Proof.
  intros Hv Ht Hs' HK.
  change VS_RE with (V_RE +++ OPTS)%re. rewrite flat_map_run_Cat.
  rewrite NUM_run; [| assumption | now apply sfx_head_not_digit with (g := g) |].
  - cbn [matched rest groups]. rewrite OPTS_run with (g := g); [reflexivity|assumption..|].
    intros m Hm. now apply HK.
  - intros m Hm. apply OPTS_stop; [|assumption]. intros m' Hm'. now apply HK.
Qed.

Lemma CVS_inv {X} (K : rmatch -> list X) b s x :
  In x (flat_map K (run CVS_RE b s)) ->
  exists c v t g s',
    numeral c /\ numeral v /\ sfx t g /\ s = (c ++ ":" ++ v ++ t ++ s')%string
    /\ In x (K (mkMatch (c ++ ":" ++ v ++ t) s' [Some c; Some v; g])).
Proof.
  change CVS_RE with (V_RE +++ Lit ":" +++ VS_RE)%re. rewrite flat_map_run_Cat. intros H.
  apply NUM_inv in H. destruct H as (c & s1 & Hc & -> & H). cbn [matched rest groups] in H.
  rewrite flat_map_run_Cat in H.
  apply Lit_inv in H. destruct H as (s2 & -> & H). cbn [matched rest groups] in H.
  apply VS_inv in H. destruct H as (v & t & g & s' & Hv & Ht & -> & H).
  cbn [matched rest groups Datatypes.app] in H.
  now exists c, v, t, g, s'.
Qed.

Lemma CVS_run {X} (K : rmatch -> list X) b c v t g s' :
  numeral c -> numeral v -> sfx t g -> head_in word s' = false -> stops_at_word K ->
  flat_map K (run CVS_RE b (c ++ ":" ++ v ++ t ++ s'))
  = K (mkMatch (c ++ ":" ++ v ++ t) s' [Some c; Some v; g]).
Proof.
  intros Hc Hv Ht Hs' HK.
  change CVS_RE with (V_RE +++ Lit ":" +++ VS_RE)%re. rewrite flat_map_run_Cat.
  rewrite NUM_run; [| assumption | reflexivity |].
  - cbn [matched rest groups]. rewrite flat_map_run_Cat.
    rewrite (Lit_run _ ":"). cbn [matched rest groups].
    rewrite VS_run with (g := g); [reflexivity | assumption.. |].
    intros m Hm. now apply HK.
  - intros m Hm. rewrite flat_map_run_Cat.
    destruct (rest m) as [|d r]; [discriminate|]. cbn [head_in] in Hm.
    apply Lit_stop. now apply digit_not.
Qed.

Lemma BCVS_inv {X} (K : rmatch -> list X) b s x :
  In x (flat_map K (run BCVS_RE b s)) ->
  exists w c v t g s',
    bookcode w /\ numeral c /\ numeral v /\ sfx t g
    /\ s = (w ++ "_" ++ c ++ ":" ++ v ++ t ++ s')%string
    /\ In x (K (mkMatch (w ++ "_" ++ c ++ ":" ++ v ++ t) s' [Some w; Some c; Some v; g])).
Proof.
  change BCVS_RE with (BBB_RE +++ Lit "_" +++ CVS_RE)%re. rewrite flat_map_run_Cat. intros H.
  apply BBB_inv in H. destruct H as (w & s1 & Hw & -> & H). cbn [matched rest groups] in H.
  rewrite flat_map_run_Cat in H.
  apply Lit_inv in H. destruct H as (s2 & -> & H). cbn [matched rest groups] in H.
  apply CVS_inv in H. destruct H as (c & v & t & g & s' & Hc & Hv & Ht & -> & H).
  cbn [matched rest groups Datatypes.app] in H.
  now exists w, c, v, t, g, s'.
Qed.

Lemma BCVS_run {X} (K : rmatch -> list X) b w c v t g s' :
  bookcode w -> numeral c -> numeral v -> sfx t g -> head_in word s' = false ->
  stops_at_word K ->
  flat_map K (run BCVS_RE b (w ++ "_" ++ c ++ ":" ++ v ++ t ++ s'))
  = K (mkMatch (w ++ "_" ++ c ++ ":" ++ v ++ t) s' [Some w; Some c; Some v; g]).
Proof.
  intros Hw Hc Hv Ht Hs' HK.
  change BCVS_RE with (BBB_RE +++ Lit "_" +++ CVS_RE)%re. rewrite flat_map_run_Cat.
  rewrite BBB_run by assumption. cbn [matched rest groups]. rewrite flat_map_run_Cat.
  rewrite (Lit_run _ "_"). cbn [matched rest groups].
  rewrite CVS_run with (g := g); [reflexivity | assumption.. |].
  intros m Hm. now apply HK.
Qed.

Lemma Bos_inv {X} (K : rmatch -> list X) b s x :
  In x (flat_map K (run Bos b s)) -> b = true /\ In x (K (mkMatch "" s [])).
Proof.
  cbn [run]. destruct b; cbn [flat_map]; [|intros []].
  rewrite app_nil_r. now split.
Qed.

Lemma Bos_run {X} (K : rmatch -> list X) s :
  flat_map K (run Bos true s) = K (mkMatch "" s []).
Proof. cbn [run flat_map]. now rewrite app_nil_r. Qed.

Lemma Eos_inv {X} (K : rmatch -> list X) b s x :
  In x (flat_map K (run Eos b s)) -> at_end s = true /\ In x (K (mkMatch "" s [])).
Proof.
  cbn [run]. destruct (at_end s); cbn [flat_map]; [|intros []].
  rewrite app_nil_r. now split.
Qed.

Lemma Eos_run {X} (K : rmatch -> list X) b :
  flat_map K (run Eos b "") = K (mkMatch "" "" []).
Proof. cbn [run at_end flat_map]. now rewrite app_nil_r. Qed.

Lemma Eos_stop {X} (K : rmatch -> list X) b s :
  head_in word s = true -> flat_map K (run Eos b s) = [].
Proof.
  destruct s as [|d [|e s]]; cbn [head_in run at_end]; try discriminate; try reflexivity.
  intros Hd. destruct (Ascii.eqb_spec d newline) as [->|]; [discriminate | reflexivity].
Qed.

(** What follows a verse in the patterns: the end, or a separator. *)
Lemma stops_Eos {X} (K : rmatch -> rmatch -> list X) (b : rmatch -> bool) :
  stops_at_word (fun m1 => flat_map (K m1) (run Eos (b m1) (rest m1))).
Proof. intros m Hm. now apply Eos_stop. Qed.

Lemma stops_Lit {X} (K : rmatch -> rmatch -> list X) (b : rmatch -> bool) c l r :
  in_class word c = false ->
  stops_at_word (fun m1 => flat_map (K m1) (run (Lit (String c l) +++ r) (b m1) (rest m1))).
Proof.
  intros Hc m Hm. rewrite flat_map_run_Cat.
  destruct (rest m) as [|d s]; [discriminate|]. cbn [head_in] in Hm.
  apply Lit_stop. now apply word_not.
Qed.

(* ===================================================================== *)
(** ** The patterns on the text of a reference *)

Lemma search_from_Bos_false r s : search_from (Bos +++ r) false s = None.
Proof. induction s as [|c s IH]; cbn; [reflexivity | exact IH]. Qed.

(** Every pattern of the module starts with [^]: a match starts at offset 0. *)
Lemma re_search_anchored r s :
  re_search (Bos +++ r) s = hd_error (flat_map (fun m => [m]) (run (Bos +++ r) true s)).
Proof.
  rewrite flat_map_singleton. unfold re_search.
  destruct s as [|c s]; cbn [search_from];
    destruct (run (Bos +++ r) true _) as [|m l]; try reflexivity.
  apply search_from_Bos_false.
Qed.

Lemma re_search_In r s m :
  re_search (Bos +++ r) s = Some m ->
  In m (flat_map (fun m => [m]) (run (Bos +++ r) true s)).
Proof.
  rewrite re_search_anchored.
  destruct (flat_map _ _) as [|m' l]; cbn; [discriminate|]. intros [= ->]. now left.
Qed.

Lemma matches_false r s : matches r s = false -> re_search r s = None.
Proof. unfold matches. now destruct (re_search r s). Qed.

Ltac piece_inv H :=
  cbn [matched rest groups Datatypes.app] in H;
  lazymatch type of H with
  | In _ (flat_map _ (run Bos _ _)) =>
      apply Bos_inv in H; destruct H as (_ & H)
  | In _ (flat_map _ (run BCVS_RE _ _)) =>
      apply BCVS_inv in H;
      let w := fresh "w" in let c := fresh "c" in let v := fresh "v" in
      let t := fresh "t" in let g := fresh "g" in let s' := fresh "s" in
      let Hw := fresh "Hw" in let Hc := fresh "Hc" in let Hv := fresh "Hv" in
      let Ht := fresh "Ht" in
      destruct H as (w & c & v & t & g & s' & Hw & Hc & Hv & Ht & -> & H)
  | In _ (flat_map _ (run CVS_RE _ _)) =>
      apply CVS_inv in H;
      let c := fresh "c" in let v := fresh "v" in
      let t := fresh "t" in let g := fresh "g" in let s' := fresh "s" in
      let Hc := fresh "Hc" in let Hv := fresh "Hv" in let Ht := fresh "Ht" in
      destruct H as (c & v & t & g & s' & Hc & Hv & Ht & -> & H)
  | In _ (flat_map _ (run VS_RE _ _)) =>
      apply VS_inv in H;
      let v := fresh "v" in let t := fresh "t" in let g := fresh "g" in
      let s' := fresh "s" in let Hv := fresh "Hv" in let Ht := fresh "Ht" in
      destruct H as (v & t & g & s' & Hv & Ht & -> & H)
  | In _ (flat_map _ (run (Lit _) _ _)) =>
      apply Lit_inv in H; let s' := fresh "s" in destruct H as (s' & -> & H)
  | In _ (flat_map _ (run Eos _ _)) =>
      apply Eos_inv in H; let He := fresh "He" in destruct H as (He & H)
  | In _ (flat_map _ (run (Cat _ _) _ _)) =>
      rewrite flat_map_run_Cat in H
  end.

Ltac pattern_inv H :=
  apply re_search_In in H; repeat piece_inv H;
  cbn [matched rest groups Datatypes.app In] in H; destruct H as [<-|[]].

Lemma suffix_sfx S : suffix S -> sfx (bang S ++ S) (sfx_group S).
Proof. intros [->|(c & Hc & ->)]; cbn; now constructor. Qed.

Lemma sfx_suffix t g :
  sfx t g -> suffix (match g with Some x => if truthy x then x else "" | None => "" end).
Proof. intros [| |c Hc]; [now left | now left | right; now exists c]. Qed.

(** [VERSE_RE] on the text of a reference. *)
Lemma VERSE_RE_run w c v t g :
  bookcode w -> numeral c -> numeral v -> sfx t g ->
  re_search VERSE_RE (w ++ "_" ++ c ++ ":" ++ v ++ t)
  = Some (mkMatch (w ++ "_" ++ c ++ ":" ++ v ++ t) "" [Some w; Some c; Some v; g]).
Proof.
  intros Hw Hc Hv Ht. unfold VERSE_RE. rewrite re_search_anchored.
  rewrite flat_map_run_Cat, Bos_run. cbn [matched rest groups].
  rewrite flat_map_run_Cat.
  rewrite <- (append_nil_r t) at 1.
  rewrite BCVS_run with (g := g); [|assumption..|reflexivity|apply stops_Eos].
  cbn [matched rest groups]. rewrite Eos_run.
  cbn [matched rest groups append Datatypes.app hd_error]. now rewrite append_nil_r.
Qed.

Lemma VERSE_RANGE_RE_run w c v1 t1 g1 v2 t2 g2 :
  bookcode w -> numeral c -> numeral v1 -> sfx t1 g1 -> numeral v2 -> sfx t2 g2 ->
  exists m,
    re_search VERSE_RANGE_RE (w ++ "_" ++ c ++ ":" ++ v1 ++ t1 ++ "-" ++ v2 ++ t2) = Some m
    /\ groups m = [Some w; Some c; Some v1; g1; Some v2; g2].
Proof.
  intros Hw Hc Hv1 Ht1 Hv2 Ht2. unfold VERSE_RANGE_RE. rewrite re_search_anchored.
  rewrite flat_map_run_Cat, Bos_run. cbn [matched rest groups].
  rewrite flat_map_run_Cat.
  rewrite BCVS_run with (g := g1);
    [|assumption..|reflexivity|apply stops_Lit; reflexivity].
  cbn [matched rest groups]. rewrite flat_map_run_Cat, (Lit_run _ "-").
  cbn [matched rest groups]. rewrite flat_map_run_Cat.
  rewrite <- (append_nil_r t2).
  rewrite VS_run with (g := g2); [|assumption..|reflexivity|apply stops_Eos].
  cbn [matched rest groups]. rewrite Eos_run.
  cbn [matched rest groups Datatypes.app hd_error]. eexists. split; reflexivity.
Qed.

Lemma VERSE_RANGE_RE_inv s m :
  re_search VERSE_RANGE_RE s = Some m ->
  bookcode (group_str m 1) /\ numeral (group_str m 2)
  /\ numeral (group_str m 3) /\ suffix (group_or_empty m 4)
  /\ numeral (group_str m 5) /\ suffix (group_or_empty m 6).
Proof.
  intros H. unfold VERSE_RANGE_RE in H. pattern_inv H.
  unfold group_str, group_or_empty, group. cbn [groups nth Nat.sub].
  repeat split; eauto using sfx_suffix.
Qed.

(** The groups of a match of a compound pattern. *)
Lemma VERSE_RANGE_PLUS_RE_inv s m :
  re_search VERSE_RANGE_PLUS_RE s = Some m ->
  bookcode (group_str m 1) /\ numeral (group_str m 2)
  /\ numeral (group_str m 3) /\ suffix (group_or_empty m 4)
  /\ numeral (group_str m 5) /\ suffix (group_or_empty m 6)
  /\ numeral (group_str m 7) /\ suffix (group_or_empty m 8).
Proof.
  intros H. unfold VERSE_RANGE_PLUS_RE in H. pattern_inv H.
  unfold group_str, group_or_empty, group. cbn [groups nth Nat.sub].
  repeat split; eauto using sfx_suffix.
Qed.

Lemma VERSE_PLUS_RANGE_RE_inv s m :
  re_search VERSE_PLUS_RANGE_RE s = Some m ->
  bookcode (group_str m 1) /\ numeral (group_str m 2)
  /\ numeral (group_str m 3) /\ suffix (group_or_empty m 4)
  /\ numeral (group_str m 5) /\ suffix (group_or_empty m 6)
  /\ numeral (group_str m 7) /\ suffix (group_or_empty m 8).
Proof.
  intros H. unfold VERSE_PLUS_RANGE_RE in H. pattern_inv H.
  unfold group_str, group_or_empty, group. cbn [groups nth Nat.sub].
  repeat split; eauto using sfx_suffix.
Qed.

Lemma VERSE_PLUS_RANGE_PLUS_RE_inv s m :
  re_search VERSE_PLUS_RANGE_PLUS_RE s = Some m ->
  bookcode (group_str m 1) /\ numeral (group_str m 2)
  /\ numeral (group_str m 3) /\ suffix (group_or_empty m 4)
  /\ numeral (group_str m 5) /\ suffix (group_or_empty m 6)
  /\ numeral (group_str m 7) /\ suffix (group_or_empty m 8)
  /\ numeral (group_str m 9) /\ suffix (group_or_empty m 10).
Proof.
  intros H. unfold VERSE_PLUS_RANGE_PLUS_RE in H. pattern_inv H.
  unfold group_str, group_or_empty, group. cbn [groups nth Nat.sub].
  repeat split; eauto using sfx_suffix.
Qed.

(* ===================================================================== *)
(** ** Valid fields of a reference *)

Lemma full_match_BBB w : full_match BBB_RE w = true -> bookcode w.
Proof.
  unfold full_match. rewrite existsb_exists. intros (m & Hm & Hrest).
  rewrite <- (flat_map_singleton (run BBB_RE true w)) in Hm.
  apply BBB_inv in Hm. destruct Hm as (w' & s' & Hw' & -> & [<-|[]]).
  cbn in Hrest. destruct s'; [|discriminate]. now rewrite append_nil_r.
Qed.

Lemma numeralb_numeral s : numeralb s = true -> numeral s.
Proof.
  destruct s as [|a [|b [|c [|d s]]]]; cbn [numeralb]; try discriminate;
    rewrite ?andb_true_iff; intros H; decompose [and] H; now constructor.
Qed.

Lemma numeral_str (n : Z) : (1 <= n <= 199)%Z -> numeral (str n).
Proof.
  intros Hn. apply numeralb_numeral.
  assert (H : forallb (fun k => numeralb (str (Z.of_nat k))) (seq 1 199) = true)
    by (vm_compute; reflexivity).
  rewrite forallb_forall in H.
  specialize (H (Z.to_nat n)). rewrite Z2Nat.id in H by lia.
  apply H. apply in_seq. lia.
Qed.

Lemma suffix_letters S : In S [""; "a"; "b"; "c"; "d"; "e"; "f"] -> suffix S.
Proof.
  cbn [In]. intros H.
  repeat (destruct H as [<-|H]; [first [now left | right; eexists; split; [|reflexivity];
                                        reflexivity]|]).
  destruct H.
Qed.

Lemma digit_cases c :
  in_class cls09 c = true -> In c (list_ascii_of_string "0123456789").
Proof.
  destruct c as [[] [] [] [] [] [] [] []]; intros H; vm_compute in H;
    try discriminate H; cbn; repeat ((left; reflexivity) || right).
Qed.

Lemma digit19_cases c :
  in_class cls19 c = true -> In c (list_ascii_of_string "123456789").
Proof.
  destruct c as [[] [] [] [] [] [] [] []]; intros H; vm_compute in H;
    try discriminate H; cbn; repeat ((left; reflexivity) || right).
Qed.

Lemma digit11_cases c : in_class cls11 c = true -> c = "1"%char.
Proof.
  destruct c as [[] [] [] [] [] [] [] []]; intros H; vm_compute in H;
    try discriminate H; reflexivity.
Qed.

Ltac in_list_cases :=
  repeat match goal with
         | H : In _ (list_ascii_of_string _) |- _ => cbn [list_ascii_of_string In] in H
         | H : _ \/ _ |- _ => destruct H as [H|H]
         | H : False |- _ => destruct H
         | H : _ = _ :> ascii |- _ => subst
         end.

(** A text of [C_RE] or [V_RE] is the decimal text of a number in 1..199. *)
Lemma numeral_canonical v : numeral v -> exists n, (1 <= n <= 199)%Z /\ v = str n.
Proof.
  intros Hv.
  assert (H : existsb (String.eqb v) numerals = true).
  { destruct Hv as [a Ha|a b Ha Hb|a b c Ha Hb Hc].
    - apply digit19_cases in Ha. in_list_cases; vm_compute; reflexivity.
    - apply digit19_cases in Ha. apply digit_cases in Hb.
      in_list_cases; vm_compute; reflexivity.
    - apply digit11_cases in Ha. apply digit_cases in Hb. apply digit_cases in Hc.
      in_list_cases; vm_compute; reflexivity. }
  apply existsb_exists in H. destruct H as (x & Hx & E).
  apply String.eqb_eq in E. subst x. unfold numerals in Hx.
  apply in_map_iff in Hx. destruct Hx as (k & <- & Hk). apply in_seq in Hk.
  exists (Z.of_nat k). split; [lia | reflexivity].
Qed.

(* ===================================================================== *)
(** ** SimpleVerseKey: serialising and parsing again *)

Lemma SimpleVerseKey_init_text (G : Globals) w c v t g ipe :
  bookcode w -> numeral c -> numeral v -> sfx t g ->
  (strictCheckingFlag G = true -> BibleBooksCodes G w = true) ->
  SimpleVerseKey.init G (w ++ "_" ++ c ++ ":" ++ v ++ t) ipe
  = (invalid_book_log G "SimpleVerseKey: Invalid {!r} book code" w,
     Done (SimpleVerseKey.Build ipe w c v (match g with Some x => x | None => "" end)
                                "ParsedBVCS")).
Proof.
  intros Hw Hc Hv Ht Hreg.
  unfold SimpleVerseKey.init, SimpleVerseKey.parseReferenceString.
  rewrite VERSE_RE_run with (g := g) by assumption.
  unfold group_str, group_or_empty, group, invalid_book_log. cbn [groups nth Nat.sub].
  replace (match g with Some x => if truthy x then x else "" | None => "" end)
    with (match g with Some x => x | None => "" end) by (now destruct Ht).
  destruct (BibleBooksCodes G w) eqn:Hb, (strictCheckingFlag G) eqn:Hs;
    try reflexivity.
  now discriminate Hreg.
Qed.

(** C7, the claim as stated fails: under strict checking, with a book code
    that matches [BBB_RE] and is not in the registry, the reference is built
    from its four fields but parsing its [getVerseKeyText] raises
    [AssertionError]. *)
Lemma roundtrip_fails_for_unregistered_book_under_strict :
  exists r,
    SimpleVerseKey.init_BCVS strict "ZZZ" "1" "1" (Some "") = ([], Done r)
    /\ valid_reference r
    /\ SimpleVerseKey.getVerseKeyText r = "ZZZ_1:1"
    /\ SimpleVerseKey.init strict (SimpleVerseKey.getVerseKeyText r) false
       = ([LogError "SimpleVerseKey: Invalid {!r} book code" "ZZZ"], Raise AssertionError).
Proof.
  eexists. split; [vm_compute; reflexivity|]. split.
  - split; [vm_compute; reflexivity|]. split; [|split].
    + exists 1%Z. split; [lia | vm_compute; reflexivity].
    + exists 1%Z. split; [lia | vm_compute; reflexivity].
    + now left.
  - split; vm_compute; reflexivity.
Qed.

(** C7 (amended): for every reference whose book code matches the grammar,
    whose chapter and verse are in 1..199 and whose suffix is empty or one of
    a..f, and whose book code is in the registry whenever strict checking is
    on, parsing [getVerseKeyText] returns a reference equal to it
    ([__eq__]). *)
Theorem SimpleVerseKey_roundtrip (G : Globals) (r : SimpleVerseKey.t) (ipe : bool) :
  valid_reference r ->
  (strictCheckingFlag G = true -> BibleBooksCodes G (SimpleVerseKey.BBB r) = true) ->
  exists log r',
    SimpleVerseKey.init G (SimpleVerseKey.getVerseKeyText r) ipe = (log, Done r')
    /\ SimpleVerseKey.eq r' r = true.
Proof.
  destruct r as [ipe0 w c v sf kt].
  intros (Hw & (nc & Hnc & HC) & (nv & Hnv & HV) & HS) Hreg.
  cbn [SimpleVerseKey.BBB SimpleVerseKey.C SimpleVerseKey.V SimpleVerseKey.S] in *.
  subst c v. apply full_match_BBB in Hw. apply suffix_letters in HS.
  unfold SimpleVerseKey.getVerseKeyText.
  cbn [SimpleVerseKey.BBB SimpleVerseKey.C SimpleVerseKey.V SimpleVerseKey.S].
  change (if truthy sf then "!" else "") with (bang sf).
  rewrite (@SimpleVerseKey_init_text G w (str nc) (str nv) (bang sf ++ sf) (sfx_group sf) ipe)
    by (auto using numeral_str, suffix_sfx).
  eexists _, _. split; [reflexivity|].
  unfold SimpleVerseKey.eq.
  cbn [SimpleVerseKey.BBB SimpleVerseKey.C SimpleVerseKey.V SimpleVerseKey.S].
  rewrite !String.eqb_refl. cbn [andb]. apply String.eqb_eq.
  destruct HS as [->|(ch & _ & ->)]; reflexivity.
Qed.

Lemma SimpleVerseKey_roundtrip_witness :
  exists log r',
    SimpleVerseKey.init lenient (SimpleVerseKey.getVerseKeyText genesis_1_1) false
    = (log, Done r')
    /\ SimpleVerseKey.eq r' genesis_1_1 = true.
Proof.
  apply SimpleVerseKey_roundtrip.
  - split; [vm_compute; reflexivity|]. split; [|split].
    + exists 1%Z. split; [lia | vm_compute; reflexivity].
    + exists 1%Z. split; [lia | vm_compute; reflexivity].
    + now left.
  - intros _. vm_compute. reflexivity.
Defined.

(** [SimpleVerseKey("GEN","1","1","") == SimpleVerseKey("GEN_1:1")] *)
Example genesis_1_1_parsed :
  exists r r',
    SimpleVerseKey.init_BCVS lenient "GEN" "1" "1" (Some "") = ([], Done r)
    /\ SimpleVerseKey.init lenient "GEN_1:1" false = ([], Done r')
    /\ SimpleVerseKey.eq r r' = true.
Proof.
  eexists _, _. split; [vm_compute; reflexivity|]. split; vm_compute; reflexivity.
Qed.

(* ===================================================================== *)
(** ** SimpleVerseKey: a bare exclamation mark *)

(** The failing input of C10 evaluated: "GEN_1:1!" is parsed, with an
    empty suffix. *)
Example bare_bang_is_parsed :
  SimpleVerseKey.init lenient "GEN_1:1!" false
  = ([], Done (SimpleVerseKey.Build false "GEN" "1" "1" "" "ParsedBVCS")).
Proof. vm_compute. reflexivity. Qed.

Lemma append_bang_neq (a : string) : a <> a ++ "!".
Proof.
  induction a as [|x a IH]; cbn [append]; [discriminate|].
  intros H. injection H as H. now apply IH.
Qed.

(** C10, failing input: [S_RE] is [([a-f]?)] inside [(?:!...)?], so the
    letter after "!" is optional twice over, and a text that ends with a
    bare "!" is accepted. For every book code of the grammar (in the
    registry whenever strict checking is on) and every chapter and verse in
    1..199, [SimpleVerseKey] built from [BBB_C:V!] returns the reference
    with the empty suffix instead of raising [TypeError], and the text of
    that key is not the text it was built from. *)
Theorem SimpleVerseKey_bare_bang (G : Globals) (w : string) (c v : Z) (ipe : bool) :
  full_match BBB_RE w = true -> (1 <= c <= 199)%Z -> (1 <= v <= 199)%Z ->
  (strictCheckingFlag G = true -> BibleBooksCodes G w = true) ->
  (exists log,
      SimpleVerseKey.init G (w ++ "_" ++ str c ++ ":" ++ str v ++ "!") ipe
      = (log, Done (SimpleVerseKey.Build ipe w (str c) (str v) "" "ParsedBVCS")))
  /\ SimpleVerseKey.getVerseKeyText
       (SimpleVerseKey.Build ipe w (str c) (str v) "" "ParsedBVCS")
     <> w ++ "_" ++ str c ++ ":" ++ str v ++ "!".
Proof.
  intros Hw Hc Hv Hreg. apply full_match_BBB in Hw. split.
  - rewrite (@SimpleVerseKey_init_text G w (str c) (str v) "!" (Some "") ipe)
      by (auto using numeral_str, sfx_bare).
    eexists. reflexivity.
  - unfold SimpleVerseKey.getVerseKeyText.
    cbn [SimpleVerseKey.BBB SimpleVerseKey.C SimpleVerseKey.V SimpleVerseKey.S truthy].
    intros H.
    apply (@append_bang_neq (w ++ "_" ++ str c ++ ":" ++ str v)).
    etransitivity; [|etransitivity; [exact H|]];
      repeat first [rewrite append_nil_r | rewrite append_assoc | progress cbn [append]];
      reflexivity.
Qed.

Lemma SimpleVerseKey_bare_bang_witness :
  (exists log,
      SimpleVerseKey.init strict ("REV" ++ "_" ++ str 11 ++ ":" ++ str 12 ++ "!") true
      = (log, Done (SimpleVerseKey.Build true "REV" (str 11) (str 12) "" "ParsedBVCS")))
  /\ SimpleVerseKey.getVerseKeyText
       (SimpleVerseKey.Build true "REV" (str 11) (str 12) "" "ParsedBVCS")
     <> "REV" ++ "_" ++ str 11 ++ ":" ++ str 12 ++ "!".
Proof.
  apply SimpleVerseKey_bare_bang;
    [vm_compute; reflexivity | lia | lia | intros _; vm_compute; reflexivity].
Defined.

(* ===================================================================== *)
(** ** SimpleVerseKey: equality and hash key *)

(** [__eq__] holds exactly when the four fields agree. *)
Lemma SimpleVerseKey_eq_iff (a b : SimpleVerseKey.t) :
  SimpleVerseKey.eq a b = true <->
  SimpleVerseKey.BBB a = SimpleVerseKey.BBB b /\ SimpleVerseKey.C a = SimpleVerseKey.C b
  /\ SimpleVerseKey.V a = SimpleVerseKey.V b /\ SimpleVerseKey.S a = SimpleVerseKey.S b.
Proof.
  unfold SimpleVerseKey.eq. rewrite !andb_true_iff, !String.eqb_eq. tauto.
Qed.

(** C8, failing input: [makeHash] is made of the book code and the chapter
    only, so any two references of one chapter have the same key; GEN 1:1 and
    GEN 1:2!a are not equal and both have the key "GEN:1". *)
Theorem SimpleVerseKey_makeHash_ignores_verse_and_suffix :
  (forall ipe ipe' w c v v' sf sf' kt kt',
      SimpleVerseKey.makeHash (SimpleVerseKey.Build ipe w c v sf kt)
      = SimpleVerseKey.makeHash (SimpleVerseKey.Build ipe' w c v' sf' kt'))
  /\ exists a b,
       SimpleVerseKey.init_BCVS lenient "GEN" "1" "1" (Some "") = ([], Done a)
       /\ SimpleVerseKey.init_BCVS lenient "GEN" "1" "2" (Some "a") = ([], Done b)
       /\ SimpleVerseKey.eq a b = false
       /\ SimpleVerseKey.makeHash a = "GEN:1"
       /\ SimpleVerseKey.makeHash b = "GEN:1".
Proof.
  split; [reflexivity|]. eexists _, _.
  split; [vm_compute; reflexivity|]. split; [vm_compute; reflexivity|].
  repeat (split; [vm_compute; reflexivity|]). vm_compute. reflexivity.
Qed.

(* ===================================================================== *)
(** ** SimpleVersesKey: the verses of a list *)

(** C4, failing input: "GEN_1:1,3,5" is parsed by the three-verse branch,
    which leaves [verseKeysList] empty: [getIncludedVerses] yields nothing. *)
Theorem SimpleVersesKey_three_verses_yields_nothing :
  exists self,
    SimpleVersesKey.init lenient "GEN_1:1,3,5" false = ([], Done self)
    /\ SimpleVersesKey.keyType self = "3V"
    /\ SimpleVersesKey.getIncludedVerses self = [].
Proof.
  eexists. split; [vm_compute; reflexivity|]. split; vm_compute; reflexivity.
Qed.

(** Every list that is built by a three-verse branch has no verses. *)
Lemma SimpleVersesKey_three_verse_keys_are_empty (G : Globals) s ipe log self :
  SimpleVersesKey.init G s ipe = (log, Done self) ->
  SimpleVersesKey.keyType self = "3V" \/ SimpleVersesKey.keyType self = "3CV" ->
  SimpleVersesKey.getIncludedVerses self = [].
Proof.
  unfold SimpleVersesKey.init. intros H Hk.
  apply bind_Done_inv in H. destruct H as (l1 & [ok self0] & l2 & Hparse & Hret).
  cbn [fst snd] in Hret. destruct ok; [|discriminate]. apply ret_Done_inv in Hret. subst self0.
  unfold SimpleVersesKey.parseReferenceString in Hparse.
  destruct (re_search VERSES2_RE s);
    [bind_inv Hparse; injection Hparse as <-; now destruct Hk|].
  destruct (re_search VERSES2C_RE s);
    [bind_inv Hparse; injection Hparse as <-; now destruct Hk|].
  destruct (re_search VERSES3_RE s);
    [bind_inv Hparse; injection Hparse as <-; reflexivity|].
  destruct (re_search VERSES3C_RE s);
    [bind_inv Hparse; injection Hparse as <-; reflexivity|].
  bind_inv Hparse. discriminate.
Qed.

(* ===================================================================== *)
(** ** VerseRangeKey: the expansion loops *)

(** Once the verse counter is past the end verse the [V-V] loop never
    meets its exit test again. *)
Lemma expand_VV_diverges (G : Globals) (BBB C S2 : string) (n2 : Z) :
  debugFlag G = false ->
  forall fuel n acc, (n2 < n)%Z ->
    VerseRangeKey.expand_VV G fuel BBB C (str n) (str n2) S2 acc = ([], OutOfFuel).
Proof.
  intros nodebug.
  induction fuel as [|fuel IH]; intros n acc Hn; [reflexivity|].
  cbn [VerseRangeKey.expand_VV].
  rewrite str_eqb_neq by lia.
  rewrite init_BCVS_nodebug by assumption.
  rewrite bind_ret_l, int_of_str, bind_ret_l.
  apply IH. lia.
Qed.

(** Once the chapter counter is past the end chapter the [CV-CV] loop
    never meets its exit test again. *)
Lemma expand_CVCV_diverges (G : Globals) (BBB V2 S2 : string) (c2 : Z) :
  debugFlag G = false ->
  forall fuel c v acc, (c2 < c)%Z ->
    VerseRangeKey.expand_CVCV G fuel BBB (str c) (str v) (str c2) V2 S2 acc
    = ([], OutOfFuel).
Proof.
  intros nodebug.
  induction fuel as [|fuel IH]; intros c v acc Hc; [reflexivity|].
  cbn [VerseRangeKey.expand_CVCV].
  rewrite str_eqb_neq by lia. cbn [andb].
  rewrite init_BCVS_nodebug by assumption.
  rewrite bind_ret_l, int_of_str, bind_ret_l, int_of_str, bind_ret_l.
  destruct (222 <? v + 1)%Z.
  - rewrite int_of_str, bind_ret_l. change "1" with (str 1). apply IH. lia.
  - apply IH. lia.
Qed.

Lemma parse_VV_diverges (G : Globals) fuel ipe w c S1 S2 (n1 n2 : Z) :
  debugFlag G = false ->
  (strictCheckingFlag G = true -> BibleBooksCodes G w = true) ->
  (n2 < n1)%Z ->
  VerseRangeKey.parse_VV G fuel ipe w c (str n1) S1 (str n2) S2
  = (invalid_book_log G "VerseRangeKey: Invalid {!r} book code" w, OutOfFuel).
Proof.
  intros Hd Hreg Hn. unfold VerseRangeKey.parse_VV, invalid_book_log.
  rewrite !init_BCVS_nodebug by assumption.
  rewrite expand_VV_diverges by assumption.
  destruct (BibleBooksCodes G w) eqn:Hb, (strictCheckingFlag G) eqn:Hs;
    try reflexivity.
  now discriminate Hreg.
Qed.

Lemma plain_verses_S w c n k :
  plain_verses w c n (S k) = plain_verse w c n :: plain_verses w c (n + 1) k.
Proof.
  unfold plain_verses. cbn [seq map]. rewrite Z.add_0_r. f_equal.
  rewrite <- seq_shift, map_map. apply map_ext. intros i. f_equal. lia.
Qed.

Lemma expand_VV_returns (G : Globals) w c S2 :
  debugFlag G = false ->
  forall k n acc fuel, (k < fuel)%nat ->
    VerseRangeKey.expand_VV G fuel w c (str n) (str (n + Z.of_nat k)) S2 acc
    = ret (acc ++ plain_verses w c n k
               ++ [SimpleVerseKey.Build false w c (str (n + Z.of_nat k)) S2 "AssignedBVCS"])%list.
Proof.
  intros Hd. induction k as [|k IH]; intros n acc fuel Hf;
    (destruct fuel as [|fuel]; [lia|]); cbn [VerseRangeKey.expand_VV].
  - rewrite Nat2Z.inj_0, Z.add_0_r, String.eqb_refl.
    rewrite init_BCVS_nodebug, bind_ret_l by assumption. reflexivity.
  - rewrite str_eqb_neq by lia.
    rewrite init_BCVS_nodebug, bind_ret_l, int_of_str, bind_ret_l by assumption.
    replace (n + Z.of_nat (S k))%Z with (n + 1 + Z.of_nat k)%Z by lia.
    rewrite IH by lia. rewrite plain_verses_S.
    change (SimpleVerseKey.Build false w c (str n) "" "AssignedBVCS") with (plain_verse w c n).
    now rewrite <- app_assoc.
Qed.

Lemma parse_VV_returns (G : Globals) fuel ipe w c S1 S2 (n1 n2 : Z) :
  debugFlag G = false ->
  (strictCheckingFlag G = true -> BibleBooksCodes G w = true) ->
  (n1 <= n2)%Z -> (Z.to_nat (n2 - n1) < fuel)%nat ->
  VerseRangeKey.parse_VV G fuel ipe w c (str n1) S1 (str n2) S2
  = (invalid_book_log G "VerseRangeKey: Invalid {!r} book code" w,
     Done (VerseRangeKey.Build ipe
             (SimpleVerseKey.Build false w c (str n1) S1 "AssignedBVCS")
             (SimpleVerseKey.Build false w c (str n2) S2 "AssignedBVCS")
             (Some (plain_verses w c n1 (Z.to_nat (n2 - n1))
                    ++ [SimpleVerseKey.Build false w c (str n2) S2 "AssignedBVCS"])%list)
             "V-V")).
Proof.
  intros Hd Hreg Hn Hf. unfold VerseRangeKey.parse_VV, invalid_book_log.
  rewrite !init_BCVS_nodebug by assumption.
  replace (str n2) with (str (n1 + Z.of_nat (Z.to_nat (n2 - n1)))) by (f_equal; lia).
  rewrite expand_VV_returns by assumption.
  destruct (BibleBooksCodes G w) eqn:Hb, (strictCheckingFlag G) eqn:Hs;
    try reflexivity.
  now discriminate Hreg.
Qed.

(** Every same-chapter range, in the order of its verses or reversed: with
    the debug assertions off, a range [BBB_C:V1-V2] with [V1 <= V2] is built
    within [V2 - V1 + 1] iterations, its expansion has [V2 - V1 + 1] verses,
    ends with [rangeEnd] and, when [V1 < V2], starts with the verse [V1]
    without suffix; a range with [V2 < V1] is never built. *)
Lemma VerseRangeKey_same_chapter_range (G : Globals) fuel ipe s m (n1 n2 : Z) :
  debugFlag G = false ->
  (strictCheckingFlag G = true -> BibleBooksCodes G (group_str m 1) = true) ->
  re_search VERSE_RANGE_RE s = Some m ->
  group_str m 3 = str n1 -> group_str m 5 = str n2 ->
  ((n1 <= n2)%Z -> (Z.to_nat (n2 - n1) < fuel)%nat ->
   exists log self l,
     VerseRangeKey.init G fuel s ipe = (log, Done self)
     /\ VerseRangeKey.getIncludedVerses self = ([], Done l)
     /\ Z.of_nat (length l) = (n2 - n1 + 1)%Z
     /\ last l (VerseRangeKey.rangeStart self) = VerseRangeKey.rangeEnd self
     /\ hd_error l = Some (if (n1 <? n2)%Z
                           then plain_verse (group_str m 1) (group_str m 2) n1
                           else VerseRangeKey.rangeEnd self))
  /\ ((n2 < n1)%Z -> snd (VerseRangeKey.init G fuel s ipe) = OutOfFuel).
Proof.
  intros Hd Hreg Hm H1 H2.
  unfold VerseRangeKey.init, VerseRangeKey.parseReferenceString.
  rewrite Hm, H1, H2. split.
  - intros Hn Hf. rewrite parse_VV_returns by assumption.
    eexists _, _, _. split; [reflexivity|]. split; [reflexivity|].
    cbn [VerseRangeKey.rangeStart VerseRangeKey.rangeEnd].
    split; [|split].
    + rewrite length_app. unfold plain_verses. rewrite length_map, length_seq.
      cbn [length]. lia.
    + apply last_last.
    + destruct (Z.ltb_spec n1 n2) as [Hlt|Hge].
      * destruct (Z.to_nat (n2 - n1)) as [|k] eqn:Ek; [lia|].
        now rewrite plain_verses_S.
      * replace (Z.to_nat (n2 - n1)) with 0%nat by lia. reflexivity.
  - intros Hn. now rewrite parse_VV_diverges by assumption.
Qed.

(** Which same-chapter ranges are built: exactly those whose end verse is
    not before their start verse. *)
Lemma VerseRangeKey_same_chapter_dichotomy (G : Globals) ipe s m :
  debugFlag G = false ->
  (strictCheckingFlag G = true -> BibleBooksCodes G (group_str m 1) = true) ->
  re_search VERSE_RANGE_RE s = Some m ->
  exists n1 n2,
    group_str m 3 = str n1 /\ group_str m 5 = str n2
    /\ (1 <= n1 <= 199)%Z /\ (1 <= n2 <= 199)%Z
    /\ (((n1 <= n2)%Z
         /\ exists log self,
              VerseRangeKey.init G (S (Z.to_nat (n2 - n1))) s ipe = (log, Done self))
        \/ ((n2 < n1)%Z
            /\ forall fuel, snd (VerseRangeKey.init G fuel s ipe) = OutOfFuel)).
Proof.
  intros Hd Hreg Hm.
  destruct (VERSE_RANGE_RE_inv _ Hm) as (_ & _ & Hv1 & _ & Hv2 & _).
  apply numeral_canonical in Hv1, Hv2.
  destruct Hv1 as (n1 & Hn1 & E1), Hv2 as (n2 & Hn2 & E2).
  exists n1, n2. repeat (split; [assumption|]).
  destruct (Z.le_gt_cases n1 n2) as [Hle|Hgt].
  - left. split; [assumption|].
    destruct (@VerseRangeKey_same_chapter_range G (S (Z.to_nat (n2 - n1))) ipe s m n1 n2
                Hd Hreg Hm E1 E2) as (Hret & _).
    destruct (Hret Hle (Nat.lt_succ_diag_r _)) as (log & self & l & Hinit & _).
    now exists log, self.
  - right. split; [assumption|]. intros fuel.
    now apply (@VerseRangeKey_same_chapter_range G fuel ipe s m n1 n2 Hd Hreg Hm E1 E2).
Qed.

(* ===================================================================== *)
(** ** VerseRangeKey: reversed ranges *)

Lemma reversed_range_example (G : Globals) fuel ipe :
  debugFlag G = false ->
  (strictCheckingFlag G = true -> BibleBooksCodes G "GEN" = true) ->
  VerseRangeKey.init G fuel "GEN_1:5-3" ipe
  = (invalid_book_log G "VerseRangeKey: Invalid {!r} book code" "GEN", OutOfFuel).
Proof.
  intros Hd Hreg. unfold VerseRangeKey.init, VerseRangeKey.parseReferenceString.
  replace (re_search VERSE_RANGE_RE "GEN_1:5-3")
    with (Some (mkMatch "GEN_1:5-3" ""
                  [Some "GEN"; Some "1"; Some (str 5); None; Some (str 3); None]))
    by (vm_compute; reflexivity).
  unfold group_str, group_or_empty, group. cbn [groups nth Nat.sub].
  rewrite parse_VV_diverges by (assumption || lia).
  reflexivity.
Qed.

(** C1, failing inputs: with the debug assertions off, the expansion loop
    never leaves on the same-chapter range "GEN_1:5-3", nor on the
    cross-chapter range "GEN_2:1" en-dash "1:1": whatever the number of
    iterations allowed, the constructor has not returned. *)
Theorem VerseRangeKey_does_not_terminate_on_reversed_range :
  (forall fuel, VerseRangeKey.init lenient fuel "GEN_1:5-3" false = ([], OutOfFuel))
  /\ (forall fuel,
        VerseRangeKey.init lenient fuel ("GEN_2:1" ++ en_dash ++ "1:1") false
        = ([], OutOfFuel)).
Proof.
  split; intros fuel.
  - now rewrite reversed_range_example.
  - unfold VerseRangeKey.init, VerseRangeKey.parseReferenceString.
    replace (re_search VERSE_RANGE_RE ("GEN_2:1" ++ en_dash ++ "1:1")) with (@None rmatch)
      by (vm_compute; reflexivity).
    replace (re_search CHAPTER_RANGE_RE ("GEN_2:1" ++ en_dash ++ "1:1"))
      with (Some (mkMatch ("GEN_2:1" ++ en_dash ++ "1:1") ""
                    [Some "GEN"; Some (str 2); Some (str 1); None;
                     Some (str 1); Some "1"; None]))
      by (vm_compute; reflexivity).
    unfold group_str, group_or_empty, group. cbn [groups nth Nat.sub].
    cbn [lenient negb BibleBooksCodes strictCheckingFlag when].
    replace (sample_books "GEN") with true by reflexivity. cbn [negb when].
    rewrite !init_BCVS_nodebug by reflexivity.
    rewrite expand_CVCV_diverges by (reflexivity || lia).
    reflexivity.
Qed.

(** C2, failing input: under strict checking "GEN_1:5-3", whose end verse
    is before its start verse, raises nothing: the constructor makes no test
    of the order and its expansion loop never leaves. *)
Theorem VerseRangeKey_strict_reversed_range_raises_nothing :
  forall fuel, VerseRangeKey.init strict fuel "GEN_1:5-3" false = ([], OutOfFuel).
Proof.
  intros fuel. rewrite reversed_range_example; [reflexivity | reflexivity |].
  intros _. reflexivity.
Qed.

(** With the debug assertions on, the loop on the reversed range ends when
    the verse counter reaches four digits: the constructor of the verse
    asserts [len(V) <= 3]. *)
Example reversed_range_under_debug :
  VerseRangeKey.init debugging 2000 "GEN_1:5-3" false = ([], Raise AssertionError).
Proof. vm_compute. reflexivity. Qed.

(* ===================================================================== *)
(** ** VerseRangeKey: expansion and serialisation *)

(** C3, failing input: "REV_11:2!b-6!a" expands to five verses, the last
    is [rangeEnd], but the first is REV 11:2 with no suffix while
    [rangeStart] is REV 11:2 with suffix b. *)
Theorem VerseRangeKey_expansion_drops_start_suffix :
  exists self l first,
    VerseRangeKey.init lenient 5 "REV_11:2!b-6!a" false = ([], Done self)
    /\ VerseRangeKey.getIncludedVerses self = ([], Done l)
    /\ length l = 5
    /\ last l first = VerseRangeKey.rangeEnd self
    /\ hd_error l = Some first
    /\ SimpleVerseKey.getVerseKeyText first = "REV_11:2"
    /\ SimpleVerseKey.getVerseKeyText (VerseRangeKey.rangeStart self) = "REV_11:2!b"
    /\ SimpleVerseKey.eq first (VerseRangeKey.rangeStart self) = false.
Proof.
  eexists _, _, _. split; [vm_compute; reflexivity|].
  split; [vm_compute; reflexivity|].
  repeat (split; [vm_compute; reflexivity|]). vm_compute. reflexivity.
Qed.

(** C5, failing input: "GEN_1" sets [rangeStart] to GEN 1:1 and [rangeEnd]
    to GEN 1:999, both without suffix, and never assigns [verseKeysList]:
    running [getIncludedVerses] raises [AttributeError]. *)
Theorem VerseRangeKey_chapter_has_no_expansion :
  exists self,
    VerseRangeKey.init lenient 0 "GEN_1" false = ([], Done self)
    /\ VerseRangeKey.keyType self = "C"
    /\ SimpleVerseKey.eq (VerseRangeKey.rangeStart self)
         (SimpleVerseKey.Build false "GEN" "1" "1" "" "AssignedBVCS") = true
    /\ SimpleVerseKey.eq (VerseRangeKey.rangeEnd self)
         (SimpleVerseKey.Build false "GEN" "1" "999" "" "AssignedBVCS") = true
    /\ VerseRangeKey.getIncludedVerses self = ([], Raise AttributeError).
Proof.
  eexists. split; [vm_compute; reflexivity|].
  repeat (split; [vm_compute; reflexivity|]). vm_compute. reflexivity.
Qed.

(** Every range that is built by the whole-chapter branch has its end
    points at the verses 1 and 999 and no list of verses. *)
Lemma VerseRangeKey_chapter_keys_have_no_list (G : Globals) fuel s ipe log self :
  VerseRangeKey.init G fuel s ipe = (log, Done self) ->
  VerseRangeKey.keyType self = "C" ->
  SimpleVerseKey.V (VerseRangeKey.rangeStart self) = "1"
  /\ SimpleVerseKey.S (VerseRangeKey.rangeStart self) = ""
  /\ SimpleVerseKey.V (VerseRangeKey.rangeEnd self) = "999"
  /\ SimpleVerseKey.S (VerseRangeKey.rangeEnd self) = ""
  /\ VerseRangeKey.getIncludedVerses self = ([], Raise AttributeError).
Proof.
  unfold VerseRangeKey.init. intros H Hk.
  apply bind_Done_inv in H. destruct H as (l1 & [self0|] & l2 & Hparse & Hret);
    [|discriminate]. apply ret_Done_inv in Hret. subst self0.
  unfold VerseRangeKey.parseReferenceString in Hparse.
  destruct (re_search VERSE_RANGE_RE s).
  { unfold VerseRangeKey.parse_VV in Hparse. bind_inv Hparse.
    injection Hparse as <-. subst. discriminate Hk. }
  destruct (re_search CHAPTER_RANGE_RE s).
  { bind_inv Hparse. injection Hparse as <-. discriminate Hk. }
  destruct (re_search CHAPTER_RE s); [|bind_inv Hparse; discriminate].
  bind_inv Hparse. injection Hparse as <-.
  repeat match goal with
         | E : SimpleVerseKey.init_BCVS _ _ _ _ _ = _ |- _ =>
             unfold SimpleVerseKey.init_BCVS in E; bind_inv E; subst
         end.
  repeat split.
Qed.

(** C9, failing input: the cross-chapter range "GEN_1:5" en-dash "2:3"
    serialises as "GEN_1:5-GEN_2:3": the end points are joined by a hyphen,
    and the text holds no en-dash. *)
Theorem VerseRangeKey_cross_chapter_text_has_hyphen :
  exists self,
    VerseRangeKey.init lenient 300 ("GEN_1:5" ++ en_dash ++ "2:3") false = ([], Done self)
    /\ VerseRangeKey.keyType self = "CV-CV"
    /\ VerseRangeKey.getVerseKeyText self = "GEN_1:5-GEN_2:3"
    /\ contains en_dash (VerseRangeKey.getVerseKeyText self) = false.
Proof.
  eexists. split; [vm_compute; reflexivity|].
  repeat (split; [vm_compute; reflexivity|]). vm_compute. reflexivity.
Qed.

(* ===================================================================== *)
(** ** FlexibleVersesKey: the dispatcher *)

(** Each constructor, told to keep quiet, raises [TypeError] with nothing
    logged when none of its patterns matches, and no [TypeError] otherwise. *)
Lemma SimpleVerseKey_init_no_match G s :
  matches VERSE_RE s = false -> SimpleVerseKey.init G s true = ([], Raise TypeError).
Proof.
  unfold matches, SimpleVerseKey.init, SimpleVerseKey.parseReferenceString.
  destruct (re_search VERSE_RE s); [discriminate | reflexivity].
Qed.

Lemma SimpleVerseKey_init_match G s ipe :
  matches VERSE_RE s = true -> no_TypeError (SimpleVerseKey.init G s ipe).
Proof.
  unfold matches, SimpleVerseKey.init, SimpleVerseKey.parseReferenceString.
  destruct (re_search VERSE_RE s); [intros _ | discriminate]. nt.
Qed.

Lemma SimpleVersesKey_init_no_match G s :
  is_list s = false -> SimpleVersesKey.init G s true = ([], Raise TypeError).
Proof.
  unfold is_list, list_grammars, matches, SimpleVersesKey.init,
    SimpleVersesKey.parseReferenceString. cbn [existsb].
  destruct (re_search VERSES2_RE s); [discriminate|].
  destruct (re_search VERSES2C_RE s); [discriminate|].
  destruct (re_search VERSES3_RE s); [discriminate|].
  destruct (re_search VERSES3C_RE s); [discriminate | reflexivity].
Qed.

Lemma SimpleVersesKey_init_match G s ipe :
  is_list s = true -> no_TypeError (SimpleVersesKey.init G s ipe).
Proof.
  unfold is_list, list_grammars, matches, SimpleVersesKey.init,
    SimpleVersesKey.parseReferenceString. cbn [existsb].
  destruct (re_search VERSES2_RE s); [intros _; nt|].
  destruct (re_search VERSES2C_RE s); [intros _; nt|].
  destruct (re_search VERSES3_RE s); [intros _; nt|].
  destruct (re_search VERSES3C_RE s); [intros _; nt | discriminate].
Qed.

Lemma VerseRangeKey_init_no_match G fuel s :
  is_range s = false -> VerseRangeKey.init G fuel s true = ([], Raise TypeError).
Proof.
  unfold is_range, range_grammars, matches, VerseRangeKey.init,
    VerseRangeKey.parseReferenceString. cbn [existsb].
  destruct (re_search VERSE_RANGE_RE s); [discriminate|].
  destruct (re_search CHAPTER_RANGE_RE s); [discriminate|].
  destruct (re_search CHAPTER_RE s); [discriminate | reflexivity].
Qed.

Lemma VerseRangeKey_init_match G fuel s ipe :
  is_range s = true -> no_TypeError (VerseRangeKey.init G fuel s ipe).
Proof.
  unfold is_range, range_grammars, matches, VerseRangeKey.init,
    VerseRangeKey.parseReferenceString. cbn [existsb].
  destruct (re_search VERSE_RANGE_RE s); [intros _; nt|].
  destruct (re_search CHAPTER_RANGE_RE s); [intros _; nt|].
  destruct (re_search CHAPTER_RE s); [intros _; nt | discriminate].
Qed.

Lemma format_range_text w c v1 S1 v2 S2 :
  FlexibleVersesKey.format_range w c v1 S1 v2 S2
  = (w ++ "_" ++ c ++ ":" ++ v1 ++ (bang S1 ++ S1) ++ "-" ++ v2 ++ (bang S2 ++ S2))%string.
Proof.
  unfold FlexibleVersesKey.format_range, bang. now rewrite !append_assoc.
Qed.

(** The range written by a compound branch is read back by the range
    constructor with the groups it was written from. *)
Lemma VerseRangeKey_init_format_range (G : Globals) fuel w c v1 S1 v2 S2 :
  bookcode w -> numeral c -> numeral v1 -> suffix S1 -> numeral v2 -> suffix S2 ->
  VerseRangeKey.parseReferenceString G fuel true
    (FlexibleVersesKey.format_range w c v1 S1 v2 S2)
  = (self <- VerseRangeKey.parse_VV G fuel true w c v1 S1 v2 S2 ;; ret (Some self)).
Proof.
  intros Hw Hc Hv1 HS1 Hv2 HS2.
  destruct (@VERSE_RANGE_RE_run w c v1 (bang S1 ++ S1) (sfx_group S1)
              v2 (bang S2 ++ S2) (sfx_group S2)) as (m & Hm & Hg);
    auto using suffix_sfx.
  unfold VerseRangeKey.parseReferenceString.
  rewrite format_range_text, Hm.
  unfold group_str, group_or_empty, group. rewrite Hg. cbn [nth Nat.sub].
  replace (match sfx_group S1 with Some x => if truthy x then x else "" | None => "" end)
    with S1 by (destruct HS1 as [->|(ch & _ & ->)]; reflexivity).
  replace (match sfx_group S2 with Some x => if truthy x then x else "" | None => "" end)
    with S2 by (destruct HS2 as [->|(ch & _ & ->)]; reflexivity).
  reflexivity.
Qed.

Lemma VerseRangeKey_init_written_range (G : Globals) fuel w c v1 S1 v2 S2 :
  bookcode w -> numeral c -> numeral v1 -> suffix S1 -> numeral v2 -> suffix S2 ->
  VerseRangeKey.init G fuel (FlexibleVersesKey.format_range w c v1 S1 v2 S2) true
  = VerseRangeKey.parse_VV G fuel true w c v1 S1 v2 S2.
Proof.
  intros. unfold VerseRangeKey.init.
  rewrite VerseRangeKey_init_format_range by assumption.
  rewrite bind_assoc. rewrite <- bind_ret_r. apply bind_ext. intros self.
  now rewrite bind_ret_l.
Qed.

(** The constructor of [FlexibleVersesKey] is the first-match dispatch. *)
Lemma FlexibleVersesKey_init_dispatch (G : Globals) (fuel : nat) (s : string) :
  debug_length_ok G s ->
  FlexibleVersesKey.init G fuel s = first_match_dispatch G fuel s.
Proof.
  intros Hd.
  unfold FlexibleVersesKey.init, FlexibleVersesKey.parseReferenceString, first_match_dispatch.
  replace (when (debugFlag G) (assert ((5 <=? len s)%nat && (len s <=? 20)%nat)))
    with (ret tt)
    by (unfold debug_length_ok in Hd; destruct (debugFlag G);
        [rewrite Hd by reflexivity|]; reflexivity).
  rewrite bind_ret_l. cbv zeta.
  destruct (matches VERSE_RE s) eqn:E1.
  { rewrite try_no_TypeError by (now apply SimpleVerseKey_init_match).
    bind_step. now rewrite !bind_ret_l. }
  rewrite SimpleVerseKey_init_no_match, try_TypeError, bind_ret_l by assumption.
  destruct (is_list s) eqn:E2.
  { rewrite try_no_TypeError by (now apply SimpleVersesKey_init_match).
    bind_step. now rewrite !bind_ret_l. }
  rewrite SimpleVersesKey_init_no_match, try_TypeError, bind_ret_l by assumption.
  destruct (is_range s) eqn:E3.
  { rewrite try_no_TypeError by (now apply VerseRangeKey_init_match).
    bind_step. now rewrite !bind_ret_l. }
  rewrite VerseRangeKey_init_no_match, try_TypeError, bind_ret_l by assumption.
  destruct (re_search VERSE_RANGE_PLUS_RE s) as [m|] eqn:E4.
  { destruct (VERSE_RANGE_PLUS_RE_inv _ E4) as (Hw & Hc & Hv1 & HS1 & Hv2 & HS2 & Hv3 & HS3).
    do 2 bind_step. rewrite VerseRangeKey_init_written_range by assumption.
    do 2 bind_step. now rewrite bind_ret_l. }
  destruct (re_search VERSE_PLUS_RANGE_RE s) as [m|] eqn:E5.
  { destruct (VERSE_PLUS_RANGE_RE_inv _ E5) as (Hw & Hc & Hv1 & HS1 & Hv2 & HS2 & Hv3 & HS3).
    do 3 bind_step. rewrite VerseRangeKey_init_written_range by assumption.
    bind_step. now rewrite bind_ret_l. }
  destruct (re_search VERSE_PLUS_RANGE_PLUS_RE s) as [m|] eqn:E6.
  { destruct (VERSE_PLUS_RANGE_PLUS_RE_inv _ E6)
      as (Hw & Hc & Hv1 & HS1 & Hv2 & HS2 & Hv3 & HS3 & Hv4 & HS4).
    do 3 bind_step. rewrite VerseRangeKey_init_written_range by assumption.
    do 2 bind_step. now rewrite bind_ret_l. }
  reflexivity.
Qed.

(** Under strict checking the checks of a shape are made on purpose:
    "GEN_1:1,2" matches the two-verse list grammar and raises
    [AssertionError], nothing logged, because verse 2 follows verse 1
    directly. *)
Example dispatcher_fails_on_matching_text_under_strict :
  In VERSES2_RE grammars
  /\ matches VERSES2_RE "GEN_1:1,2" = true
  /\ FlexibleVersesKey.init strict 0 "GEN_1:1,2" = ([], Raise AssertionError).
Proof.
  split; [right; left; reflexivity|]. split; vm_compute; reflexivity.
Qed.

(** The part of the dispatch that holds: on a string that passes the
    length assertion of the debug mode, the dispatcher gives the outcome of
    the first shape, in the order single verse, verse list, verse range, then
    the compounds V-V,V and V,V-V and V,V-V,V, whose grammar matches the
    string, and no later grammar plays a part; it raises [TypeError], having
    logged the string once and nothing else, when no grammar matches, and it
    raises [TypeError] only then. *)
Lemma FlexibleVersesKey_first_match (G : Globals) (fuel : nat) (s : string) :
  debug_length_ok G s ->
  FlexibleVersesKey.init G fuel s = first_match_dispatch G fuel s
  /\ ((forall r, In r grammars -> matches r s = false) ->
      FlexibleVersesKey.init G fuel s = ([unable_to_parse s], Raise TypeError))
  /\ (snd (FlexibleVersesKey.init G fuel s) = Raise TypeError ->
      forall r, In r grammars -> matches r s = false).
Proof.
  intros Hd. split; [now apply FlexibleVersesKey_init_dispatch|].
  rewrite FlexibleVersesKey_init_dispatch by assumption.
  unfold first_match_dispatch, is_list, is_range, list_grammars, range_grammars.
  cbn [existsb]. split.
  - intros H.
    rewrite !H by (cbn; tauto). cbn [orb].
    rewrite !matches_false by (apply H; cbn; tauto). reflexivity.
  - destruct (matches VERSE_RE s) eqn:E1.
    { intros H. exfalso. revert H. apply snd_bind_no_TypeError; [|intros; apply nt_ret].
      now apply SimpleVerseKey_init_match. }
    destruct (matches VERSES2_RE s || (matches VERSES2C_RE s
              || (matches VERSES3_RE s || (matches VERSES3C_RE s || false)))) eqn:E2.
    { intros H. exfalso. revert H. apply snd_bind_no_TypeError; [|intros; apply nt_ret].
      now apply SimpleVersesKey_init_match. }
    destruct (matches VERSE_RANGE_RE s || (matches CHAPTER_RANGE_RE s
              || (matches CHAPTER_RE s || false))) eqn:E3.
    { intros H. exfalso. revert H. apply snd_bind_no_TypeError; [|intros; apply nt_ret].
      now apply VerseRangeKey_init_match. }
    destruct (re_search VERSE_RANGE_PLUS_RE s) as [m|] eqn:E4.
    { intros H. exfalso. revert H. cbv zeta.
      match goal with |- snd ?x = _ -> False => change (no_TypeError x) end. nt. }
    destruct (re_search VERSE_PLUS_RANGE_RE s) as [m|] eqn:E5.
    { intros H. exfalso. revert H. cbv zeta.
      match goal with |- snd ?x = _ -> False => change (no_TypeError x) end. nt. }
    destruct (re_search VERSE_PLUS_RANGE_PLUS_RE s) as [m|] eqn:E6.
    { intros H. exfalso. revert H. cbv zeta.
      match goal with |- snd ?x = _ -> False => change (no_TypeError x) end. nt. }
    intros _ r Hr.
    apply orb_false_elim in E2. destruct E2 as (E21 & E2).
    apply orb_false_elim in E2. destruct E2 as (E22 & E2).
    apply orb_false_elim in E2. destruct E2 as (E23 & E2).
    apply orb_false_elim in E2. destruct E2 as (E24 & _).
    apply orb_false_elim in E3. destruct E3 as (E31 & E3).
    apply orb_false_elim in E3. destruct E3 as (E32 & E3).
    apply orb_false_elim in E3. destruct E3 as (E33 & _).
    cbn in Hr.
    repeat (destruct Hr as [<-|Hr]; [first [assumption | unfold matches; now rewrite ?E4, ?E5, ?E6]|]).
    destruct Hr.
Qed.

Lemma FlexibleVersesKey_first_match_witness :
  debug_length_ok debugging "GEN_1:1,3-4"
  /\ FlexibleVersesKey.init debugging 10 "GEN_1:1,3-4"
     = first_match_dispatch debugging 10 "GEN_1:1,3-4"
  /\ ((forall r, In r grammars -> matches r "GEN_1:1,3-4" = false) ->
      FlexibleVersesKey.init debugging 10 "GEN_1:1,3-4"
      = ([unable_to_parse "GEN_1:1,3-4"], Raise TypeError))
  /\ (snd (FlexibleVersesKey.init debugging 10 "GEN_1:1,3-4") = Raise TypeError ->
      forall r, In r grammars -> matches r "GEN_1:1,3-4" = false).
Proof.
  assert (H : debug_length_ok debugging "GEN_1:1,3-4")
    by (intros _; vm_compute; reflexivity).
  split; [exact H|].
  apply (@FlexibleVersesKey_first_match debugging 10 "GEN_1:1,3-4"). exact H.
Defined.

(** C6, failing inputs: with the default flags (no strict checking, no
    debug assertions) a string that a grammar matches does not always give
    a result, so the construction does not fail exactly when no grammar
    matches. "ZZZ_1" is matched by the whole-chapter grammar of the verse
    range, the third shape tried, and by no grammar of the two shapes before
    it; the construction raises [AttributeError] with nothing logged, since
    the message for the unregistered book code reads [self.BBB], which is
    never set, and the dispatcher catches [TypeError] only. "GEN_1:5-3" is
    matched by the grammar of the same-chapter range; the expansion loop
    never leaves and the construction returns nothing and raises nothing. *)
Theorem FlexibleVersesKey_fails_on_matching_text :
  (In CHAPTER_RE grammars
   /\ matches VERSE_RE "ZZZ_1" = false /\ is_list "ZZZ_1" = false
   /\ matches CHAPTER_RE "ZZZ_1" = true
   /\ forall fuel,
        FlexibleVersesKey.init lenient fuel "ZZZ_1" = ([], Raise AttributeError))
  /\ (In VERSE_RANGE_RE grammars
      /\ matches VERSE_RE "GEN_1:5-3" = false /\ is_list "GEN_1:5-3" = false
      /\ matches VERSE_RANGE_RE "GEN_1:5-3" = true
      /\ forall fuel, FlexibleVersesKey.init lenient fuel "GEN_1:5-3" = ([], OutOfFuel)).
Proof.
  split.
  - split; [cbn; tauto|]. do 3 (split; [vm_compute; reflexivity|]).
    intros fuel.
    rewrite FlexibleVersesKey_init_dispatch by (intros H; discriminate H).
    unfold first_match_dispatch.
    replace (matches VERSE_RE "ZZZ_1") with false by (vm_compute; reflexivity).
    replace (is_list "ZZZ_1") with false by (vm_compute; reflexivity).
    replace (is_range "ZZZ_1") with true by (vm_compute; reflexivity).
    replace (VerseRangeKey.init lenient fuel "ZZZ_1" true)
      with (@pair (list logrec) (outcome VerseRangeKey.t) [] (Raise AttributeError));
      [reflexivity|].
    unfold VerseRangeKey.init, VerseRangeKey.parseReferenceString.
    replace (re_search VERSE_RANGE_RE "ZZZ_1") with (@None rmatch)
      by (vm_compute; reflexivity).
    replace (re_search CHAPTER_RANGE_RE "ZZZ_1") with (@None rmatch)
      by (vm_compute; reflexivity).
    vm_compute. reflexivity.
  - split; [cbn; tauto|]. do 3 (split; [vm_compute; reflexivity|]).
    intros fuel.
    rewrite FlexibleVersesKey_init_dispatch by (intros H; discriminate H).
    unfold first_match_dispatch.
    replace (matches VERSE_RE "GEN_1:5-3") with false by (vm_compute; reflexivity).
    replace (is_list "GEN_1:5-3") with false by (vm_compute; reflexivity).
    replace (is_range "GEN_1:5-3") with true by (vm_compute; reflexivity).
    rewrite reversed_range_example; [reflexivity | reflexivity |].
    intros H. discriminate H.
Qed.

(** The compound branch for V-V,V does test the order of its range under
    strict checking: "GEN_1:5-3,9" raises [AssertionError]. *)
Example strict_order_check_of_compound :
  forall fuel,
    FlexibleVersesKey.init strict fuel "GEN_1:5-3,9" = ([], Raise AssertionError).
Proof.
  intros fuel.
  rewrite FlexibleVersesKey_init_dispatch by (intros H; discriminate H).
  unfold first_match_dispatch.
  replace (matches VERSE_RE "GEN_1:5-3,9") with false by (vm_compute; reflexivity).
  replace (is_list "GEN_1:5-3,9") with false by (vm_compute; reflexivity).
  replace (is_range "GEN_1:5-3,9") with false by (vm_compute; reflexivity).
  replace (re_search VERSE_RANGE_PLUS_RE "GEN_1:5-3,9")
    with (Some (mkMatch "GEN_1:5-3,9" ""
                  [Some "GEN"; Some "1"; Some "5"; None; Some "3"; None; Some "9"; None]))
    by (vm_compute; reflexivity).
  vm_compute. reflexivity.
Qed.

(* ===================================================================== *)
(** ** The scenarios of the specification *)

(** The scenarios of the specification. *)
Example scenario_1 :
  FlexibleVersesKey.init lenient 0 "GEN_1:1"
  = ([], Done (FlexibleVersesKey.Build
                 [FlexibleVersesKey.Verse
                    (SimpleVerseKey.Build true "GEN" "1" "1" "" "ParsedBVCS")] None)).
Proof. vm_compute. reflexivity. Qed.

Example scenario_2 :
  exists k, SimpleVerseKey.init lenient "SA2_19:12" false = ([], Done k)
            /\ SimpleVerseKey.getShortText k = "SA2 19:12".
Proof. eexists. split; vm_compute; reflexivity. Qed.

Example scenario_3 :
  exists k, SimpleVerseKey.init lenient "REV_11:12!b" false = ([], Done k)
            /\ SimpleVerseKey.S k = "b"
            /\ SimpleVerseKey.getVerseKeyText k = "REV_11:12!b".
Proof. eexists. split; [|split]; vm_compute; reflexivity. Qed.

Example scenario_4 :
  exists k, SimpleVersesKey.init lenient "SA2_19:12,19" false = ([], Done k)
            /\ map SimpleVerseKey.getVerseKeyText (SimpleVersesKey.getIncludedVerses k)
               = ["SA2_19:12"; "SA2_19:19"].
Proof. eexists. split; vm_compute; reflexivity. Qed.

Example scenario_5 :
  exists k l, VerseRangeKey.init lenient 8 "SA2_19:12-19" false = ([], Done k)
              /\ VerseRangeKey.getIncludedVerses k = ([], Done l)
              /\ map SimpleVerseKey.getVerseKeyText l
                 = ["SA2_19:12"; "SA2_19:13"; "SA2_19:14"; "SA2_19:15";
                    "SA2_19:16"; "SA2_19:17"; "SA2_19:18"; "SA2_19:19"].
Proof. eexists _, _. split; [|split]; vm_compute; reflexivity. Qed.

Example scenario_6 :
  FlexibleVersesKey.init lenient 0 "MAL_1234:1"
  = ([unable_to_parse "MAL_1234:1"], Raise TypeError)
  /\ FlexibleVersesKey.init lenient 0 "MAT_1:1234"
     = ([unable_to_parse "MAT_1:1234"], Raise TypeError).
Proof. split; vm_compute; reflexivity. Qed.

(** The strings of the module's [demo]: the good ones are built, the bad
    ones raise [TypeError]. *)
Example demo_goodFlexibleStrings :
  forallb (fun s => returns (FlexibleVersesKey.init lenient 20 s))
    ["SA2_19:12"; "REV_11:12!b"; "SA2_19:12,19"; "REV_11:2!b,6!a"; "SA2_19:12-19";
     "REV_11:2!b-6!a"; "GEN_1:1,3-4"; "GEN_1:1-3,4"; "EXO_1:1!b,3-4"; "EXO_1:1-3!a,4!c"]
  = true.
Proof. vm_compute. reflexivity. Qed.

Example demo_badFlexibleStrings :
  forallb (fun s => raises TypeError (FlexibleVersesKey.init lenient 20 s))
    ["Gn_1:1"; "2KI_3:17"; "MAL_1234:1"; "MAT_1:1234"; "GEN.1.1"; "EXO 2:2"; "LEV 3";
     "NUM_1234:1"; "2SA_19:12"; "JNA_2:3b"; "REV_11:12!z"]
  = true.
Proof. vm_compute. reflexivity. Qed.

(* ===================================================================== *)
(** ** SimpleVerseKey: comparison, hash key and items *)

(** [__eq__] is an equivalence on the keys, whatever way they were built:
    it is reflexive, symmetric and transitive, and [__ne__] is its
    negation. *)
Theorem SimpleVerseKey_eq_is_an_equivalence :
  (forall a, SimpleVerseKey.eq a a = true)
  /\ (forall a b, SimpleVerseKey.eq a b = SimpleVerseKey.eq b a)
  /\ (forall a b c, SimpleVerseKey.eq a b = true -> SimpleVerseKey.eq b c = true ->
                    SimpleVerseKey.eq a c = true)
  /\ (forall a b, SimpleVerseKey.__ne__ a b = negb (SimpleVerseKey.eq a b)).
Proof.
  repeat split.
  - intros a. unfold SimpleVerseKey.eq. now rewrite !String.eqb_refl.
  - intros a b. unfold SimpleVerseKey.eq.
    now rewrite (String.eqb_sym (SimpleVerseKey.BBB a)), (String.eqb_sym (SimpleVerseKey.C a)),
      (String.eqb_sym (SimpleVerseKey.V a)), (String.eqb_sym (SimpleVerseKey.S a)).
  - intros a b c Hab Hbc. apply SimpleVerseKey_eq_iff in Hab, Hbc.
    apply SimpleVerseKey_eq_iff. intuition congruence.
Qed.

(** Keys that [__eq__] holds equal have the same hash key, so the same
    [__hash__]: what a dictionary needs of its keys. The other fields,
    [keyType] and [ignoreParseErrors], take no part. *)
Theorem SimpleVerseKey_equal_keys_have_equal_hash (a b : SimpleVerseKey.t) :
  SimpleVerseKey.eq a b = true -> SimpleVerseKey.makeHash a = SimpleVerseKey.makeHash b.
Proof.
  intros H. apply SimpleVerseKey_eq_iff in H. destruct H as (Hw & Hc & _).
  unfold SimpleVerseKey.makeHash. now rewrite Hw, Hc.
Qed.

Lemma SimpleVerseKey_equal_keys_have_equal_hash_witness :
  SimpleVerseKey.makeHash (SimpleVerseKey.Build true "GEN" "1" "1" "a" "ParsedBVCS")
  = SimpleVerseKey.makeHash (SimpleVerseKey.Build false "GEN" "1" "1" "a" "AssignedBVCS").
Proof.
  apply SimpleVerseKey_equal_keys_have_equal_hash. vm_compute. reflexivity.
Defined.

(** The items of a key: [key[i]] is defined for the indices 0 to
    [len(key)-1] and raises [IndexError] for every other one, a negative
    one too; a loop over the key yields the four fields of [getBCVS] in
    their order and stops. *)
Theorem SimpleVerseKey_items (self : SimpleVerseKey.t) :
  (forall i, (0 <= i < SimpleVerseKey.__len__ self)%Z <->
             SimpleVerseKey.__getitem__ self i <> None)
  /\ (forall fuel, (4 < fuel)%nat ->
        SimpleVerseKey.items_from fuel self 0
        = Some (let '(w, c, v, s) := SimpleVerseKey.getBCVS self in [w; c; v; s])).
Proof.
  split.
  - intros i. unfold SimpleVerseKey.__getitem__, SimpleVerseKey.__len__.
    destruct (Z.eqb_spec i 0), (Z.eqb_spec i 1), (Z.eqb_spec i 2), (Z.eqb_spec i 3);
      split; intros H; try lia; try discriminate; try (exfalso; now apply H).
  - intros fuel Hfuel.
    do 5 (destruct fuel as [|fuel]; [lia|]). reflexivity.
Qed.

(* ===================================================================== *)
(** ** [int()] on the text of a number *)

Lemma isdigit_cases c : isdigit c = true -> In c (list_ascii_of_string "0123456789").
Proof. apply digit_cases. Qed.

Lemma uint_digits d :
  forallb isdigit (list_ascii_of_string (DecimalString.NilEmpty.string_of_uint d)) = true.
Proof. induction d; cbn [DecimalString.NilEmpty.string_of_uint list_ascii_of_string forallb]; auto. Qed.

(** The end of the digits of a number: the end of the text, or a character
    that is neither a digit nor an underscore. *)
Lemma scan_digits_app d r :
  forallb isdigit (list_ascii_of_string d) = true ->
  match r with String c _ => isdigit c || Ascii.eqb c "_" | EmptyString => false end = false ->
  scan_digits false (d ++ r) = Some (d, r).
Proof.
  intros Hd Hr. induction d as [|c d IH].
  - cbn [append]. destruct r as [|c r]; [reflexivity|].
    apply orb_false_iff in Hr. destruct Hr as (H1 & H2).
    cbn [scan_digits]. now rewrite H1, H2.
  - cbn [list_ascii_of_string forallb] in Hd. apply andb_true_iff in Hd.
    destruct Hd as (Hc & Hd). cbn [append scan_digits]. rewrite Hc.
    now rewrite IH.
Qed.

Lemma py_int_digit_head c s :
  isdigit c = true ->
  py_int (String c s)
  = match scan_digits false (String c s) with
    | Some (String c' d, r) =>
        match lstrip r, DecimalString.NilEmpty.uint_of_string (String c' d) with
        | EmptyString, Some u => Some (Z.of_uint u)
        | _, _ => None
        end
    | _ => None
    end.
Proof.
  intros Hc. apply isdigit_cases in Hc. cbn [list_ascii_of_string In] in Hc.
  repeat (destruct Hc as [<-|Hc]; [reflexivity|]). destruct Hc.
Qed.

Lemma py_int_uint d :
  d <> Decimal.Nil ->
  py_int (DecimalString.NilEmpty.string_of_uint d) = Some (Z.of_uint d).
Proof.
  intros Hd.
  assert (Hs : scan_digits false (DecimalString.NilEmpty.string_of_uint d)
               = Some (DecimalString.NilEmpty.string_of_uint d, "")).
  { rewrite <- (append_nil_r (DecimalString.NilEmpty.string_of_uint d)) at 1.
    apply scan_digits_app; [apply uint_digits | reflexivity]. }
  pose proof (DecimalString.NilEmpty.usu d) as Hu.
  pose proof (uint_digits d) as Hall.
  destruct (DecimalString.NilEmpty.string_of_uint d) as [|c s] eqn:E.
  - destruct d; try discriminate E. now contradiction Hd.
  - cbn [list_ascii_of_string forallb] in Hall. apply andb_true_iff in Hall.
    rewrite py_int_digit_head by apply Hall. rewrite Hs.
    cbn [lstrip]. now rewrite Hu.
Qed.

(** [int( str( n ) )] is [n]. *)
Lemma py_int_str (n : Z) : py_int (str n) = Some n.
Proof.
  unfold str. destruct n as [|p|p]; [reflexivity| |].
  - cbn [Z.to_int DecimalString.NilZero.string_of_int].
    pose proof (DecimalPos.Unsigned.to_uint_nonnil p) as Hp.
    unfold DecimalString.NilZero.string_of_uint.
    destruct (Pos.to_uint p) eqn:E; try (now contradiction Hp);
      rewrite <- E, py_int_uint by (rewrite E; discriminate);
      unfold Z.of_uint; now rewrite DecimalPos.Unsigned.of_to.
  - cbn [Z.to_int DecimalString.NilZero.string_of_int].
    pose proof (DecimalPos.Unsigned.to_uint_nonnil p) as Hp.
    pose proof (@py_int_uint (Pos.to_uint p) Hp) as Hi.
    pose proof (uint_digits (Pos.to_uint p)) as Hall.
    unfold DecimalString.NilZero.string_of_uint.
    replace (match Pos.to_uint p with Decimal.Nil => "0" | _ => DecimalString.NilEmpty.string_of_uint (Pos.to_uint p) end)
      with (DecimalString.NilEmpty.string_of_uint (Pos.to_uint p))
      by (destruct (Pos.to_uint p); try reflexivity; now contradiction Hp).
    destruct (DecimalString.NilEmpty.string_of_uint (Pos.to_uint p)) as [|c s] eqn:E.
    + destruct (Pos.to_uint p); try discriminate E. now contradiction Hp.
    + cbn [list_ascii_of_string forallb] in Hall. apply andb_true_iff in Hall.
      destruct Hall as (Hc & _).
      rewrite py_int_digit_head in Hi by exact Hc.
      unfold py_int. cbn [lstrip]. change (isspace "-") with false. cbv iota.
      rewrite Ascii.eqb_refl.
      assert (Hu : head_is "_" (String c s) = false).
      { apply isdigit_cases in Hc. cbn [list_ascii_of_string In] in Hc.
        repeat (destruct Hc as [<-|Hc]; [reflexivity|]). destruct Hc. }
      rewrite Hu.
      destruct (scan_digits false (String c s)) as [[[|c' d'] r]|]; try discriminate Hi.
      destruct (lstrip r); try discriminate Hi.
      destruct (DecimalString.NilEmpty.uint_of_string (String c' d')); try discriminate Hi.
      injection Hi as Hi. rewrite Hi. unfold Z.of_uint.
      now rewrite DecimalPos.Unsigned.of_to.
Qed.

(* ===================================================================== *)
(** ** SimpleVerseKey: the texts that are parsed *)

Ltac string_norm :=
  repeat first [rewrite append_nil_r | rewrite append_assoc | progress cbn [append]].

Lemma at_end_cases e : at_end e = true -> e = "" \/ e = String newline "".
Proof.
  destruct e as [|c [|d e]]; cbn; intros H; try discriminate; [now left|].
  right. apply Ascii.eqb_eq in H. now subst.
Qed.

Lemma at_end_not_word e : at_end e = true -> head_in word e = false.
Proof. intros H. apply at_end_cases in H. now destruct H as [->| ->]. Qed.

Lemma Eos_run_end {X} (K : rmatch -> list X) b e :
  at_end e = true -> flat_map K (run Eos b e) = K (mkMatch "" e []).
Proof. intros H. cbn [run]. rewrite H. cbn. now rewrite app_nil_r. Qed.

Lemma VERSE_RE_inv s m :
  re_search VERSE_RE s = Some m ->
  exists w c v t g e,
    bookcode w /\ numeral c /\ numeral v /\ sfx t g /\ at_end e = true
    /\ s = w ++ "_" ++ c ++ ":" ++ v ++ t ++ e
    /\ groups m = [Some w; Some c; Some v; g].
Proof.
  intros H. unfold VERSE_RE in H. pattern_inv H.
  now exists w, c, v, t, g, s0.
Qed.

Lemma VERSE_RE_search w c v t g e :
  bookcode w -> numeral c -> numeral v -> sfx t g -> at_end e = true ->
  exists m,
    re_search VERSE_RE (w ++ "_" ++ c ++ ":" ++ v ++ t ++ e) = Some m
    /\ groups m = [Some w; Some c; Some v; g].
Proof.
  intros Hw Hc Hv Ht He. unfold VERSE_RE. rewrite re_search_anchored.
  rewrite flat_map_run_Cat, Bos_run. cbn [matched rest groups].
  rewrite flat_map_run_Cat.
  rewrite BCVS_run with (g := g);
    [|assumption..|now apply at_end_not_word|apply stops_Eos].
  cbn [matched rest groups]. rewrite Eos_run_end by assumption.
  cbn [matched rest groups Datatypes.app hd_error]. eexists. split; reflexivity.
Qed.

(** What [SimpleVerseKey( s )] does once [VERSE_RE] has matched. *)
Lemma SimpleVerseKey_init_search (G : Globals) s ipe m w c v g :
  re_search VERSE_RE s = Some m -> groups m = [Some w; Some c; Some v; g] ->
  SimpleVerseKey.init G s ipe
  = (invalid_book_log G "SimpleVerseKey: Invalid {!r} book code" w,
     if strictCheckingFlag G && negb (BibleBooksCodes G w) then Raise AssertionError
     else Done (SimpleVerseKey.Build ipe w c v
                  (match g with Some x => if truthy x then x else "" | None => "" end)
                  "ParsedBVCS")).
Proof.
  intros Hm Hg. unfold SimpleVerseKey.init, SimpleVerseKey.parseReferenceString.
  rewrite Hm. unfold group_str, group_or_empty, group, invalid_book_log.
  rewrite Hg. cbn [nth Nat.sub].
  now destruct (BibleBooksCodes G w), (strictCheckingFlag G).
Qed.

Lemma bookcode_full_match w : bookcode w -> full_match BBB_RE w = true.
Proof.
  intros [a b c Ha Hb Hc]. unfold full_match. rewrite BBB_RE_eq.
  cbn [run flat_map map Datatypes.app]. rewrite Ha. cbn [flat_map map Datatypes.app matched rest].
  rewrite Hb. cbn [flat_map map Datatypes.app matched rest andb negb truthy].
  rewrite Hc. reflexivity.
Qed.

Lemma letter_cases c : in_class clsaf c = true -> In c (list_ascii_of_string "abcdef").
Proof.
  intros H. destruct c as [[] [] [] [] [] [] [] []]; cbv in H; try discriminate H;
    cbn; tauto.
Qed.

Lemma suffix_in_letters S : suffix S -> In S [""; "a"; "b"; "c"; "d"; "e"; "f"].
Proof.
  intros [->|(c & Hc & ->)]; [now left|].
  apply letter_cases in Hc. cbn [list_ascii_of_string In] in Hc. cbn [In].
  repeat (destruct Hc as [<-|Hc]; [tauto|]). destruct Hc.
Qed.

(** A key that [SimpleVerseKey( s )] returns, and the text it came from. *)
Lemma SimpleVerseKey_init_Done_inv (G : Globals) s ipe log r :
  SimpleVerseKey.init G s ipe = (log, Done r) ->
  exists w c v t g e,
    bookcode w /\ numeral c /\ numeral v /\ sfx t g /\ at_end e = true
    /\ s = w ++ "_" ++ c ++ ":" ++ v ++ t ++ e
    /\ r = SimpleVerseKey.Build ipe w c v
             (match g with Some x => if truthy x then x else "" | None => "" end)
             "ParsedBVCS".
Proof.
  intros H.
  destruct (re_search VERSE_RE s) as [m|] eqn:Hm.
  - destruct (@VERSE_RE_inv _ _ Hm) as (w & c & v & t & g & e & Hw & Hc & Hv & Ht & He & -> & Hg).
    rewrite (@SimpleVerseKey_init_search G _ ipe _ _ _ _ _ Hm Hg) in H.
    destruct (strictCheckingFlag G && negb (BibleBooksCodes G w)); [discriminate H|].
    injection H as _ <-. now exists w, c, v, t, g, e.
  - unfold SimpleVerseKey.init, SimpleVerseKey.parseReferenceString in H.
    rewrite Hm in H. now destruct ipe.
Qed.

(** Every text that [SimpleVerseKey] parses is the text of the key it
    builds, [getVerseKeyText], with at most a lone "!" after a verse that
    has no suffix and at most one newline at its end; the key has a book
    code of the grammar, a chapter and a verse in 1..199 and a suffix that
    is empty or one letter of a..f. *)
Theorem SimpleVerseKey_parsed_text (G : Globals) (s : string) (ipe : bool)
        (log : list logrec) (r : SimpleVerseKey.t) :
  SimpleVerseKey.init G s ipe = (log, Done r) ->
  valid_reference r
  /\ SimpleVerseKey.keyType r = "ParsedBVCS"
  /\ SimpleVerseKey.ignoreParseErrors r = ipe
  /\ exists bare e,
       s = SimpleVerseKey.getVerseKeyText r ++ bare ++ e
       /\ (bare = "" \/ bare = "!" /\ SimpleVerseKey.S r = "")
       /\ (e = "" \/ e = String newline "").
Proof.
  intros H. apply SimpleVerseKey_init_Done_inv in H.
  destruct H as (w & c & v & t & g & e & Hw & Hc & Hv & Ht & He & -> & ->).
  cbn [SimpleVerseKey.keyType SimpleVerseKey.ignoreParseErrors SimpleVerseKey.S].
  split; [|split; [reflexivity|split; [reflexivity|]]].
  - unfold valid_reference.
    cbn [SimpleVerseKey.BBB SimpleVerseKey.C SimpleVerseKey.V SimpleVerseKey.S].
    split; [now apply bookcode_full_match|].
    split; [now apply numeral_canonical|]. split; [now apply numeral_canonical|].
    apply suffix_in_letters. now apply (sfx_suffix Ht).
  - apply at_end_cases in He. unfold SimpleVerseKey.getVerseKeyText.
    cbn [SimpleVerseKey.BBB SimpleVerseKey.C SimpleVerseKey.V SimpleVerseKey.S].
    destruct Ht as [| |ch Hch].
    + exists "", e. cbn [truthy]. split; [now string_norm|auto].
    + exists "!", e. cbn [truthy]. split; [now string_norm|auto].
    + exists "", e. cbn [truthy]. split; [now string_norm|auto].
Qed.

Lemma SimpleVerseKey_parsed_text_witness :
  valid_reference (SimpleVerseKey.Build false "REV" "11" "12" "" "ParsedBVCS")
  /\ SimpleVerseKey.keyType (SimpleVerseKey.Build false "REV" "11" "12" "" "ParsedBVCS")
     = "ParsedBVCS"
  /\ SimpleVerseKey.ignoreParseErrors (SimpleVerseKey.Build false "REV" "11" "12" "" "ParsedBVCS")
     = false
  /\ exists bare e,
       "REV_11:12!" ++ String newline ""
       = SimpleVerseKey.getVerseKeyText (SimpleVerseKey.Build false "REV" "11" "12" "" "ParsedBVCS")
         ++ bare ++ e
       /\ (bare = "" \/ bare = "!"
           /\ SimpleVerseKey.S (SimpleVerseKey.Build false "REV" "11" "12" "" "ParsedBVCS") = "")
       /\ (e = "" \/ e = String newline "").
Proof.
  apply (@SimpleVerseKey_parsed_text lenient ("REV_11:12!" ++ String newline "") false []).
  vm_compute. reflexivity.
Defined.

Lemma valid_reference_pieces r :
  valid_reference r ->
  bookcode (SimpleVerseKey.BBB r) /\ numeral (SimpleVerseKey.C r)
  /\ numeral (SimpleVerseKey.V r) /\ suffix (SimpleVerseKey.S r).
Proof.
  intros (Hw & (nc & Hnc & HC) & (nv & Hnv & HV) & HS).
  rewrite HC, HV. auto using full_match_BBB, numeral_str, suffix_letters.
Qed.

Lemma sfx_group_value S :
  suffix S ->
  match sfx_group S with Some x => if truthy x then x else "" | None => "" end = S.
Proof. now intros [->|(c & _ & ->)]. Qed.

(** The text of a valid key, followed or not by one newline, is parsed
    into a key with the same four fields. A book code that is not
    registered is logged, and under strict checking it then fails the
    assertion. *)
Theorem SimpleVerseKey_init_on_key_text (G : Globals) (r : SimpleVerseKey.t)
        (ipe : bool) (e : string) :
  valid_reference r -> e = "" \/ e = String newline "" ->
  SimpleVerseKey.init G (SimpleVerseKey.getVerseKeyText r ++ e) ipe
  = (if BibleBooksCodes G (SimpleVerseKey.BBB r) then []
     else [LogError "SimpleVerseKey: Invalid {!r} book code" (SimpleVerseKey.BBB r)],
     if strictCheckingFlag G && negb (BibleBooksCodes G (SimpleVerseKey.BBB r))
     then Raise AssertionError
     else Done (SimpleVerseKey.Build ipe (SimpleVerseKey.BBB r) (SimpleVerseKey.C r)
                  (SimpleVerseKey.V r) (SimpleVerseKey.S r) "ParsedBVCS")).
Proof.
  intros Hr He. apply valid_reference_pieces in Hr.
  destruct r as [ipe0 w c v sf kt].
  cbn [SimpleVerseKey.BBB SimpleVerseKey.C SimpleVerseKey.V SimpleVerseKey.S] in *.
  destruct Hr as (Hw & Hc & Hv & HS).
  assert (Hend : at_end e = true) by (now destruct He as [->| ->]).
  destruct (@VERSE_RE_search w c v (bang sf ++ sf) (sfx_group sf) e Hw Hc Hv
              (suffix_sfx HS) Hend) as (m & Hm & Hg).
  unfold SimpleVerseKey.getVerseKeyText.
  cbn [SimpleVerseKey.BBB SimpleVerseKey.C SimpleVerseKey.V SimpleVerseKey.S].
  change (if truthy sf then "!" else "") with (bang sf).
  replace ((w ++ "_" ++ c ++ ":" ++ v ++ bang sf ++ sf) ++ e)
    with (w ++ "_" ++ c ++ ":" ++ v ++ (bang sf ++ sf) ++ e) by (now string_norm).
  rewrite (@SimpleVerseKey_init_search G _ ipe _ _ _ _ _ Hm Hg).
  now rewrite (sfx_group_value HS).
Qed.

Lemma SimpleVerseKey_init_on_key_text_witness :
  SimpleVerseKey.init strict
    (SimpleVerseKey.getVerseKeyText (SimpleVerseKey.Build false "REV" "11" "12" "b" "AssignedBVCS")
     ++ String newline "") true
  = ([], Done (SimpleVerseKey.Build true "REV" "11" "12" "b" "ParsedBVCS")).
Proof.
  apply (@SimpleVerseKey_init_on_key_text strict
           (SimpleVerseKey.Build false "REV" "11" "12" "b" "AssignedBVCS") true
           (String newline "")).
  - split; [vm_compute; reflexivity|]. split; [|split].
    + exists 11%Z. split; [lia | vm_compute; reflexivity].
    + exists 12%Z. split; [lia | vm_compute; reflexivity].
    + cbn. tauto.
  - now right.
Defined.


(* ===================================================================== *)
(** ** SimpleVerseKey: chapter and verse as integers *)

Lemma number_of_str (G : Globals) (gettext : string -> string) fmt (n : Z) :
  SimpleVerseKey.number_of G gettext fmt (str n) = ([], Done (Some n)).
Proof. unfold SimpleVerseKey.number_of. now rewrite py_int_str. Qed.

(** For a key that [SimpleVerseKey( s )] has parsed, [getChapterNumberInt]
    and [getVerseNumberInt] return the chapter and the verse as numbers in
    1..199, whose decimal text is the field, and log nothing. *)
Theorem SimpleVerseKey_numbers_of_parsed_key (G : Globals) (gettext : string -> string)
        (s : string) (ipe : bool) (log : list logrec) (r : SimpleVerseKey.t) :
  SimpleVerseKey.init G s ipe = (log, Done r) ->
  exists c v,
    (1 <= c <= 199)%Z /\ (1 <= v <= 199)%Z
    /\ SimpleVerseKey.C r = str c /\ SimpleVerseKey.V r = str v
    /\ SimpleVerseKey.getChapterNumberInt G gettext r = ([], Done (Some c))
    /\ SimpleVerseKey.getVerseNumberInt G gettext r = ([], Done (Some v)).
Proof.
  intros H. apply SimpleVerseKey_init_Done_inv in H.
  destruct H as (w & c & v & t & g & e & _ & Hc & Hv & _ & _ & _ & ->).
  apply numeral_canonical in Hc, Hv.
  destruct Hc as (nc & Hnc & ->), Hv as (nv & Hnv & ->).
  exists nc, nv. unfold SimpleVerseKey.getChapterNumberInt, SimpleVerseKey.getVerseNumberInt.
  cbn [SimpleVerseKey.C SimpleVerseKey.V]. now rewrite !number_of_str.
Qed.

Lemma SimpleVerseKey_numbers_of_parsed_key_witness :
  exists c v,
    (1 <= c <= 199)%Z /\ (1 <= v <= 199)%Z
    /\ SimpleVerseKey.C (SimpleVerseKey.Build false "SA2" "19" "12" "" "ParsedBVCS") = str c
    /\ SimpleVerseKey.V (SimpleVerseKey.Build false "SA2" "19" "12" "" "ParsedBVCS") = str v
    /\ SimpleVerseKey.getChapterNumberInt lenient (fun x => x)
         (SimpleVerseKey.Build false "SA2" "19" "12" "" "ParsedBVCS") = ([], Done (Some c))
    /\ SimpleVerseKey.getVerseNumberInt lenient (fun x => x)
         (SimpleVerseKey.Build false "SA2" "19" "12" "" "ParsedBVCS") = ([], Done (Some v)).
Proof.
  apply (@SimpleVerseKey_numbers_of_parsed_key lenient (fun x => x) "SA2_19:12" false []).
  vm_compute. reflexivity.
Defined.

(** A [SwordKey] built from a chapter and a verse given as integers, as
    [SwordInterface.makeKey] builds it, gives the two integers back from
    [getChapter] and [getVerse], with no warning, whatever the integers
    are. *)
Theorem SwordKey_integers_round_trip (G : Globals) (gettext : string -> string)
        (BBB : string) (c v : Z) (S : option string)
        (log : list logrec) (k : SimpleVerseKey.t) :
  SimpleVerseKey.init_fields G BBB (SimpleVerseKey.Int c) (SimpleVerseKey.Int v) S
  = (log, Done k) ->
  SwordKey.getChapter G gettext k = ([], Done (Some c))
  /\ SwordKey.getVerse G gettext k = ([], Done (Some v)).
Proof.
  unfold SimpleVerseKey.init_fields, SimpleVerseKey.init_BCVS. intros H.
  assert (Hk : SimpleVerseKey.C k = str c /\ SimpleVerseKey.V k = str v).
  { destruct (debugFlag G); cbn [when] in H.
    - destruct (SimpleVerseKey.debug_checks G BBB (str c) (str v)
                  match S with Some S0 => S0 | None => "" end);
        cbn in H; [|discriminate H].
      injection H as _ <-. now split.
    - cbn in H. injection H as _ <-. now split. }
  destruct Hk as (Hc & Hv).
  unfold SwordKey.getChapter, SwordKey.getVerse,
    SimpleVerseKey.getChapterNumberInt, SimpleVerseKey.getVerseNumberInt.
  now rewrite Hc, Hv, !number_of_str.
Qed.

Lemma SwordKey_integers_round_trip_witness :
  SwordKey.getChapter debugging (fun x => x)
    (SimpleVerseKey.Build false "GEN" "0" "-1" "" "AssignedBVCS") = ([], Done (Some 0%Z))
  /\ SwordKey.getVerse debugging (fun x => x)
       (SimpleVerseKey.Build false "GEN" "0" "-1" "" "AssignedBVCS") = ([], Done (Some (-1)%Z)).
Proof.
  apply (@SwordKey_integers_round_trip debugging (fun x => x) "GEN" 0 (-1) None []).
  vm_compute. reflexivity.
Defined.

Lemma isalpha_facts c :
  isalpha c = true ->
  isdigit c = false /\ isspace c = false /\ Ascii.eqb c "_" = false
  /\ Ascii.eqb c "-" = false /\ Ascii.eqb c "+" = false /\ is_continuation_byte c = false.
Proof.
  destruct c as [[] [] [] [] [] [] [] []]; cbv; intros H; try discriminate H; tauto.
Qed.

Lemma isdigit_facts c :
  isdigit c = true ->
  isspace c = false /\ Ascii.eqb c "_" = false
  /\ Ascii.eqb c "-" = false /\ Ascii.eqb c "+" = false /\ is_continuation_byte c = false.
Proof.
  destruct c as [[] [] [] [] [] [] [] []]; cbv; intros H; try discriminate H; tauto.
Qed.

Lemma py_int_letter c x : isalpha c = true -> py_int (String c x) = None.
Proof.
  intros Hc. apply isalpha_facts in Hc. destruct Hc as (Hd & Hs & Hu & Hm & Hp & _).
  unfold py_int. cbn [lstrip]. rewrite Hs, Hm, Hp. cbn [head_is]. rewrite Hu.
  cbn [scan_digits]. now rewrite Hd, Hu.
Qed.

Lemma py_int_digits_letter d c x :
  d <> "" -> forallb isdigit (list_ascii_of_string d) = true -> isalpha c = true ->
  py_int (d ++ String c x) = None.
Proof.
  intros Hne Hd Hc. apply isalpha_facts in Hc. destruct Hc as (Hcd & Hs & Hu & _).
  destruct d as [|a d]; [now contradiction Hne|].
  pose proof Hd as Hall. cbn [list_ascii_of_string forallb] in Hd.
  apply andb_true_iff in Hd. destruct Hd as (Ha & _).
  cbn [append]. rewrite py_int_digit_head by exact Ha.
  change (String a (d ++ String c x)) with (String a d ++ String c x).
  rewrite scan_digits_app; [|exact Hall|now rewrite Hcd, Hu].
  cbn [lstrip]. now rewrite Hs.
Qed.

Lemma count_digits_app a b : count_digits (a ++ b) = count_digits a + count_digits b.
Proof. induction a as [|c a IH]; cbn [append count_digits]; [reflexivity|]. rewrite IH. lia. Qed.

Lemma count_digits_all d :
  forallb isdigit (list_ascii_of_string d) = true -> count_digits d = String.length d.
Proof.
  induction d as [|c d IH]; cbn [list_ascii_of_string forallb count_digits String.length];
    [reflexivity|].
  intros H. apply andb_true_iff in H. destruct H as (-> & H). now rewrite IH.
Qed.

Lemma take_digits d k x :
  forallb isdigit (list_ascii_of_string d) = true ->
  take (String.length d + k) (d ++ x) = d ++ take k x.
Proof.
  induction d as [|c d IH]; cbn [list_ascii_of_string forallb String.length append];
    [reflexivity|].
  intros H. apply andb_true_iff in H. destruct H as (Hc & H).
  apply isdigit_facts in Hc. destruct Hc as (_ & _ & _ & _ & Hc).
  cbn [Nat.add take]. rewrite Hc. now rewrite IH.
Qed.

Lemma str_digits (n : Z) :
  (0 <= n)%Z -> str n <> "" /\ forallb isdigit (list_ascii_of_string (str n)) = true.
Proof.
  intros Hn. unfold str. destruct n as [|p|p]; [now split| |lia].
  cbn [Z.to_int DecimalString.NilZero.string_of_int].
  pose proof (DecimalPos.Unsigned.to_uint_nonnil p) as Hp.
  pose proof (uint_digits (Pos.to_uint p)) as Hall.
  unfold DecimalString.NilZero.string_of_uint.
  destruct (Pos.to_uint p) eqn:E; try (now contradiction Hp); (split; [discriminate|exact Hall]).
Qed.

(** The number that [number_of] finds in a text made of a number, a
    letter and more. *)
Lemma number_of_with_letters (G : Globals) (gettext : string -> string) fmt
      (n : Z) (c : ascii) (x : string) :
  (0 <= n)%Z -> isalpha c = true ->
  SimpleVerseKey.number_of G gettext fmt (str n ++ String c x)
  = ([SimpleVerseKey.LogWarning (VerseReferences.t G gettext fmt) (str n ++ String c x)],
     if (count_digits x =? 0)%nat then Done (Some n) else Raise ValueError).
Proof.
  intros Hn Hc. destruct (str_digits Hn) as (Hne & Hd).
  unfold SimpleVerseKey.number_of.
  rewrite py_int_digits_letter by assumption.
  assert (Hhead : truthy (str n ++ String c x)
                  && match str n ++ String c x with
                     | String a _ => isdigit a
                     | EmptyString => false
                     end = true).
  { destruct (str n) as [|a d]; [now contradiction Hne|].
    cbn [list_ascii_of_string forallb] in Hd. apply andb_true_iff in Hd.
    cbn [append truthy andb]. apply Hd. }
  rewrite Hhead.
  rewrite count_digits_app, (count_digits_all _ Hd). cbn [count_digits].
  destruct (isalpha_facts _ Hc) as (Hcd & _ & _ & _ & _ & Hcc). rewrite Hcd. cbn [Nat.add].
  rewrite take_digits by exact Hd.
  destruct (count_digits x) as [|k] eqn:Ek.
  - cbn [take]. rewrite Hcc. cbn [Nat.eqb]. rewrite append_nil_r. now rewrite py_int_str.
  - cbn [take]. rewrite Hcc. cbn [Nat.eqb].
    now rewrite py_int_digits_letter by assumption.
Qed.

(** On a chapter or a verse that is a number followed by a letter and any
    ASCII text, such as "12b", the methods log one warning and fall back
    on the digits: they return the number when no digit comes after the
    letter, and raise [ValueError] when one does, as in "1a2", where the
    count of all the digits cuts the text inside its letters. *)
Theorem SimpleVerseKey_number_followed_by_letters (G : Globals) (gettext : string -> string)
        (n : Z) (c : ascii) (x : string) :
  (0 <= n)%Z -> isalpha c = true -> forallb isascii (list_ascii_of_string x) = true ->
  forall ipe BBB other S keyType,
    SimpleVerseKey.getChapterNumberInt G gettext
      (SimpleVerseKey.Build ipe BBB (str n ++ String c x) other S keyType)
    = ([SimpleVerseKey.LogWarning
          (VerseReferences.t G gettext "getChapterNumberInt: Unusual C value: {}")
          (str n ++ String c x)],
       if (count_digits x =? 0)%nat then Done (Some n) else Raise ValueError)
    /\ SimpleVerseKey.getVerseNumberInt G gettext
         (SimpleVerseKey.Build ipe BBB other (str n ++ String c x) S keyType)
       = ([SimpleVerseKey.LogWarning
             (VerseReferences.t G gettext "getVerseNumberInt: Unusual V value: {}")
             (str n ++ String c x)],
          if (count_digits x =? 0)%nat then Done (Some n) else Raise ValueError).
Proof.
  intros Hn Hc _ ipe BBB other S keyType.
  unfold SimpleVerseKey.getChapterNumberInt, SimpleVerseKey.getVerseNumberInt.
  cbn [SimpleVerseKey.C SimpleVerseKey.V].
  split; now apply number_of_with_letters.
Qed.

Lemma SimpleVerseKey_number_followed_by_letters_witness :
  SimpleVerseKey.getChapterNumberInt lenient (fun x => x)
    (SimpleVerseKey.Build false "JNA" (str 1 ++ String "a" "2") "3" "" "AssignedBVCS")
  = ([SimpleVerseKey.LogWarning
        (VerseReferences.t lenient (fun x => x) "getChapterNumberInt: Unusual C value: {}")
        (str 1 ++ String "a" "2")],
     if (count_digits "2" =? 0)%nat then Done (Some 1%Z) else Raise ValueError)
  /\ SimpleVerseKey.getVerseNumberInt lenient (fun x => x)
       (SimpleVerseKey.Build false "JNA" "3" (str 1 ++ String "a" "2") "" "AssignedBVCS")
     = ([SimpleVerseKey.LogWarning
           (VerseReferences.t lenient (fun x => x) "getVerseNumberInt: Unusual V value: {}")
           (str 1 ++ String "a" "2")],
        if (count_digits "2" =? 0)%nat then Done (Some 1%Z) else Raise ValueError).
Proof.
  apply (@SimpleVerseKey_number_followed_by_letters lenient (fun x => x) 1 "a" "2").
  - lia.
  - vm_compute. reflexivity.
  - vm_compute. reflexivity.
Defined.

(** On a chapter or a verse that is empty or starts with a letter the
    methods log one warning and return [None]. *)
Theorem SimpleVerseKey_no_number (G : Globals) (gettext : string -> string) (X : string) :
  X = "" \/ (exists c x, isalpha c = true /\ X = String c x) ->
  forall ipe BBB other S keyType,
    SimpleVerseKey.getChapterNumberInt G gettext
      (SimpleVerseKey.Build ipe BBB X other S keyType)
    = ([SimpleVerseKey.LogWarning
          (VerseReferences.t G gettext "getChapterNumberInt: Unusual C value: {}") X],
       Done None)
    /\ SimpleVerseKey.getVerseNumberInt G gettext
         (SimpleVerseKey.Build ipe BBB other X S keyType)
       = ([SimpleVerseKey.LogWarning
             (VerseReferences.t G gettext "getVerseNumberInt: Unusual V value: {}") X],
          Done None).
Proof.
  intros HX ipe BBB other S keyType.
  assert (H : forall fmt,
             SimpleVerseKey.number_of G gettext fmt X
             = ([SimpleVerseKey.LogWarning (VerseReferences.t G gettext fmt) X], Done None)).
  { intros fmt. unfold SimpleVerseKey.number_of.
    destruct HX as [->|(c & x & Hc & ->)]; [reflexivity|].
    rewrite py_int_letter by exact Hc. cbn [truthy andb].
    destruct (isalpha_facts _ Hc) as (-> & _). reflexivity. }
  unfold SimpleVerseKey.getChapterNumberInt, SimpleVerseKey.getVerseNumberInt.
  cbn [SimpleVerseKey.C SimpleVerseKey.V]. split; apply H.
Qed.

Lemma SimpleVerseKey_no_number_witness :
  SimpleVerseKey.getChapterNumberInt debugging (fun x => x)
    (SimpleVerseKey.Build false "GEN" "" "1" "" "AssignedBVCS")
  = ([SimpleVerseKey.LogWarning
        (VerseReferences.t debugging (fun x => x) "getChapterNumberInt: Unusual C value: {}") ""],
     Done None)
  /\ SimpleVerseKey.getVerseNumberInt debugging (fun x => x)
       (SimpleVerseKey.Build false "GEN" "1" "" "" "AssignedBVCS")
     = ([SimpleVerseKey.LogWarning
           (VerseReferences.t debugging (fun x => x) "getVerseNumberInt: Unusual V value: {}") ""],
        Done None).
Proof.
  apply (@SimpleVerseKey_no_number debugging (fun x => x) "").
  now left.
Defined.


(* ===================================================================== *)
(** ** The messages of the module *)

Lemma split_once_none sep s : contains sep s = false -> split_once sep s = None.
Proof.
  induction s as [|c s IH]; cbn [contains split_once].
  - now destruct (strip_prefix sep "").
  - destruct (strip_prefix sep (String c s)); [discriminate|].
    intros H. now rewrite IH.
Qed.

Lemma split_once_first name err :
  contains ": " name = false -> split_once ": " (name ++ ": " ++ err) = Some (name, err).
Proof.
  induction name as [|c name IH]; intros H.
  - reflexivity.
  - cbn [contains] in H.
    destruct (strip_prefix ": " (String c name)) eqn:E; [discriminate H|].
    change (String c name ++ ": " ++ err) with (String c (name ++ ": " ++ err)).
    cbn [split_once].
    assert (E' : strip_prefix ": " (String c (name ++ ": " ++ err)) = None).
    { cbn [strip_prefix] in E |- *. destruct (Ascii.eqb ":" c); [|reflexivity].
      destruct name as [|d name]; [reflexivity|].
      cbn [append]. now destruct (Ascii.eqb " " d). }
    rewrite E'. now rewrite IH.
Qed.

(** [t] translates the part of a message after its first ": " and leaves
    the name before it as it is; under [debugFlag] the name of the module
    is put before the name. A message with no ": " is translated whole and
    gets ": " before it, after the name of the module under [debugFlag]. *)
Theorem t_translates_the_error_part (G : Globals) (gettext : string -> string) :
  (forall name err,
      contains ": " name = false ->
      VerseReferences.t G gettext (name ++ ": " ++ err)
      = (if debugFlag G
         then "VerseReferences" ++ (if truthy name then "." else "") ++ name
         else name) ++ ": " ++ gettext err)
  /\ (forall message,
         contains ": " message = false ->
         VerseReferences.t G gettext message
         = (if debugFlag G then "VerseReferences" else "") ++ ": " ++ gettext message).
Proof.
  split.
  - intros name err H. unfold VerseReferences.t. rewrite split_once_first by exact H.
    unfold VerseReferences.debuggingThisModule, VerseReferences.ShortProgName.
    rewrite orb_false_r. reflexivity.
  - intros message H. unfold VerseReferences.t. rewrite split_once_none by exact H.
    unfold VerseReferences.debuggingThisModule, VerseReferences.ShortProgName.
    rewrite orb_false_r. now destruct (debugFlag G).
Qed.

(* ===================================================================== *)
(** ** SimpleVerseKey: the assertions of [debugFlag] *)

Lemma class_plain cls c :
  In cls [clsB1; clsB2; clsB3; cls19; cls09; cls11; clsaf] ->
  in_class cls c = true -> plain c = true.
Proof.
  intros Hcls. cbn [In] in Hcls.
  repeat (destruct Hcls as [<-|Hcls];
          [destruct c as [[] [] [] [] [] [] [] []]; cbv; intros H;
           first [reflexivity | discriminate H]|]).
  destruct Hcls.
Qed.

Lemma plain_len s :
  forallb plain (list_ascii_of_string s) = true -> len s = String.length s.
Proof.
  induction s as [|c s IH]; cbn [list_ascii_of_string forallb len String.length];
    [reflexivity|].
  intros H. apply andb_true_iff in H. destruct H as (Hc & H).
  unfold plain in Hc. apply andb_true_iff in Hc. destruct Hc as (Hc & _).
  apply negb_true_iff in Hc. rewrite Hc. now rewrite IH.
Qed.

Lemma plain_char_in s checkChar :
  In checkChar (list_ascii_of_string " -,.:") ->
  forallb plain (list_ascii_of_string s) = true -> char_in checkChar s = false.
Proof.
  intros Hin. induction s as [|c s IH]; cbn [list_ascii_of_string forallb char_in];
    [reflexivity|].
  intros H. apply andb_true_iff in H. destruct H as (Hc & H).
  rewrite (IH H), orb_false_r.
  unfold plain in Hc. apply andb_true_iff in Hc. destruct Hc as (_ & Hc).
  rewrite forallb_forall in Hc. apply negb_true_iff. now apply Hc.
Qed.

Lemma bookcode_plain w :
  bookcode w -> forallb plain (list_ascii_of_string w) = true /\ String.length w = 3.
Proof.
  intros [a b c Ha Hb Hc]. cbn [list_ascii_of_string forallb String.length].
  rewrite (@class_plain clsB1 a), (@class_plain clsB2 b), (@class_plain clsB3 c);
    cbn [In]; auto 10.
Qed.

Lemma numeral_plain v :
  numeral v ->
  forallb plain (list_ascii_of_string v) = true
  /\ (1 <=? String.length v)%nat && (String.length v <=? 3)%nat = true.
Proof.
  intros [a Ha|a b Ha Hb|a b c Ha Hb Hc]; cbn [list_ascii_of_string forallb String.length].
  - rewrite (@class_plain cls19 a); cbn [In]; auto 10.
  - rewrite (@class_plain cls19 a), (@class_plain cls09 b); cbn [In]; auto 10.
  - rewrite (@class_plain cls11 a), (@class_plain cls09 b), (@class_plain cls09 c);
      cbn [In]; auto 10.
Qed.

Lemma suffix_plain S :
  suffix S ->
  forallb plain (list_ascii_of_string S) = true /\ (String.length S <? 3)%nat = true.
Proof.
  intros [->|(c & Hc & ->)]; [now split|].
  cbn [list_ascii_of_string forallb String.length].
  rewrite (@class_plain clsaf c); cbn [In]; auto 10.
Qed.

(** The assertions on a book code of the grammar, a chapter of the
    grammar, a verse of one to three plain characters and a suffix of the
    grammar come down to the one on the registry. *)
Lemma debug_checks_fields (G : Globals) w c v S :
  bookcode w -> numeral c ->
  forallb plain (list_ascii_of_string v) = true ->
  (1 <=? String.length v)%nat && (String.length v <=? 3)%nat = true ->
  suffix S ->
  SimpleVerseKey.debug_checks G w c v S = BibleBooksCodes G w.
Proof.
  intros Hw Hc Pv Lv HS.
  destruct (bookcode_plain Hw) as (Pw & Lw), (numeral_plain Hc) as (Pc & Lc),
    (suffix_plain HS) as (PS & LS).
  unfold SimpleVerseKey.debug_checks.
  rewrite !plain_len by assumption. rewrite Lw, Lc, Lv, LS. cbn [Nat.eqb andb].
  assert (Hblank : String.eqb w "   " = false).
  { destruct Hw as [a b c' Ha _ _]. apply String.eqb_neq. intros [= -> _ _].
    discriminate Ha. }
  rewrite Hblank, orb_false_r.
  assert (Hall : forallb (fun checkChar =>
             negb (char_in checkChar w) && negb (char_in checkChar c)
             && (negb (char_in checkChar v) || (String.eqb c "0" && String.eqb v "-1"))
             && negb (char_in checkChar S)) (list_ascii_of_string " -,.:") = true).
  { apply forallb_forall. intros ch Hch.
    now rewrite !plain_char_in by assumption. }
  rewrite Hall. now rewrite andb_true_r.
Qed.

Lemma debug_checks_valid (G : Globals) w c v S :
  bookcode w -> numeral c -> numeral v -> suffix S ->
  SimpleVerseKey.debug_checks G w c v S = BibleBooksCodes G w.
Proof.
  intros Hw Hc Hv HS. destruct (numeral_plain Hv) as (Pv & Lv).
  now apply debug_checks_fields.
Qed.

(** Under [debugFlag] the constructor from separate fields returns a key
    only for a book code that is registered: the code of three spaces,
    which the assertion on the book lets through, fails the assertion on
    the characters that follows it. *)
Theorem SimpleVerseKey_debug_needs_registered_book (G : Globals) (BBB C V : string)
        (S : option string) (log : list logrec) (k : SimpleVerseKey.t) :
  debugFlag G = true ->
  SimpleVerseKey.init_BCVS G BBB C V S = (log, Done k) ->
  BibleBooksCodes G BBB = true /\ BBB <> "   " /\ len BBB = 3.
Proof.
  intros HG. unfold SimpleVerseKey.init_BCVS. rewrite HG. cbn [when].
  destruct (SimpleVerseKey.debug_checks G BBB C V
              match S with Some S0 => S0 | None => "" end) eqn:E;
    cbn; [intros _|discriminate].
  unfold SimpleVerseKey.debug_checks in E.
  repeat (apply andb_true_iff in E; destruct E as (E & ?)).
  match goal with H : forallb _ _ = true |- _ => rename H into Hall end.
  cbn [list_ascii_of_string forallb] in Hall.
  apply andb_true_iff in Hall. destruct Hall as (Hsp & _).
  repeat (apply andb_true_iff in Hsp; destruct Hsp as (Hsp & ?)).
  apply negb_true_iff in Hsp.
  assert (Hne : BBB <> "   ") by (intros ->; discriminate Hsp).
  split; [|split; [exact Hne|now apply Nat.eqb_eq]].
  match goal with
  | H : BibleBooksCodes G BBB || _ = true |- _ =>
      apply orb_true_iff in H; destruct H as [H|H];
      [exact H | apply String.eqb_eq in H; now contradiction Hne]
  end.
Qed.

Lemma SimpleVerseKey_debug_needs_registered_book_witness :
  BibleBooksCodes debugging "GEN" = true /\ "GEN" <> "   " /\ len "GEN" = 3.
Proof.
  apply (@SimpleVerseKey_debug_needs_registered_book debugging "GEN" "0" "-1" None []
           (SimpleVerseKey.Build false "GEN" "0" "-1" "" "AssignedBVCS")).
  - reflexivity.
  - vm_compute. reflexivity.
Defined.

(** Under [debugFlag], on fields of the grammar (a book code, a chapter and
    a verse in 1..199, a suffix that is empty or a letter of a..f) all the
    assertions but the one on the registry hold: the key is built when the
    book code is registered and [AssertionError] is raised when it is not,
    with strict checking or without. *)
Theorem SimpleVerseKey_debug_on_valid_fields (G : Globals) (r : SimpleVerseKey.t) :
  debugFlag G = true -> valid_reference r ->
  SimpleVerseKey.init_BCVS G (SimpleVerseKey.BBB r) (SimpleVerseKey.C r)
    (SimpleVerseKey.V r) (Some (SimpleVerseKey.S r))
  = ([], if BibleBooksCodes G (SimpleVerseKey.BBB r)
         then Done (SimpleVerseKey.Build false (SimpleVerseKey.BBB r) (SimpleVerseKey.C r)
                      (SimpleVerseKey.V r) (SimpleVerseKey.S r) "AssignedBVCS")
         else Raise AssertionError).
Proof.
  intros HG Hr. apply valid_reference_pieces in Hr. destruct Hr as (Hw & Hc & Hv & HS).
  unfold SimpleVerseKey.init_BCVS. rewrite HG. cbn [when].
  rewrite debug_checks_valid by assumption.
  now destruct (BibleBooksCodes G (SimpleVerseKey.BBB r)).
Qed.

Lemma SimpleVerseKey_debug_on_valid_fields_witness :
  SimpleVerseKey.init_BCVS debugging "ZZZ" "1" "1" (Some "")
  = ([], Raise AssertionError).
Proof.
  apply (@SimpleVerseKey_debug_on_valid_fields debugging
           (SimpleVerseKey.Build false "ZZZ" "1" "1" "" "ParsedBVCS")).
  - reflexivity.
  - split; [vm_compute; reflexivity|]. split; [|split].
    + exists 1%Z. split; [lia | vm_compute; reflexivity].
    + exists 1%Z. split; [lia | vm_compute; reflexivity].
    + now left.
Defined.

(* ===================================================================== *)
(** ** The patterns on the texts of lists and ranges *)

Lemma Lit_none {X} (K : rmatch -> list X) l b s :
  strip_prefix l s = None -> flat_map K (run (Lit l) b s) = [].
Proof. intros H. cbn [run]. now rewrite H. Qed.

Lemma Eos_none {X} (K : rmatch -> list X) b c l s :
  Ascii.eqb c newline = false -> flat_map K (run Eos b (String c l ++ s)) = [].
Proof. intros H. cbn [run at_end append]. rewrite H. now destruct (l ++ s). Qed.

Lemma NUM_none {X} (K : rmatch -> list X) b s :
  head_in cls19 s = false -> flat_map K (run V_RE b s) = [].
Proof.
  intros H. rewrite V_RE_eq. destruct s as [|a s]; [reflexivity|].
  cbn [head_in] in H. cbn [run]. rewrite H.
  destruct (in_class cls11 a) eqn:E; [|reflexivity].
  apply in_class_11_19 in E. congruence.
Qed.

Lemma bookcode_head w x : bookcode w -> head_in cls19 (w ++ x) = false.
Proof.
  intros [a b c Ha _ _]. cbn [append head_in].
  destruct a as [[] [] [] [] [] [] [] []]; cbv in Ha; try discriminate Ha; reflexivity.
Qed.

Lemma BCVS_text {X} (K : rmatch -> list X) b w c v S s' :
  bookcode w -> numeral c -> numeral v -> suffix S -> head_in word s' = false ->
  stops_at_word K ->
  flat_map K (run BCVS_RE b (w ++ "_" ++ c ++ ":" ++ verse_suffix v S ++ s'))
  = K (mkMatch (w ++ "_" ++ c ++ ":" ++ verse_suffix v S) s'
         [Some w; Some c; Some v; sfx_group S]).
Proof.
  intros Hw Hc Hv HS Hs' HK. unfold verse_suffix. rewrite (append_assoc v).
  now apply BCVS_run; auto using suffix_sfx.
Qed.

Lemma VS_text {X} (K : rmatch -> list X) b v S s' :
  numeral v -> suffix S -> head_in word s' = false -> stops_at_word K ->
  flat_map K (run VS_RE b (verse_suffix v S ++ s'))
  = K (mkMatch (verse_suffix v S) s' [Some v; sfx_group S]).
Proof.
  intros Hv HS Hs' HK. unfold verse_suffix. rewrite (append_assoc v).
  now apply VS_run; auto using suffix_sfx.
Qed.

Lemma CVS_text {X} (K : rmatch -> list X) b c v S s' :
  numeral c -> numeral v -> suffix S -> head_in word s' = false -> stops_at_word K ->
  flat_map K (run CVS_RE b (c ++ ":" ++ verse_suffix v S ++ s'))
  = K (mkMatch (c ++ ":" ++ verse_suffix v S) s' [Some c; Some v; sfx_group S]).
Proof.
  intros Hc Hv HS Hs' HK. unfold verse_suffix. rewrite (append_assoc v).
  now apply CVS_run; auto using suffix_sfx.
Qed.

Ltac side_cond :=
  first [ assumption
        | reflexivity
        | apply at_end_not_word; assumption
        | apply stops_Eos
        | apply stops_Lit; reflexivity ].

(** One step of the matcher on a text written in pieces. *)
Ltac fwd_step :=
  first
    [ rewrite flat_map_run_Cat
    | rewrite Bos_run
    | rewrite BCVS_text by side_cond
    | rewrite CVS_text by side_cond
    | rewrite VS_text by side_cond
    | rewrite Lit_run
    | rewrite Eos_run_end by assumption
    | rewrite Lit_none by reflexivity
    | rewrite Eos_none by reflexivity
    | rewrite NUM_none by (first [reflexivity | apply bookcode_head; assumption]) ];
  cbn [matched rest groups].
Ltac fwd := rewrite re_search_anchored; repeat fwd_step; cbn [Datatypes.app hd_error].

Lemma VERSES2_RE_search w c v1 S1 v2 S2 e :
  bookcode w -> numeral c -> numeral v1 -> suffix S1 -> numeral v2 -> suffix S2 ->
  at_end e = true ->
  exists m,
    re_search VERSES2_RE
      (w ++ "_" ++ c ++ ":" ++ verse_suffix v1 S1 ++ "," ++ verse_suffix v2 S2 ++ e) = Some m
    /\ groups m = [Some w; Some c; Some v1; sfx_group S1; Some v2; sfx_group S2].
Proof.
  intros Hw Hc Hv1 HS1 Hv2 HS2 He. unfold VERSES2_RE. fwd.
  eexists. split; reflexivity.
Qed.

Lemma VERSES2C_RE_search w c1 v1 S1 c2 v2 S2 e :
  bookcode w -> numeral c1 -> numeral v1 -> suffix S1 ->
  numeral c2 -> numeral v2 -> suffix S2 -> at_end e = true ->
  re_search VERSES2_RE
    (w ++ "_" ++ c1 ++ ":" ++ verse_suffix v1 S1 ++ ";" ++ c2 ++ ":" ++ verse_suffix v2 S2 ++ e)
  = None
  /\ exists m,
       re_search VERSES2C_RE
         (w ++ "_" ++ c1 ++ ":" ++ verse_suffix v1 S1 ++ ";" ++ c2 ++ ":"
            ++ verse_suffix v2 S2 ++ e) = Some m
       /\ groups m = [Some w; Some c1; Some v1; sfx_group S1; Some c2; Some v2; sfx_group S2].
Proof.
  intros Hw Hc1 Hv1 HS1 Hc2 Hv2 HS2 He. split.
  - unfold VERSES2_RE. fwd; reflexivity.
  - unfold VERSES2C_RE. fwd. eexists. split; reflexivity.
Qed.

Lemma VERSES3_RE_search w c v1 S1 v2 S2 v3 S3 e :
  bookcode w -> numeral c -> numeral v1 -> suffix S1 -> numeral v2 -> suffix S2 ->
  numeral v3 -> suffix S3 -> at_end e = true ->
  let s := w ++ "_" ++ c ++ ":" ++ verse_suffix v1 S1 ++ "," ++ verse_suffix v2 S2
             ++ "," ++ verse_suffix v3 S3 ++ e in
  re_search VERSES2_RE s = None /\ re_search VERSES2C_RE s = None
  /\ exists m,
       re_search VERSES3_RE s = Some m
       /\ groups m = [Some w; Some c; Some v1; sfx_group S1; Some v2; sfx_group S2;
                      Some v3; sfx_group S3].
Proof.
  intros Hw Hc Hv1 HS1 Hv2 HS2 Hv3 HS3 He s. subst s. split; [|split].
  - unfold VERSES2_RE. fwd; reflexivity.
  - unfold VERSES2C_RE. fwd; reflexivity.
  - unfold VERSES3_RE. fwd. eexists. split; reflexivity.
Qed.

Lemma VERSES3C_RE_search w c1 v1 S1 c2 v2 S2 c3 v3 S3 e :
  bookcode w -> numeral c1 -> numeral v1 -> suffix S1 ->
  numeral c2 -> numeral v2 -> suffix S2 ->
  numeral c3 -> numeral v3 -> suffix S3 -> at_end e = true ->
  let s := w ++ "_" ++ c1 ++ ":" ++ verse_suffix v1 S1 ++ ";" ++ c2 ++ ":"
             ++ verse_suffix v2 S2 ++ ";" ++ c3 ++ ":" ++ verse_suffix v3 S3 ++ e in
  re_search VERSES2_RE s = None /\ re_search VERSES2C_RE s = None
  /\ re_search VERSES3_RE s = None
  /\ exists m,
       re_search VERSES3C_RE s = Some m
       /\ groups m = [Some w; Some c1; Some v1; sfx_group S1; Some c2; Some v2; sfx_group S2;
                      Some c3; Some v3; sfx_group S3].
Proof.
  intros Hw Hc1 Hv1 HS1 Hc2 Hv2 HS2 Hc3 Hv3 HS3 He s. subst s.
  split; [|split; [|split]].
  - unfold VERSES2_RE. fwd; reflexivity.
  - unfold VERSES2C_RE. fwd; reflexivity.
  - unfold VERSES3_RE. fwd; reflexivity.
  - unfold VERSES3C_RE. fwd. eexists. split; reflexivity.
Qed.


(* ===================================================================== *)
(** ** SimpleVersesKey: lists of two and of three verses *)

Lemma suffixes_suffix S : In S suffixes -> suffix S.
Proof. apply suffix_letters. Qed.

(** [SimpleVerseKey( BBB, C, V, S )] on fields of the grammar. *)
Lemma init_BCVS_valid (G : Globals) w c v S :
  bookcode w -> numeral c -> numeral v -> suffix S ->
  SimpleVerseKey.init_BCVS G w c v (Some S)
  = ([], if debugFlag G && negb (BibleBooksCodes G w) then Raise AssertionError
         else Done (assigned w c v S)).
Proof.
  intros Hw Hc Hv HS. unfold SimpleVerseKey.init_BCVS.
  destruct (debugFlag G); cbn [when andb]; [|reflexivity].
  rewrite debug_checks_valid by assumption.
  now destruct (BibleBooksCodes G w).
Qed.

Lemma assert_after_str (G : Globals) k (n1 n2 : Z) S1 S2 :
  SimpleVersesKey.assert_after k (str n1) S1 (str n2) S2
  = assert ((n1 + k <? n2)%Z || negb (String.eqb S2 S1)).
Proof.
  unfold SimpleVersesKey.assert_after. now rewrite !int_of_str, !bind_ret_l.
Qed.

Ltac groups_simpl :=
  unfold group_str, group_or_empty, group;
  repeat match goal with H : groups _ = _ |- _ => rewrite H; clear H end;
  cbn [nth Nat.sub]; rewrite ?sfx_group_value by assumption.

(** The list of two verses of one chapter, "BBB_C:V1,V2" with suffixes or
    without: the key holds the two verses in their order. A book code that
    is not registered is logged, and is fatal under strict checking and
    under [debugFlag]; strict checking also refuses a second verse that
    is not two or more after the first, unless the suffixes differ. *)
Theorem SimpleVersesKey_two_verses (G : Globals) (w : string) (c n1 n2 : Z)
        (S1 S2 : string) (ipe : bool) :
  full_match BBB_RE w = true ->
  (1 <= c <= 199)%Z -> (1 <= n1 <= 199)%Z -> (1 <= n2 <= 199)%Z ->
  In S1 suffixes -> In S2 suffixes ->
  SimpleVersesKey.init G
    (w ++ "_" ++ str c ++ ":" ++ verse_suffix (str n1) S1 ++ "," ++ verse_suffix (str n2) S2)
    ipe
  = (if BibleBooksCodes G w then []
     else [LogError "SimpleVerseKey: Invalid {!r} book code" w],
     if (strictCheckingFlag G
         && negb (BibleBooksCodes G w && ((n1 + 1 <? n2)%Z || negb (String.eqb S2 S1))))
        || (debugFlag G && negb (BibleBooksCodes G w))
     then Raise AssertionError
     else Done (SimpleVersesKey.Build ipe
                  [assigned w (str c) (str n1) S1; assigned w (str c) (str n2) S2] "2V")).
Proof.
  intros Hw Hc Hn1 Hn2 HS1 HS2.
  apply full_match_BBB in Hw. apply numeral_str in Hc, Hn1, Hn2.
  apply suffixes_suffix in HS1, HS2.
  destruct (@VERSES2_RE_search w (str c) (str n1) S1 (str n2) S2 "")
    as (m & Hm & Hg); try assumption; [reflexivity|].
  rewrite !append_nil_r in Hm.
  unfold SimpleVersesKey.init, SimpleVersesKey.parseReferenceString. rewrite Hm.
  groups_simpl. rewrite (assert_after_str G).
  rewrite !init_BCVS_valid by assumption.
  destruct (BibleBooksCodes G w), (strictCheckingFlag G), (debugFlag G),
    ((n1 + 1 <? n2)%Z || negb (String.eqb S2 S1)); reflexivity.
Qed.

Lemma SimpleVersesKey_two_verses_witness :
  SimpleVersesKey.init strict
    ("GEN" ++ "_" ++ str 1 ++ ":" ++ verse_suffix (str 1) "" ++ "," ++ verse_suffix (str 2) "")
    false
  = ([], Raise AssertionError).
Proof.
  apply (@SimpleVersesKey_two_verses strict "GEN" 1 1 2 "" "" false);
    first [lia | vm_compute; reflexivity | now left].
Defined.

(** The list of two verses of two chapters, "BBB_C1:V1;C2:V2": with a
    registered book code the key holds the two verses; with one that is
    not registered the message of the error reads [self.BBB], which the
    class never sets, and [AttributeError] is raised with nothing
    logged, whatever the flags. *)
Theorem SimpleVersesKey_two_chapters (G : Globals) (w : string) (c1 n1 c2 n2 : Z)
        (S1 S2 : string) (ipe : bool) :
  full_match BBB_RE w = true ->
  (1 <= c1 <= 199)%Z -> (1 <= n1 <= 199)%Z -> (1 <= c2 <= 199)%Z -> (1 <= n2 <= 199)%Z ->
  In S1 suffixes -> In S2 suffixes ->
  SimpleVersesKey.init G
    (w ++ "_" ++ str c1 ++ ":" ++ verse_suffix (str n1) S1
       ++ ";" ++ str c2 ++ ":" ++ verse_suffix (str n2) S2) ipe
  = ([], if BibleBooksCodes G w
         then Done (SimpleVersesKey.Build ipe
                      [assigned w (str c1) (str n1) S1; assigned w (str c2) (str n2) S2] "2CV")
         else Raise AttributeError).
Proof.
  intros Hw Hc1 Hn1 Hc2 Hn2 HS1 HS2.
  apply full_match_BBB in Hw. apply numeral_str in Hc1, Hn1, Hc2, Hn2.
  apply suffixes_suffix in HS1, HS2.
  destruct (@VERSES2C_RE_search w (str c1) (str n1) S1 (str c2) (str n2) S2 "")
    as (Hno & m & Hm & Hg); try assumption; [reflexivity|].
  rewrite !append_nil_r in Hno, Hm.
  unfold SimpleVersesKey.init, SimpleVersesKey.parseReferenceString. rewrite Hno, Hm.
  groups_simpl. rewrite !init_BCVS_valid by assumption.
  destruct (BibleBooksCodes G w), (strictCheckingFlag G), (debugFlag G); reflexivity.
Qed.

Lemma SimpleVersesKey_two_chapters_witness :
  SimpleVersesKey.init lenient
    ("ZZZ" ++ "_" ++ str 1 ++ ":" ++ verse_suffix (str 1) ""
       ++ ";" ++ str 2 ++ ":" ++ verse_suffix (str 2) "") false
  = ([], Raise AttributeError).
Proof.
  apply (@SimpleVersesKey_two_chapters lenient "ZZZ" 1 1 2 2 "" "" false);
    first [lia | vm_compute; reflexivity | now left].
Defined.

(** The lists of three verses, "BBB_C:V1,V2,V3" and
    "BBB_C1:V1;C2:V2;C3:V3", are parsed and keep no verse: with a
    registered book code the key has the type "3V" or "3CV" and an empty
    list of verses; strict checking asserts the order of the verses of
    "3V"; a book code that is not registered raises [AttributeError]. *)
Theorem SimpleVersesKey_three_verses (G : Globals) (w : string) (c1 n1 c2 n2 c3 n3 : Z)
        (S1 S2 S3 : string) (ipe : bool) :
  full_match BBB_RE w = true ->
  (1 <= c1 <= 199)%Z -> (1 <= n1 <= 199)%Z -> (1 <= c2 <= 199)%Z -> (1 <= n2 <= 199)%Z ->
  (1 <= c3 <= 199)%Z -> (1 <= n3 <= 199)%Z ->
  In S1 suffixes -> In S2 suffixes -> In S3 suffixes ->
  SimpleVersesKey.init G
    (w ++ "_" ++ str c1 ++ ":" ++ verse_suffix (str n1) S1 ++ "," ++ verse_suffix (str n2) S2
       ++ "," ++ verse_suffix (str n3) S3) ipe
  = ([], if BibleBooksCodes G w
         then if strictCheckingFlag G
                 && negb (((n1 + 1 <? n2)%Z || negb (String.eqb S2 S1))
                          && ((n2 + 1 <? n3)%Z || negb (String.eqb S3 S2)))
              then Raise AssertionError
              else Done (SimpleVersesKey.Build ipe [] "3V")
         else Raise AttributeError)
  /\ SimpleVersesKey.init G
       (w ++ "_" ++ str c1 ++ ":" ++ verse_suffix (str n1) S1
          ++ ";" ++ str c2 ++ ":" ++ verse_suffix (str n2) S2
          ++ ";" ++ str c3 ++ ":" ++ verse_suffix (str n3) S3) ipe
     = ([], if BibleBooksCodes G w
            then Done (SimpleVersesKey.Build ipe [] "3CV")
            else Raise AttributeError).
Proof.
  intros Hw Hc1 Hn1 Hc2 Hn2 Hc3 Hn3 HS1 HS2 HS3.
  apply full_match_BBB in Hw. apply numeral_str in Hc1, Hn1, Hc2, Hn2, Hc3, Hn3.
  apply suffixes_suffix in HS1, HS2, HS3.
  split.
  - destruct (@VERSES3_RE_search w (str c1) (str n1) S1 (str n2) S2 (str n3) S3 "")
      as (Hno1 & Hno2 & m & Hm & Hg); try assumption; [reflexivity|].
    rewrite !append_nil_r in Hno1, Hno2, Hm.
    unfold SimpleVersesKey.init, SimpleVersesKey.parseReferenceString.
    rewrite Hno1, Hno2, Hm. groups_simpl. rewrite !(assert_after_str G).
    destruct (BibleBooksCodes G w), (strictCheckingFlag G),
      ((n1 + 1 <? n2)%Z || negb (String.eqb S2 S1)),
      ((n2 + 1 <? n3)%Z || negb (String.eqb S3 S2)); reflexivity.
  - destruct (@VERSES3C_RE_search w (str c1) (str n1) S1 (str c2) (str n2) S2
                (str c3) (str n3) S3 "")
      as (Hno1 & Hno2 & Hno3 & m & Hm & Hg); try assumption; [reflexivity|].
    rewrite !append_nil_r in Hno1, Hno2, Hno3, Hm.
    unfold SimpleVersesKey.init, SimpleVersesKey.parseReferenceString.
    rewrite Hno1, Hno2, Hno3, Hm. groups_simpl.
    destruct (BibleBooksCodes G w), (strictCheckingFlag G); reflexivity.
Qed.

Lemma SimpleVersesKey_three_verses_witness :
  SimpleVersesKey.init strict
    ("MAT" ++ "_" ++ str 5 ++ ":" ++ verse_suffix (str 3) "" ++ "," ++ verse_suffix (str 5) "a"
       ++ "," ++ verse_suffix (str 7) "") true
  = ([], Done (SimpleVersesKey.Build true [] "3V"))
  /\ SimpleVersesKey.init strict
       ("MAT" ++ "_" ++ str 5 ++ ":" ++ verse_suffix (str 3) ""
          ++ ";" ++ str 6 ++ ":" ++ verse_suffix (str 5) "a"
          ++ ";" ++ str 7 ++ ":" ++ verse_suffix (str 7) "") true
     = ([], Done (SimpleVersesKey.Build true [] "3CV")).
Proof.
  apply (@SimpleVersesKey_three_verses strict "MAT" 5 3 6 5 7 7 "" "a" "" true);
    first [lia | vm_compute; reflexivity | cbn; tauto].
Defined.


(* ===================================================================== *)
(** ** VerseRangeKey: the texts of ranges *)

Lemma VERSE_RANGE_RE_search w c v1 S1 v2 S2 e :
  bookcode w -> numeral c -> numeral v1 -> suffix S1 -> numeral v2 -> suffix S2 ->
  at_end e = true ->
  exists m,
    re_search VERSE_RANGE_RE
      (w ++ "_" ++ c ++ ":" ++ verse_suffix v1 S1 ++ "-" ++ verse_suffix v2 S2 ++ e) = Some m
    /\ groups m = [Some w; Some c; Some v1; sfx_group S1; Some v2; sfx_group S2].
Proof.
  intros Hw Hc Hv1 HS1 Hv2 HS2 He. unfold VERSE_RANGE_RE. fwd.
  eexists. split; reflexivity.
Qed.

Lemma CHAPTER_RANGE_RE_search w c1 v1 S1 c2 v2 S2 e :
  bookcode w -> numeral c1 -> numeral v1 -> suffix S1 ->
  numeral c2 -> numeral v2 -> suffix S2 -> at_end e = true ->
  let s := w ++ "_" ++ c1 ++ ":" ++ verse_suffix v1 S1 ++ en_dash ++ c2 ++ ":"
             ++ verse_suffix v2 S2 ++ e in
  re_search VERSE_RANGE_RE s = None
  /\ exists m,
       re_search CHAPTER_RANGE_RE s = Some m
       /\ groups m = [Some w; Some c1; Some v1; sfx_group S1; Some c2; Some v2; sfx_group S2].
Proof.
  intros Hw Hc1 Hv1 HS1 Hc2 Hv2 HS2 He s. subst s. split.
  - unfold VERSE_RANGE_RE. fwd; reflexivity.
  - unfold CHAPTER_RANGE_RE. fwd. eexists. split; reflexivity.
Qed.

Lemma stops_digit_Lit {X} (K : rmatch -> rmatch -> list X) (b : rmatch -> bool) c l r :
  in_class cls09 c = false ->
  stops_at_digit (fun m1 => flat_map (K m1) (run (Lit (String c l) +++ r) (b m1) (rest m1))).
Proof.
  intros Hc m Hm. rewrite flat_map_run_Cat.
  destruct (rest m) as [|d s]; [discriminate|]. cbn [head_in] in Hm.
  apply Lit_stop. now apply digit_not.
Qed.

Lemma stops_digit_Eos {X} (K : rmatch -> rmatch -> list X) (b : rmatch -> bool) :
  stops_at_digit (fun m1 => flat_map (K m1) (run Eos (b m1) (rest m1))).
Proof.
  intros m Hm. apply Eos_stop. destruct (rest m); [discriminate|].
  cbn [head_in] in *. now apply in_class_09_word.
Qed.

(** [BCVS_RE] on a text that stops after the chapter. *)
Lemma BCVS_chapter_none {X} (K : rmatch -> list X) b w c e :
  bookcode w -> numeral c -> at_end e = true ->
  flat_map K (run BCVS_RE b (w ++ "_" ++ c ++ e)) = [].
Proof.
  intros Hw Hc He.
  change BCVS_RE with (BBB_RE +++ Lit "_" +++ V_RE +++ Lit ":" +++ VS_RE)%re.
  rewrite flat_map_run_Cat, BBB_run by assumption. cbn [matched rest groups].
  rewrite flat_map_run_Cat, Lit_run. cbn [matched rest groups].
  rewrite flat_map_run_Cat.
  rewrite NUM_run;
    [|assumption|apply at_end_cases in He; now destruct He as [->| ->]
     |apply stops_digit_Lit; reflexivity].
  cbn [matched rest groups]. rewrite flat_map_run_Cat.
  apply at_end_cases in He. destruct He as [->| ->]; reflexivity.
Qed.

Lemma CHAPTER_RE_search w c e :
  bookcode w -> numeral c -> at_end e = true ->
  let s := w ++ "_" ++ c ++ e in
  re_search VERSE_RANGE_RE s = None /\ re_search CHAPTER_RANGE_RE s = None
  /\ exists m, re_search CHAPTER_RE s = Some m /\ groups m = [Some w; Some c].
Proof.
  intros Hw Hc He s. subst s. split; [|split].
  - unfold VERSE_RANGE_RE. rewrite re_search_anchored, flat_map_run_Cat, Bos_run.
    cbn [matched rest groups]. rewrite flat_map_run_Cat.
    now rewrite BCVS_chapter_none.
  - unfold CHAPTER_RANGE_RE. rewrite re_search_anchored, flat_map_run_Cat, Bos_run.
    cbn [matched rest groups]. rewrite flat_map_run_Cat.
    now rewrite BCVS_chapter_none.
  - unfold CHAPTER_RE. change C_RE with V_RE.
    rewrite re_search_anchored, flat_map_run_Cat, Bos_run. cbn [matched rest groups].
    rewrite flat_map_run_Cat, BBB_run by assumption. cbn [matched rest groups].
    rewrite flat_map_run_Cat, Lit_run. cbn [matched rest groups].
    rewrite flat_map_run_Cat.
    rewrite NUM_run;
      [|assumption|apply at_end_cases in He; now destruct He as [->| ->]
       |apply stops_digit_Eos].
    cbn [matched rest groups]. rewrite Eos_run_end by assumption.
    cbn [matched rest groups Datatypes.app hd_error]. eexists. split; reflexivity.
Qed.

(* ===================================================================== *)
(** ** VerseRangeKey: what a range lists *)

Lemma invalid_book_log_eq (G : Globals) fmt w :
  invalid_book_log G fmt w = if BibleBooksCodes G w then [] else [LogError fmt w].
Proof. reflexivity. Qed.

(** The body of the [V-V] branch under strict checking on a book code
    that is not registered. *)
Lemma parse_VV_unregistered (G : Globals) fuel ipe w c v1 S1 v2 S2 :
  strictCheckingFlag G = true -> BibleBooksCodes G w = false ->
  VerseRangeKey.parse_VV G fuel ipe w c v1 S1 v2 S2
  = ([LogError "VerseRangeKey: Invalid {!r} book code" w], Raise AssertionError).
Proof. intros Hs Hb. unfold VerseRangeKey.parse_VV. now rewrite Hs, Hb. Qed.

(** The range of verses of one chapter, "BBB_C:V1-V2" with [V1 <= V2]: the
    key lists the verses V1 to V2-1 with no suffix and then V2 with the
    suffix of the end, V2-V1+1 verses in all; the suffix of the start is
    kept in [rangeStart] only. A book code that is not registered is
    logged, and under strict checking it fails the assertion. *)
Theorem VerseRangeKey_same_chapter (G : Globals) (fuel : nat) (w : string) (c n1 n2 : Z)
        (S1 S2 : string) (ipe : bool) :
  debugFlag G = false -> full_match BBB_RE w = true ->
  (1 <= c <= 199)%Z -> (1 <= n1 <= n2)%Z -> (n2 <= 199)%Z ->
  In S1 suffixes -> In S2 suffixes -> (Z.to_nat (n2 - n1) < fuel)%nat ->
  VerseRangeKey.init G fuel
    (w ++ "_" ++ str c ++ ":" ++ verse_suffix (str n1) S1 ++ "-" ++ verse_suffix (str n2) S2)
    ipe
  = (if BibleBooksCodes G w then []
     else [LogError "VerseRangeKey: Invalid {!r} book code" w],
     if strictCheckingFlag G && negb (BibleBooksCodes G w) then Raise AssertionError
     else Done (VerseRangeKey.Build ipe
                  (assigned w (str c) (str n1) S1) (assigned w (str c) (str n2) S2)
                  (Some (plain_verses w (str c) n1 (Z.to_nat (n2 - n1))
                         ++ [assigned w (str c) (str n2) S2])%list)
                  "V-V")).
Proof.
  intros Hd Hw Hc Hn1 Hn2 HS1 HS2 Hf.
  apply full_match_BBB in Hw. apply numeral_str in Hc.
  assert (Hv1 : numeral (str n1)) by (apply numeral_str; lia).
  assert (Hv2 : numeral (str n2)) by (apply numeral_str; lia).
  apply suffixes_suffix in HS1, HS2.
  destruct (@VERSE_RANGE_RE_search w (str c) (str n1) S1 (str n2) S2 "")
    as (m & Hm & Hg); try assumption; [reflexivity|].
  rewrite !append_nil_r in Hm.
  unfold VerseRangeKey.init, VerseRangeKey.parseReferenceString. rewrite Hm.
  groups_simpl.
  destruct (strictCheckingFlag G && negb (BibleBooksCodes G w)) eqn:E.
  - apply andb_true_iff in E. destruct E as (Hs & Hb). apply negb_true_iff in Hb.
    rewrite parse_VV_unregistered by assumption. now rewrite Hb.
  - rewrite parse_VV_returns; try assumption; try lia.
    + unfold invalid_book_log. now destruct (BibleBooksCodes G w).
    + intros Hs. rewrite Hs in E. now apply negb_false_iff in E.
Qed.

Lemma VerseRangeKey_same_chapter_witness :
  VerseRangeKey.init lenient 5
    ("REV" ++ "_" ++ str 11 ++ ":" ++ verse_suffix (str 2) "b" ++ "-" ++ verse_suffix (str 4) "a")
    false
  = ([], Done (VerseRangeKey.Build false
                 (assigned "REV" (str 11) (str 2) "b") (assigned "REV" (str 11) (str 4) "a")
                 (Some (plain_verses "REV" (str 11) 2 (Z.to_nat (4 - 2))
                        ++ [assigned "REV" (str 11) (str 4) "a"])%list)
                 "V-V")).
Proof.
  apply (@VerseRangeKey_same_chapter lenient 5 "REV" 11 2 4 "b" "a" false);
    first [lia | vm_compute; reflexivity | cbn; tauto | cbn; lia].
Defined.

(** [SimpleVerseKey( BBB, C, V )] on the verses "1" and "999". *)
Lemma init_BCVS_chapter_end (G : Globals) w c v :
  bookcode w -> numeral c -> v = "1" \/ v = "999" ->
  SimpleVerseKey.init_BCVS G w c v None
  = ([], if debugFlag G && negb (BibleBooksCodes G w) then Raise AssertionError
         else Done (assigned w c v "")).
Proof.
  intros Hw Hc Hv. unfold SimpleVerseKey.init_BCVS.
  destruct (debugFlag G); cbn [when andb]; [|reflexivity].
  rewrite debug_checks_fields; try assumption;
    [|destruct Hv as [->| ->]; reflexivity..|now left].
  now destruct (BibleBooksCodes G w).
Qed.

(** The whole chapter, "BBB_C": with a registered book code the key runs
    from verse "1" to verse "999" of the chapter and has no list of
    verses, so that [getIncludedVerses] raises [AttributeError]; with a
    book code that is not registered the constructor itself raises
    [AttributeError], with nothing logged. *)
Theorem VerseRangeKey_whole_chapter (G : Globals) (fuel : nat) (w : string) (c : Z)
        (ipe : bool) :
  full_match BBB_RE w = true -> (1 <= c <= 199)%Z ->
  VerseRangeKey.init G fuel (w ++ "_" ++ str c) ipe
  = ([], if BibleBooksCodes G w
         then Done (VerseRangeKey.Build ipe (assigned w (str c) "1" "")
                      (assigned w (str c) "999" "") None "C")
         else Raise AttributeError)
  /\ VerseRangeKey.getIncludedVerses
       (VerseRangeKey.Build ipe (assigned w (str c) "1" "") (assigned w (str c) "999" "")
          None "C")
     = ([], Raise AttributeError).
Proof.
  intros Hw Hc. split; [|reflexivity].
  apply full_match_BBB in Hw. apply numeral_str in Hc.
  destruct (@CHAPTER_RE_search w (str c) "") as (Hno1 & Hno2 & m & Hm & Hg);
    try assumption; [reflexivity|].
  rewrite !append_nil_r in Hno1, Hno2, Hm.
  unfold VerseRangeKey.init, VerseRangeKey.parseReferenceString.
  rewrite Hno1, Hno2, Hm. groups_simpl.
  rewrite !init_BCVS_chapter_end by auto.
  destruct (BibleBooksCodes G w), (strictCheckingFlag G), (debugFlag G); reflexivity.
Qed.

Lemma VerseRangeKey_whole_chapter_witness :
  VerseRangeKey.init debugging 0 ("GEN" ++ "_" ++ str 18) true
  = ([], Done (VerseRangeKey.Build true (assigned "GEN" (str 18) "1" "")
                 (assigned "GEN" (str 18) "999" "") None "C"))
  /\ VerseRangeKey.getIncludedVerses
       (VerseRangeKey.Build true (assigned "GEN" (str 18) "1" "")
          (assigned "GEN" (str 18) "999" "") None "C")
     = ([], Raise AttributeError).
Proof.
  apply (@VerseRangeKey_whole_chapter debugging 0 "GEN" 18 true);
    first [lia | vm_compute; reflexivity].
Defined.

Lemma plain_verses_length w c n k : length (plain_verses w c n k) = k.
Proof. unfold plain_verses. now rewrite length_map, length_seq. Qed.

Lemma plain_verses_app w c n k j :
  plain_verses w c n (k + j)
  = (plain_verses w c n k ++ plain_verses w c (n + Z.of_nat k) j)%list.
Proof.
  revert n. induction k as [|k IH]; intros n.
  - cbn [Nat.add]. unfold plain_verses at 2. cbn [seq map app].
    now rewrite Z.add_0_r.
  - cbn [Nat.add]. rewrite !plain_verses_S, IH. cbn [app]. do 3 f_equal. lia.
Qed.

Lemma whole_chapters_length w c k : length (whole_chapters w c k) = (222 * k)%nat.
Proof.
  revert c. induction k as [|k IH]; intros c; cbn [whole_chapters];
    [now rewrite Nat.mul_0_r|].
  rewrite length_app, plain_verses_length, IH. lia.
Qed.

(** The loop of the [CV-CV] branch in the last chapter of the range. *)
Lemma expand_CVCV_last_chapter (G : Globals) w (c2 : Z) S2 :
  debugFlag G = false ->
  forall k v acc fuel, (k < fuel)%nat -> (v + Z.of_nat k <= 222)%Z ->
    VerseRangeKey.expand_CVCV G fuel w (str c2) (str v) (str c2) (str (v + Z.of_nat k)) S2 acc
    = ret (acc ++ plain_verses w (str c2) v k
               ++ [assigned w (str c2) (str (v + Z.of_nat k)) S2])%list.
Proof.
  intros Hd. induction k as [|k IH]; intros v acc fuel Hf Hv;
    (destruct fuel as [|fuel]; [lia|]); cbn [VerseRangeKey.expand_CVCV].
  - rewrite Nat2Z.inj_0, Z.add_0_r, !String.eqb_refl. cbn [andb].
    rewrite init_BCVS_nodebug, bind_ret_l by assumption. reflexivity.
  - rewrite String.eqb_refl, (str_eqb_neq (n := v)) by lia. cbn [andb].
    rewrite init_BCVS_nodebug, bind_ret_l, int_of_str, bind_ret_l, int_of_str, bind_ret_l
      by assumption.
    replace (222 <? v + 1)%Z with false by (symmetry; apply Z.ltb_ge; lia).
    replace (v + Z.of_nat (S k))%Z with (v + 1 + Z.of_nat k)%Z by lia.
    rewrite IH by lia. rewrite plain_verses_S.
    change (SimpleVerseKey.Build false w (str c2) (str v) "" "AssignedBVCS")
      with (plain_verse w (str c2) v).
    now rewrite <- app_assoc.
Qed.

(** The loop in a chapter before the last: it runs to verse 222 and goes
    on at verse 1 of the next chapter. *)
Lemma expand_CVCV_chapter (G : Globals) w (c c2 : Z) V2 S2 :
  debugFlag G = false -> (c <> c2)%Z ->
  forall k v acc fuel, (v + Z.of_nat k = 222)%Z -> (k < fuel)%nat ->
    VerseRangeKey.expand_CVCV G fuel w (str c) (str v) (str c2) V2 S2 acc
    = VerseRangeKey.expand_CVCV G (fuel - S k) w (str (c + 1)) "1" (str c2) V2 S2
        (acc ++ plain_verses w (str c) v (S k))%list.
Proof.
  intros Hd Hc. induction k as [|k IH]; intros v acc fuel Hv Hf;
    (destruct fuel as [|fuel]; [lia|]); cbn [VerseRangeKey.expand_CVCV].
  - rewrite (str_eqb_neq (n := c)) by assumption. cbn [andb].
    rewrite init_BCVS_nodebug, bind_ret_l, int_of_str, bind_ret_l, int_of_str, bind_ret_l
      by assumption.
    replace (222 <? v + 1)%Z with true by (symmetry; apply Z.ltb_lt; lia).
    rewrite int_of_str, bind_ret_l. cbn [Nat.sub]. rewrite Nat.sub_0_r.
    now rewrite plain_verses_S.
  - rewrite (str_eqb_neq (n := c)) by assumption. cbn [andb].
    rewrite init_BCVS_nodebug, bind_ret_l, int_of_str, bind_ret_l, int_of_str, bind_ret_l
      by assumption.
    replace (222 <? v + 1)%Z with false by (symmetry; apply Z.ltb_ge; lia).
    rewrite IH by lia. cbn [Nat.sub].
    rewrite (plain_verses_S w (str c) v (S k)).
    change (SimpleVerseKey.Build false w (str c) (str v) "" "AssignedBVCS")
      with (plain_verse w (str c) v).
    now rewrite <- app_assoc.
Qed.

(** The loop from the first verse of a chapter, [j] chapters before the
    last. *)
Lemma expand_CVCV_chapters (G : Globals) w (c2 v2 : Z) S2 :
  debugFlag G = false -> (1 <= v2 <= 222)%Z ->
  forall j c acc fuel, (c + Z.of_nat j = c2)%Z -> (222 * j + Z.to_nat (v2 - 1) < fuel)%nat ->
    VerseRangeKey.expand_CVCV G fuel w (str c) "1" (str c2) (str v2) S2 acc
    = ret (acc ++ whole_chapters w c j ++ plain_verses w (str c2) 1 (Z.to_nat (v2 - 1))
               ++ [assigned w (str c2) (str v2) S2])%list.
Proof.
  intros Hd Hv2. induction j as [|j IH]; intros c acc fuel Hc Hf.
  - assert (c = c2) by lia. subst c. cbn [whole_chapters app].
    change "1" with (str 1).
    replace (str v2) with (str (1 + Z.of_nat (Z.to_nat (v2 - 1)))) by (f_equal; lia).
    apply expand_CVCV_last_chapter; [assumption|lia|lia].
  - change "1" with (str 1) at 1.
    rewrite (@expand_CVCV_chapter G w c c2 (str v2) S2 Hd) with (k := 221%nat) by lia.
    rewrite IH by lia. cbn [whole_chapters]. now rewrite <- !app_assoc.
Qed.

Lemma expand_CVCV_returns (G : Globals) w (c1 v1 c2 v2 : Z) S2 fuel :
  debugFlag G = false -> (1 <= v1 <= 222)%Z -> (1 <= v2 <= 222)%Z ->
  (c1 < c2 \/ c1 = c2 /\ v1 <= v2)%Z ->
  (length (cross_chapter_verses w c1 v1 c2 v2) < fuel)%nat ->
  VerseRangeKey.expand_CVCV G fuel w (str c1) (str v1) (str c2) (str v2) S2 []
  = ret (cross_chapter_verses w c1 v1 c2 v2 ++ [assigned w (str c2) (str v2) S2])%list.
Proof.
  intros Hd Hv1 Hv2 Hord Hf. unfold cross_chapter_verses in *.
  destruct (Z.eqb_spec c1 c2) as [->|Hne].
  - rewrite plain_verses_length in Hf.
    replace (str v2) with (str (v1 + Z.of_nat (Z.to_nat (v2 - v1)))) by (f_equal; lia).
    rewrite expand_CVCV_last_chapter by (assumption || lia). reflexivity.
  - rewrite !length_app, !plain_verses_length, whole_chapters_length in Hf.
    rewrite (@expand_CVCV_chapter G w c1 c2 (str v2) S2 Hd Hne)
      with (k := Z.to_nat (222 - v1)) by lia.
    rewrite (@expand_CVCV_chapters G w c2 v2 S2 Hd Hv2 (Z.to_nat (c2 - c1 - 1))) by lia.
    cbn [app]. replace (S (Z.to_nat (222 - v1))) with (Z.to_nat (223 - v1)) by lia.
    now rewrite <- !app_assoc.
Qed.

(** The range across chapters, "BBB_C1:V1" en-dash "C2:V2": the key lists
    the verses from V1 of chapter C1 up to verse 222 of it, the verses 1
    to 222 of every chapter between, the verses of chapter C2 before V2,
    all with no suffix, and then the end of the range with its suffix:
    the loop takes every chapter to end at verse 222. A book code that is
    not registered is logged, and under strict checking it fails the
    assertion. *)
Theorem VerseRangeKey_across_chapters (G : Globals) (fuel : nat) (w : string)
        (c1 n1 c2 n2 : Z) (S1 S2 : string) (ipe : bool) :
  debugFlag G = false -> full_match BBB_RE w = true ->
  (1 <= c1 <= 199)%Z -> (1 <= n1 <= 199)%Z -> (1 <= c2 <= 199)%Z -> (1 <= n2 <= 199)%Z ->
  (c1 < c2 \/ c1 = c2 /\ n1 <= n2)%Z ->
  In S1 suffixes -> In S2 suffixes ->
  (length (cross_chapter_verses w c1 n1 c2 n2) < fuel)%nat ->
  VerseRangeKey.init G fuel
    (w ++ "_" ++ str c1 ++ ":" ++ verse_suffix (str n1) S1
       ++ en_dash ++ str c2 ++ ":" ++ verse_suffix (str n2) S2) ipe
  = (if BibleBooksCodes G w then []
     else [LogError "VerseRangeKey: Invalid {!r} book code" w],
     if strictCheckingFlag G && negb (BibleBooksCodes G w) then Raise AssertionError
     else Done (VerseRangeKey.Build ipe
                  (assigned w (str c1) (str n1) S1) (assigned w (str c2) (str n2) S2)
                  (Some (cross_chapter_verses w c1 n1 c2 n2
                         ++ [assigned w (str c2) (str n2) S2])%list)
                  "CV-CV"))
  /\ (c1 < c2 ->
      Z.of_nat (length (cross_chapter_verses w c1 n1 c2 n2))
      = (223 - n1) + 222 * (c2 - c1 - 1) + (n2 - 1))%Z.
Proof.
  intros Hd Hw Hc1 Hn1 Hc2 Hn2 Hord HS1 HS2 Hf. split.
  - apply full_match_BBB in Hw.
    assert (Hnc1 : numeral (str c1)) by (apply numeral_str; lia).
    assert (Hnv1 : numeral (str n1)) by (apply numeral_str; lia).
    assert (Hnc2 : numeral (str c2)) by (apply numeral_str; lia).
    assert (Hnv2 : numeral (str n2)) by (apply numeral_str; lia).
    apply suffixes_suffix in HS1, HS2.
    destruct (@CHAPTER_RANGE_RE_search w (str c1) (str n1) S1 (str c2) (str n2) S2 "")
      as (Hno & m & Hm & Hg); try assumption; [reflexivity|].
    rewrite !append_nil_r in Hno, Hm.
    unfold VerseRangeKey.init, VerseRangeKey.parseReferenceString. rewrite Hno, Hm.
    groups_simpl. rewrite !init_BCVS_nodebug by assumption.
    rewrite expand_CVCV_returns by (assumption || lia).
    destruct (BibleBooksCodes G w), (strictCheckingFlag G); reflexivity.
  - intros Hlt. unfold cross_chapter_verses.
    destruct (Z.eqb_spec c1 c2); [lia|].
    rewrite !length_app, !plain_verses_length, whole_chapters_length. lia.
Qed.

Lemma VerseRangeKey_across_chapters_witness :
  VerseRangeKey.init lenient 300
    ("GEN" ++ "_" ++ str 1 ++ ":" ++ verse_suffix (str 5) ""
       ++ en_dash ++ str 2 ++ ":" ++ verse_suffix (str 3) "") false
  = ([], Done (VerseRangeKey.Build false
                 (assigned "GEN" (str 1) (str 5) "") (assigned "GEN" (str 2) (str 3) "")
                 (Some (cross_chapter_verses "GEN" 1 5 2 3
                        ++ [assigned "GEN" (str 2) (str 3) ""])%list)
                 "CV-CV"))
  /\ ((1 < 2)%Z ->
      Z.of_nat (length (cross_chapter_verses "GEN" 1 5 2 3))
      = (223 - 5) + 222 * (2 - 1 - 1) + (3 - 1))%Z.
Proof.
  apply (@VerseRangeKey_across_chapters lenient 300 "GEN" 1 5 2 3 "" "" false);
    first [lia | vm_compute; reflexivity | cbn; tauto | vm_compute; lia].
Defined.


(* ===================================================================== *)
(** ** No spaces are ever allowed *)

Ltac piece_inv' H :=
  cbn [matched rest groups Datatypes.app] in H;
  lazymatch type of H with
  | In _ (flat_map _ (run BBB_RE _ _)) =>
      apply BBB_inv in H;
      let w := fresh "w" in let s' := fresh "s" in let Hw := fresh "Hw" in
      destruct H as (w & s' & Hw & -> & H)
  | In _ (flat_map _ (run C_RE _ _)) =>
      change C_RE with V_RE in H; apply NUM_inv in H;
      let c := fresh "c" in let s' := fresh "s" in let Hc := fresh "Hc" in
      destruct H as (c & s' & Hc & -> & H)
  | _ => piece_inv H
  end.

Ltac pattern_inv' H :=
  apply re_search_In in H; repeat piece_inv' H;
  cbn [matched rest groups Datatypes.app In] in H; destruct H as [<-|[]].

Lemma char_in_app x a b : char_in x (a ++ b) = char_in x a || char_in x b.
Proof.
  induction a as [|c a IH]; cbn [append char_in]; [reflexivity|].
  now rewrite IH, orb_assoc.
Qed.

Lemma space_in_check_chars : In " "%char (list_ascii_of_string " -,.:").
Proof. now left. Qed.

Lemma bookcode_no_space w : bookcode w -> char_in " " w = false.
Proof.
  intros H. apply plain_char_in; [apply space_in_check_chars|]. now apply bookcode_plain.
Qed.

Lemma numeral_no_space v : numeral v -> char_in " " v = false.
Proof.
  intros H. apply plain_char_in; [apply space_in_check_chars|]. now apply numeral_plain.
Qed.

Lemma sfx_no_space t g : sfx t g -> char_in " " t = false.
Proof.
  intros [| |c Hc]; try reflexivity. cbn [char_in].
  destruct c as [[] [] [] [] [] [] [] []]; cbv in Hc; try discriminate Hc; reflexivity.
Qed.

Lemma at_end_no_space e : at_end e = true -> char_in " " e = false.
Proof. intros H. apply at_end_cases in H. now destruct H as [->| ->]. Qed.

Ltac no_space :=
  rewrite ?char_in_app;
  repeat match goal with
         | H : bookcode ?w |- context [char_in _ ?w] => rewrite (bookcode_no_space H)
         | H : numeral ?v |- context [char_in _ ?v] => rewrite (numeral_no_space H)
         | H : sfx ?t _ |- context [char_in _ ?t] => rewrite (sfx_no_space H)
         | H : at_end ?e = true |- context [char_in _ ?e] => rewrite (at_end_no_space _ H)
         end;
  reflexivity.

(** A text on which a pattern of the module matches holds no space. *)
Lemma grammar_no_space r s :
  In r grammars -> matches r s = true -> char_in " " s = false.
Proof.
  unfold grammars, list_grammars, range_grammars, compound_grammars, matches.
  cbn [app In]. intros Hr.
  repeat (destruct Hr as [<-|Hr];
          [destruct (re_search _ s) as [m|] eqn:Hm; [intros _|discriminate];
           match type of Hm with re_search ?p _ = _ => unfold p in Hm end;
           pattern_inv' Hm; no_space|]).
  destruct Hr.
Qed.

Lemma no_grammar_with_space r s :
  char_in " " s = true -> In r grammars -> matches r s = false.
Proof.
  intros Hs Hr. destruct (matches r s) eqn:E; [|reflexivity].
  apply (@grammar_no_space _ _ Hr) in E. congruence.
Qed.

(** What each class does with a text that none of its patterns matches. *)
Lemma SimpleVerseKey_init_unparsed (G : Globals) s ipe :
  matches VERSE_RE s = false ->
  SimpleVerseKey.init G s ipe
  = (if ipe then [] else [LogError "SimpleVerseKey was unable to parse {!r}" s],
     Raise TypeError).
Proof.
  unfold matches, SimpleVerseKey.init, SimpleVerseKey.parseReferenceString.
  destruct (re_search VERSE_RE s); [discriminate|]. now destruct ipe.
Qed.

Lemma SimpleVersesKey_init_unparsed (G : Globals) s ipe :
  is_list s = false ->
  SimpleVersesKey.init G s ipe
  = (if ipe then [] else [LogError "SimpleVerseKey was unable to parse {!r}" s],
     Raise TypeError).
Proof.
  unfold is_list, list_grammars, matches, SimpleVersesKey.init,
    SimpleVersesKey.parseReferenceString. cbn [existsb].
  destruct (re_search VERSES2_RE s); [discriminate|].
  destruct (re_search VERSES2C_RE s); [discriminate|].
  destruct (re_search VERSES3_RE s); [discriminate|].
  destruct (re_search VERSES3C_RE s); [discriminate|]. now destruct ipe.
Qed.

Lemma VerseRangeKey_init_unparsed (G : Globals) fuel s ipe :
  is_range s = false ->
  VerseRangeKey.init G fuel s ipe
  = (if ipe then [] else [LogError "VerseRangeKey was unable to parse {!r}" s],
     Raise TypeError).
Proof.
  unfold is_range, range_grammars, matches, VerseRangeKey.init,
    VerseRangeKey.parseReferenceString. cbn [existsb].
  destruct (re_search VERSE_RANGE_RE s); [discriminate|].
  destruct (re_search CHAPTER_RANGE_RE s); [discriminate|].
  destruct (re_search CHAPTER_RE s); [discriminate|]. now destruct ipe.
Qed.

Lemma FlexibleVersesKey_init_unparsed (G : Globals) fuel s :
  debug_length_ok G s -> (forall r, In r grammars -> matches r s = false) ->
  FlexibleVersesKey.init G fuel s = ([unable_to_parse s], Raise TypeError).
Proof.
  intros Hd H. rewrite FlexibleVersesKey_init_dispatch by assumption.
  unfold first_match_dispatch, is_list, is_range, list_grammars, range_grammars.
  cbn [existsb]. rewrite !H by (cbn; tauto). cbn [orb].
  rewrite !matches_false by (apply H; cbn; tauto). reflexivity.
Qed.

(** In every configuration: the assertion on the length, made under
    [debugFlag], comes before the parse. *)
Lemma FlexibleVersesKey_init_unparsed_any (G : Globals) fuel s :
  (forall r, In r grammars -> matches r s = false) ->
  FlexibleVersesKey.init G fuel s
  = if debugFlag G && negb ((5 <=? len s)%nat && (len s <=? 20)%nat)
    then ([], Raise AssertionError)
    else ([unable_to_parse s], Raise TypeError).
Proof.
  intros H.
  destruct (debugFlag G) eqn:Hd;
    [destruct ((5 <=? len s)%nat && (len s <=? 20)%nat) eqn:Hl|]; cbn [andb negb].
  - apply FlexibleVersesKey_init_unparsed; [|assumption]. intros _. exact Hl.
  - unfold FlexibleVersesKey.init. now rewrite Hd, Hl.
  - apply FlexibleVersesKey_init_unparsed; [|assumption].
    intros Hd'. congruence.
Qed.

Lemma no_list_grammar s :
  (forall r, In r grammars -> matches r s = false) -> is_list s = false.
Proof.
  intros H. unfold is_list, list_grammars. cbn [existsb].
  now rewrite !H by (cbn; tauto).
Qed.

Lemma no_range_grammar s :
  (forall r, In r grammars -> matches r s = false) -> is_range s = false.
Proof.
  intros H. unfold is_range, range_grammars. cbn [existsb].
  now rewrite !H by (cbn; tauto).
Qed.

(** "No spaces are ever allowed": no class builds a key from a text that
    holds a space. [SimpleVerseKey], [SimpleVersesKey] and [VerseRangeKey]
    raise [TypeError], after logging that they are unable to parse the text
    (nothing when told to ignore the errors of the parse).
    [FlexibleVersesKey] does the same, except under [debugFlag] on a text
    that is not 5 to 20 characters long: its assertion on the length comes
    first and raises [AssertionError] with nothing logged. *)
Theorem no_spaces_are_ever_allowed (s : string) :
  char_in " " s = true ->
  (forall G ipe,
      SimpleVerseKey.init G s ipe
      = (if ipe then [] else [LogError "SimpleVerseKey was unable to parse {!r}" s],
         Raise TypeError))
  /\ (forall G ipe,
         SimpleVersesKey.init G s ipe
         = (if ipe then [] else [LogError "SimpleVerseKey was unable to parse {!r}" s],
            Raise TypeError))
  /\ (forall G fuel ipe,
         VerseRangeKey.init G fuel s ipe
         = (if ipe then [] else [LogError "VerseRangeKey was unable to parse {!r}" s],
            Raise TypeError))
  /\ (forall G fuel,
         FlexibleVersesKey.init G fuel s
         = if debugFlag G && negb ((5 <=? len s)%nat && (len s <=? 20)%nat)
           then ([], Raise AssertionError)
           else ([LogError "FlexibleVersesKey was unable to parse {!r}" s],
                 Raise TypeError)).
Proof.
  intros Hs.
  assert (H : forall r, In r grammars -> matches r s = false)
    by (intros r; now apply no_grammar_with_space).
  repeat split; intros.
  - apply SimpleVerseKey_init_unparsed. apply H. cbn. tauto.
  - apply SimpleVersesKey_init_unparsed. now apply no_list_grammar.
  - apply VerseRangeKey_init_unparsed. now apply no_range_grammar.
  - now apply FlexibleVersesKey_init_unparsed_any.
Qed.

Lemma no_spaces_are_ever_allowed_witness :
  (forall G ipe,
      SimpleVerseKey.init G "EXO 2:2" ipe
      = (if ipe then [] else [LogError "SimpleVerseKey was unable to parse {!r}" "EXO 2:2"],
         Raise TypeError))
  /\ (forall G ipe,
         SimpleVersesKey.init G "EXO 2:2" ipe
         = (if ipe then [] else [LogError "SimpleVerseKey was unable to parse {!r}" "EXO 2:2"],
            Raise TypeError))
  /\ (forall G fuel ipe,
         VerseRangeKey.init G fuel "EXO 2:2" ipe
         = (if ipe then [] else [LogError "VerseRangeKey was unable to parse {!r}" "EXO 2:2"],
            Raise TypeError))
  /\ (forall G fuel,
         FlexibleVersesKey.init G fuel "EXO 2:2"
         = if debugFlag G && negb ((5 <=? len "EXO 2:2")%nat && (len "EXO 2:2" <=? 20)%nat)
           then ([], Raise AssertionError)
           else ([LogError "FlexibleVersesKey was unable to parse {!r}" "EXO 2:2"],
                 Raise TypeError)).
Proof.
  apply (@no_spaces_are_ever_allowed "EXO 2:2"). reflexivity.
Defined.

(* ===================================================================== *)
(** ** The texts of lists and ranges are not parsed back *)

Lemma join_texts_acc (f : SimpleVerseKey.t -> string) :
  (forall k, truthy (f k) = true) ->
  forall l acc, truthy acc = true ->
    SimpleVersesKey.join_texts f acc l
    = fold_left (fun r k => r ++ ", " ++ f k) l acc.
Proof.
  intros Hf. induction l as [|k l IH]; intros acc Hacc; cbn [SimpleVersesKey.join_texts fold_left];
    [reflexivity|].
  rewrite Hacc. rewrite IH.
  - now rewrite append_assoc.
  - destruct acc; [discriminate|reflexivity].
Qed.

Lemma fold_join (f : SimpleVerseKey.t -> string) l : forall x acc,
  fold_left (fun r k => r ++ ", " ++ f k) l (acc ++ x)
  = acc ++ join ", " (x :: map f l).
Proof.
  induction l as [|k l IH]; intros x acc; cbn [fold_left map join]; [reflexivity|].
  replace ((acc ++ x) ++ ", " ++ f k) with ((acc ++ x ++ ", ") ++ f k)
    by (now rewrite !append_assoc).
  rewrite IH. now rewrite !append_assoc.
Qed.

Lemma join_texts_join (f : SimpleVerseKey.t -> string) l :
  (forall k, truthy (f k) = true) ->
  SimpleVersesKey.join_texts f "" l = join ", " (map f l).
Proof.
  intros Hf. destruct l as [|k l]; [reflexivity|].
  cbn [SimpleVersesKey.join_texts truthy append].
  rewrite join_texts_acc by (assumption || apply Hf).
  apply (fold_join f l (f k) "").
Qed.

Lemma getVerseKeyText_truthy k : truthy (SimpleVerseKey.getVerseKeyText k) = true.
Proof. unfold SimpleVerseKey.getVerseKeyText. now destruct (SimpleVerseKey.BBB k). Qed.

Lemma getShortText_truthy k : truthy (SimpleVerseKey.getShortText k) = true.
Proof. unfold SimpleVerseKey.getShortText. now destruct (SimpleVerseKey.BBB k). Qed.

Lemma char_in_join_space l :
  (2 <= length l)%nat -> char_in " " (join ", " l) = true.
Proof.
  destruct l as [|x [|y l]]; cbn [length]; try lia. intros _.
  cbn [join]. destruct l; rewrite !char_in_app; cbn; now rewrite orb_true_r.
Qed.

(** The texts of a list of verses are the texts of its verses joined by
    ", ": so the text of a key of two verses or more holds a space, and
    neither [SimpleVersesKey] nor [FlexibleVersesKey] parses it back. The
    first raises [TypeError]; so does the second, having logged the text
    once, except under [debugFlag] on a text that is not 5 to 20 characters
    long, where its assertion on the length fails first: [AssertionError],
    nothing logged. *)
Theorem SimpleVersesKey_text_is_not_parsed_back (self : SimpleVersesKey.t) :
  SimpleVersesKey.getVerseKeyText self
  = join ", " (map SimpleVerseKey.getVerseKeyText (SimpleVersesKey.verseKeysList self))
  /\ SimpleVersesKey.getShortText self
     = join ", " (map SimpleVerseKey.getShortText (SimpleVersesKey.verseKeysList self))
  /\ ((2 <= length (SimpleVersesKey.verseKeysList self))%nat ->
      (forall G ipe,
          snd (SimpleVersesKey.init G (SimpleVersesKey.getVerseKeyText self) ipe)
          = Raise TypeError)
      /\ (forall G fuel,
             FlexibleVersesKey.init G fuel (SimpleVersesKey.getVerseKeyText self)
             = if debugFlag G
                  && negb ((5 <=? len (SimpleVersesKey.getVerseKeyText self))%nat
                           && (len (SimpleVersesKey.getVerseKeyText self) <=? 20)%nat)
               then ([], Raise AssertionError)
               else ([LogError "FlexibleVersesKey was unable to parse {!r}"
                        (SimpleVersesKey.getVerseKeyText self)],
                     Raise TypeError))).
Proof.
  assert (H1 : SimpleVersesKey.getVerseKeyText self
               = join ", " (map SimpleVerseKey.getVerseKeyText
                              (SimpleVersesKey.verseKeysList self)))
    by (apply join_texts_join, getVerseKeyText_truthy).
  split; [exact H1|]. split; [apply join_texts_join, getShortText_truthy|].
  intros Hlen.
  assert (Hs : char_in " " (SimpleVersesKey.getVerseKeyText self) = true)
    by (rewrite H1; apply char_in_join_space; now rewrite length_map).
  assert (H : forall r, In r grammars ->
                        matches r (SimpleVersesKey.getVerseKeyText self) = false)
    by (intros r; now apply no_grammar_with_space).
  split.
  - intros G ipe. rewrite SimpleVersesKey_init_unparsed; [reflexivity|].
    now apply no_list_grammar.
  - intros G fuel. now apply FlexibleVersesKey_init_unparsed_any.
Qed.

Lemma CHAPTER_RANGE_RE_inv s m :
  re_search CHAPTER_RANGE_RE s = Some m ->
  bookcode (group_str m 1) /\ numeral (group_str m 2)
  /\ numeral (group_str m 3) /\ suffix (group_or_empty m 4)
  /\ numeral (group_str m 5) /\ numeral (group_str m 6) /\ suffix (group_or_empty m 7).
Proof.
  intros H. unfold CHAPTER_RANGE_RE in H. pattern_inv H.
  unfold group_str, group_or_empty, group. cbn [groups nth Nat.sub].
  repeat split; eauto using sfx_suffix.
Qed.

Lemma CHAPTER_RE_inv s m :
  re_search CHAPTER_RE s = Some m -> bookcode (group_str m 1) /\ numeral (group_str m 2).
Proof.
  intros H. unfold CHAPTER_RE in H. pattern_inv' H.
  unfold group_str, group. cbn [groups nth Nat.sub]. now split.
Qed.

Lemma init_BCVS_Done_inv (G : Globals) w c v S log k :
  SimpleVerseKey.init_BCVS G w c v S = (log, Done k) ->
  k = assigned w c v (match S with Some x => x | None => "" end).
Proof.
  unfold SimpleVerseKey.init_BCVS. intros H. bind_inv H. now subst.
Qed.

(** The two ends of a range key that [VerseRangeKey( s )] returns. *)
Lemma VerseRangeKey_init_Done_inv (G : Globals) fuel s ipe log self :
  VerseRangeKey.init G fuel s ipe = (log, Done self) ->
  exists w c1 v1 S1 c2 v2 S2,
    bookcode w /\ numeral c1 /\ numeral v1 /\ suffix S1
    /\ VerseRangeKey.rangeStart self = assigned w c1 v1 S1
    /\ VerseRangeKey.rangeEnd self = assigned w c2 v2 S2.
Proof.
  unfold VerseRangeKey.init. intros H.
  apply bind_Done_inv in H. destruct H as (l1 & [self0|] & l2 & Hparse & Hret);
    [|discriminate]. apply ret_Done_inv in Hret. subst self0.
  unfold VerseRangeKey.parseReferenceString in Hparse.
  destruct (re_search VERSE_RANGE_RE s) as [m|] eqn:E1.
  { apply VERSE_RANGE_RE_inv in E1. destruct E1 as (Hw & Hc & Hv1 & HS1 & _).
    unfold VerseRangeKey.parse_VV in Hparse. bind_inv Hparse. injection Hparse as <-.
    repeat match goal with
           | E : SimpleVerseKey.init_BCVS _ _ _ _ _ = _ |- _ => apply init_BCVS_Done_inv in E
           end.
    subst. cbn [VerseRangeKey.rangeStart VerseRangeKey.rangeEnd].
    exists (group_str m 1), (group_str m 2), (group_str m 3), (group_or_empty m 4),
      (group_str m 2), (group_str m 5), (group_or_empty m 6).
    now repeat split. }
  destruct (re_search CHAPTER_RANGE_RE s) as [m|] eqn:E2.
  { apply CHAPTER_RANGE_RE_inv in E2. destruct E2 as (Hw & Hc & Hv1 & HS1 & _).
    bind_inv Hparse. injection Hparse as <-.
    repeat match goal with
           | E : SimpleVerseKey.init_BCVS _ _ _ _ _ = _ |- _ => apply init_BCVS_Done_inv in E
           end.
    subst. cbn [VerseRangeKey.rangeStart VerseRangeKey.rangeEnd].
    exists (group_str m 1), (group_str m 2), (group_str m 3), (group_or_empty m 4),
      (group_str m 5), (group_str m 6), (group_or_empty m 7).
    now repeat split. }
  destruct (re_search CHAPTER_RE s) as [m|] eqn:E3; [|bind_inv Hparse; discriminate].
  apply CHAPTER_RE_inv in E3. destruct E3 as (Hw & Hc).
  bind_inv Hparse. injection Hparse as <-.
  repeat match goal with
         | E : SimpleVerseKey.init_BCVS _ _ _ _ _ = _ |- _ => apply init_BCVS_Done_inv in E
         end.
  subst. cbn [VerseRangeKey.rangeStart VerseRangeKey.rangeEnd].
  exists (group_str m 1), (group_str m 2), "1", "", (group_str m 2), "999", "".
  repeat split; try assumption; [now constructor | now left].
Qed.

Lemma VS_none {X} (K : rmatch -> list X) b s :
  head_in cls19 s = false -> flat_map K (run VS_RE b s) = [].
Proof.
  intros H. change VS_RE with (V_RE +++ OPTS)%re.
  now rewrite flat_map_run_Cat, NUM_none.
Qed.

(** No pattern of the module matches a verse followed by a hyphen and a
    book code. *)
Lemma range_text_no_grammar w c v S w' x r :
  bookcode w -> numeral c -> numeral v -> suffix S -> bookcode w' ->
  In r grammars ->
  matches r (w ++ "_" ++ c ++ ":" ++ verse_suffix v S ++ "-" ++ w' ++ x) = false.
Proof.
  intros Hw Hc Hv HS Hw'.
  pose proof (bookcode_head x Hw') as Hhead.
  unfold grammars, list_grammars, range_grammars, compound_grammars, matches.
  cbn [app In]. intros Hr.
  destruct Hr as [<-|Hr]; [unfold VERSE_RE; fwd; reflexivity|].
  destruct Hr as [<-|Hr]; [unfold VERSES2_RE; fwd; reflexivity|].
  destruct Hr as [<-|Hr]; [unfold VERSES2C_RE; fwd; reflexivity|].
  destruct Hr as [<-|Hr]; [unfold VERSES3_RE; fwd; reflexivity|].
  destruct Hr as [<-|Hr]; [unfold VERSES3C_RE; fwd; reflexivity|].
  destruct Hr as [<-|Hr];
    [unfold VERSE_RANGE_RE; fwd; rewrite VS_none by assumption; reflexivity|].
  destruct Hr as [<-|Hr]; [unfold CHAPTER_RANGE_RE; fwd; reflexivity|].
  destruct Hr as [<-|Hr].
  { unfold CHAPTER_RE. change C_RE with V_RE.
    rewrite re_search_anchored, flat_map_run_Cat, Bos_run. cbn [matched rest groups].
    rewrite flat_map_run_Cat, BBB_run by assumption. cbn [matched rest groups].
    rewrite flat_map_run_Cat, Lit_run. cbn [matched rest groups].
    rewrite flat_map_run_Cat.
    rewrite NUM_run; [|assumption|reflexivity|apply stops_digit_Eos].
    cbn [matched rest groups]. now rewrite Eos_none. }
  destruct Hr as [<-|Hr];
    [unfold VERSE_RANGE_PLUS_RE; fwd; rewrite VS_none by assumption; reflexivity|].
  destruct Hr as [<-|Hr]; [unfold VERSE_PLUS_RANGE_RE; fwd; reflexivity|].
  destruct Hr as [<-|Hr]; [unfold VERSE_PLUS_RANGE_PLUS_RE; fwd; reflexivity|].
  destruct Hr.
Qed.

(** The text of a range key writes the book code at both ends, as in
    "GEN_1:5-GEN_1:7", and no pattern of the module has a book code after
    the hyphen: whatever range [VerseRangeKey] has built, neither it nor
    [FlexibleVersesKey] parses [getVerseKeyText] back. Both raise
    [TypeError] after logging that they are unable to parse the text,
    except that under [debugFlag] [FlexibleVersesKey] first asserts that
    the text is 5 to 20 characters long: on any other text it raises
    [AssertionError] with nothing logged. *)
Theorem VerseRangeKey_text_is_not_parsed_back (G : Globals) (fuel : nat) (s : string)
        (ipe : bool) (log : list logrec) (self : VerseRangeKey.t) :
  VerseRangeKey.init G fuel s ipe = (log, Done self) ->
  (forall G' fuel' ipe',
      VerseRangeKey.init G' fuel' (VerseRangeKey.getVerseKeyText self) ipe'
      = (if ipe' then []
         else [LogError "VerseRangeKey was unable to parse {!r}"
                 (VerseRangeKey.getVerseKeyText self)],
         Raise TypeError))
  /\ (forall G' fuel',
         FlexibleVersesKey.init G' fuel' (VerseRangeKey.getVerseKeyText self)
         = if debugFlag G'
              && negb ((5 <=? len (VerseRangeKey.getVerseKeyText self))%nat
                       && (len (VerseRangeKey.getVerseKeyText self) <=? 20)%nat)
           then ([], Raise AssertionError)
           else ([LogError "FlexibleVersesKey was unable to parse {!r}"
                    (VerseRangeKey.getVerseKeyText self)],
                 Raise TypeError)).
Proof.
  intros H. apply VerseRangeKey_init_Done_inv in H.
  destruct H as (w & c1 & v1 & S1 & c2 & v2 & S2 & Hw & Hc1 & Hv1 & HS1 & Hstart & Hend).
  assert (Hno : forall r, In r grammars ->
                          matches r (VerseRangeKey.getVerseKeyText self) = false).
  { intros r Hr. unfold VerseRangeKey.getVerseKeyText. rewrite Hstart, Hend.
    unfold SimpleVerseKey.getVerseKeyText, assigned.
    cbn [SimpleVerseKey.BBB SimpleVerseKey.C SimpleVerseKey.V SimpleVerseKey.S].
    change (if truthy S1 then "!" else "") with (bang S1).
    replace ((w ++ "_" ++ c1 ++ ":" ++ v1 ++ bang S1 ++ S1)
             ++ "-" ++ w ++ "_" ++ c2 ++ ":" ++ v2 ++ (if truthy S2 then "!" else "") ++ S2)
      with (w ++ "_" ++ c1 ++ ":" ++ verse_suffix v1 S1
            ++ "-" ++ w ++ "_" ++ c2 ++ ":" ++ v2 ++ (if truthy S2 then "!" else "") ++ S2)
      by (unfold verse_suffix; now string_norm).
    now apply range_text_no_grammar. }
  split.
  - intros G' fuel' ipe'. apply VerseRangeKey_init_unparsed. now apply no_range_grammar.
  - intros G' fuel'. now apply FlexibleVersesKey_init_unparsed_any.
Qed.

Lemma VerseRangeKey_text_is_not_parsed_back_witness :
  (forall G' fuel' ipe',
      VerseRangeKey.init G' fuel'
        (VerseRangeKey.getVerseKeyText
           (VerseRangeKey.Build false (assigned "GEN" "1" "5" "") (assigned "GEN" "1" "7" "a")
              (Some [assigned "GEN" "1" "5" ""; assigned "GEN" "1" "6" "";
                     assigned "GEN" "1" "7" "a"]) "V-V")) ipe'
      = (if ipe' then []
         else [LogError "VerseRangeKey was unable to parse {!r}"
                 (VerseRangeKey.getVerseKeyText
                    (VerseRangeKey.Build false (assigned "GEN" "1" "5" "")
                       (assigned "GEN" "1" "7" "a")
                       (Some [assigned "GEN" "1" "5" ""; assigned "GEN" "1" "6" "";
                              assigned "GEN" "1" "7" "a"]) "V-V"))],
         Raise TypeError))
  /\ (forall G' fuel',
         FlexibleVersesKey.init G' fuel'
           (VerseRangeKey.getVerseKeyText
              (VerseRangeKey.Build false (assigned "GEN" "1" "5" "")
                 (assigned "GEN" "1" "7" "a")
                 (Some [assigned "GEN" "1" "5" ""; assigned "GEN" "1" "6" "";
                        assigned "GEN" "1" "7" "a"]) "V-V"))
         = if debugFlag G'
              && negb ((5 <=? len
                          (VerseRangeKey.getVerseKeyText
              (VerseRangeKey.Build false (assigned "GEN" "1" "5" "")
                 (assigned "GEN" "1" "7" "a")
                 (Some [assigned "GEN" "1" "5" ""; assigned "GEN" "1" "6" "";
                        assigned "GEN" "1" "7" "a"]) "V-V")))%nat
                       && (len
                             (VerseRangeKey.getVerseKeyText
              (VerseRangeKey.Build false (assigned "GEN" "1" "5" "")
                 (assigned "GEN" "1" "7" "a")
                 (Some [assigned "GEN" "1" "5" ""; assigned "GEN" "1" "6" "";
                        assigned "GEN" "1" "7" "a"]) "V-V"))
                           <=? 20)%nat)
           then ([], Raise AssertionError)
           else ([LogError "FlexibleVersesKey was unable to parse {!r}"
                    (VerseRangeKey.getVerseKeyText
              (VerseRangeKey.Build false (assigned "GEN" "1" "5" "")
                 (assigned "GEN" "1" "7" "a")
                 (Some [assigned "GEN" "1" "5" ""; assigned "GEN" "1" "6" "";
                        assigned "GEN" "1" "7" "a"]) "V-V"))],
                 Raise TypeError)).
Proof.
  apply (@VerseRangeKey_text_is_not_parsed_back lenient 3 "GEN_1:5-7!a" false []).
  vm_compute. reflexivity.
Defined.


(* ===================================================================== *)
(** ** FlexibleVersesKey: one verse, and the compounds *)

Lemma len_app a b : len (a ++ b) = len a + len b.
Proof.
  induction a as [|c a IH]; cbn [append len]; [reflexivity|].
  rewrite IH. now destruct (is_continuation_byte c).
Qed.

Lemma bookcode_len w : bookcode w -> len w = 3.
Proof. intros H. destruct (bookcode_plain H) as (P & L). now rewrite plain_len. Qed.

Lemma numeral_len v : numeral v -> 1 <= len v <= 3.
Proof.
  intros H. destruct (numeral_plain H) as (P & L). rewrite plain_len by assumption.
  apply andb_true_iff in L. destruct L as (L1 & L2).
  apply Nat.leb_le in L1, L2. lia.
Qed.

Lemma verse_suffix_len v S : numeral v -> suffix S -> 1 <= len (verse_suffix v S) <= 5.
Proof.
  intros Hv HS. pose proof (numeral_len Hv). unfold verse_suffix. rewrite len_app.
  destruct HS as [->|(c & Hc & ->)]; [cbn [bang truthy append len]; lia|].
  assert (P : plain c = true) by (apply (@class_plain clsaf); cbn; auto 10).
  unfold plain in P. apply andb_true_iff in P. destruct P as (P & _).
  apply negb_true_iff in P. cbn [bang truthy append len]. rewrite P.
  change (is_continuation_byte "!") with false. cbv iota. lia.
Qed.

(** The text of a verse passes the assertion of [debugFlag] on the
    length. *)
Lemma verse_text_length_ok (G : Globals) w c v S :
  bookcode w -> numeral c -> numeral v -> suffix S ->
  debug_length_ok G (w ++ "_" ++ c ++ ":" ++ verse_suffix v S).
Proof.
  intros Hw Hc Hv HS _. rewrite !len_app, (bookcode_len Hw).
  pose proof (numeral_len Hc). pose proof (verse_suffix_len Hv HS).
  change (len "_") with 1. change (len ":") with 1.
  apply andb_true_iff. split; apply Nat.leb_le; lia.
Qed.

(** [FlexibleVersesKey] on the text of one valid verse: the key holds the
    verse, parsed by [SimpleVerseKey] told to ignore the errors of the
    parse; its text is the text given and the verse is what
    [getIncludedVerses] returns, under [debugFlag] too. A book code that
    is not registered is logged, and under strict checking it fails the
    assertion. *)
Theorem FlexibleVersesKey_single_verse (G : Globals) (fuel : nat) (r : SimpleVerseKey.t) :
  valid_reference r ->
  let parsed :=
    SimpleVerseKey.Build true (SimpleVerseKey.BBB r) (SimpleVerseKey.C r)
      (SimpleVerseKey.V r) (SimpleVerseKey.S r) "ParsedBVCS" in
  let key := FlexibleVersesKey.Build [FlexibleVersesKey.Verse parsed] None in
  FlexibleVersesKey.init G fuel (SimpleVerseKey.getVerseKeyText r)
  = (if BibleBooksCodes G (SimpleVerseKey.BBB r) then []
     else [LogError "SimpleVerseKey: Invalid {!r} book code" (SimpleVerseKey.BBB r)],
     if strictCheckingFlag G && negb (BibleBooksCodes G (SimpleVerseKey.BBB r))
     then Raise AssertionError else Done key)
  /\ FlexibleVersesKey.getVerseKeyText key = SimpleVerseKey.getVerseKeyText r
  /\ FlexibleVersesKey.getIncludedVerses key = ([], Done [parsed]).
Proof.
  intros Hr parsed key. split; [|split; reflexivity].
  apply valid_reference_pieces in Hr. destruct r as [ipe0 w c v sf kt].
  cbn [SimpleVerseKey.BBB SimpleVerseKey.C SimpleVerseKey.V SimpleVerseKey.S] in *.
  destruct Hr as (Hw & Hc & Hv & HS).
  change (SimpleVerseKey.getVerseKeyText (SimpleVerseKey.Build ipe0 w c v sf kt))
    with (w ++ "_" ++ c ++ ":" ++ verse_suffix v sf).
  rewrite FlexibleVersesKey_init_dispatch by now apply verse_text_length_ok.
  destruct (@VERSE_RE_search w c v (bang sf ++ sf) (sfx_group sf) "" Hw Hc Hv
              (suffix_sfx HS) eq_refl) as (m & Hm & Hg).
  rewrite append_nil_r in Hm. fold (verse_suffix v sf) in Hm.
  unfold first_match_dispatch, matches. rewrite Hm.
  rewrite (@SimpleVerseKey_init_search G _ true _ _ _ _ _ Hm Hg).
  rewrite (sfx_group_value HS). unfold invalid_book_log.
  destruct (BibleBooksCodes G w), (strictCheckingFlag G); reflexivity.
Qed.

Lemma FlexibleVersesKey_single_verse_witness :
  let parsed :=
    SimpleVerseKey.Build true
      (SimpleVerseKey.BBB (assigned "REV" "11" "12" "b"))
      (SimpleVerseKey.C (assigned "REV" "11" "12" "b"))
      (SimpleVerseKey.V (assigned "REV" "11" "12" "b"))
      (SimpleVerseKey.S (assigned "REV" "11" "12" "b")) "ParsedBVCS" in
  let key := FlexibleVersesKey.Build [FlexibleVersesKey.Verse parsed] None in
  FlexibleVersesKey.init debugging 0
    (SimpleVerseKey.getVerseKeyText (assigned "REV" "11" "12" "b"))
  = (if BibleBooksCodes debugging (SimpleVerseKey.BBB (assigned "REV" "11" "12" "b")) then []
     else [LogError "SimpleVerseKey: Invalid {!r} book code"
             (SimpleVerseKey.BBB (assigned "REV" "11" "12" "b"))],
     if strictCheckingFlag debugging
        && negb (BibleBooksCodes debugging (SimpleVerseKey.BBB (assigned "REV" "11" "12" "b")))
     then Raise AssertionError else Done key)
  /\ FlexibleVersesKey.getVerseKeyText key
     = SimpleVerseKey.getVerseKeyText (assigned "REV" "11" "12" "b")
  /\ FlexibleVersesKey.getIncludedVerses key = ([], Done [parsed]).
Proof.
  apply (@FlexibleVersesKey_single_verse debugging 0 (assigned "REV" "11" "12" "b")).
  split; [vm_compute; reflexivity|]. split; [|split].
  - exists 11%Z. split; [lia | vm_compute; reflexivity].
  - exists 12%Z. split; [lia | vm_compute; reflexivity].
  - cbn. tauto.
Defined.

Lemma CHAPTER_RE_colon_none w c x :
  bookcode w -> numeral c -> re_search CHAPTER_RE (w ++ "_" ++ c ++ ":" ++ x) = None.
Proof.
  intros Hw Hc. unfold CHAPTER_RE. change C_RE with V_RE.
  rewrite re_search_anchored, flat_map_run_Cat, Bos_run. cbn [matched rest groups].
  rewrite flat_map_run_Cat, BBB_run by assumption. cbn [matched rest groups].
  rewrite flat_map_run_Cat, Lit_run. cbn [matched rest groups].
  rewrite flat_map_run_Cat.
  rewrite NUM_run; [|assumption|reflexivity|apply stops_digit_Eos].
  cbn [matched rest groups]. now rewrite Eos_none.
Qed.

(** None of the patterns of one verse, of a list and of a range matches. *)
Ltac no_simple_grammar :=
  unfold is_list, is_range, list_grammars, range_grammars; cbn [existsb];
  unfold matches; rewrite CHAPTER_RE_colon_none by assumption;
  unfold VERSE_RE, VERSES2_RE, VERSES2C_RE, VERSES3_RE, VERSES3C_RE,
    VERSE_RANGE_RE, CHAPTER_RANGE_RE;
  repeat fwd; repeat split.

Lemma VERSE_RANGE_PLUS_RE_search w c v1 S1 v2 S2 v3 S3 :
  bookcode w -> numeral c -> numeral v1 -> suffix S1 -> numeral v2 -> suffix S2 ->
  numeral v3 -> suffix S3 ->
  let s := w ++ "_" ++ c ++ ":" ++ verse_suffix v1 S1 ++ "-" ++ verse_suffix v2 S2
             ++ "," ++ verse_suffix v3 S3 in
  (matches VERSE_RE s = false /\ is_list s = false /\ is_range s = false)
  /\ exists m,
       re_search VERSE_RANGE_PLUS_RE s = Some m
       /\ groups m = [Some w; Some c; Some v1; sfx_group S1; Some v2; sfx_group S2;
                      Some v3; sfx_group S3].
Proof.
  intros Hw Hc Hv1 HS1 Hv2 HS2 Hv3 HS3 s. subst s.
  rewrite <- (append_nil_r (verse_suffix v3 S3)).
  assert (He : at_end "" = true) by reflexivity.
  split.
  - no_simple_grammar.
  - unfold VERSE_RANGE_PLUS_RE. fwd. eexists. split; reflexivity.
Qed.

Lemma VERSE_PLUS_RANGE_RE_search w c v1 S1 v2 S2 v3 S3 :
  bookcode w -> numeral c -> numeral v1 -> suffix S1 -> numeral v2 -> suffix S2 ->
  numeral v3 -> suffix S3 ->
  let s := w ++ "_" ++ c ++ ":" ++ verse_suffix v1 S1 ++ "," ++ verse_suffix v2 S2
             ++ "-" ++ verse_suffix v3 S3 in
  (matches VERSE_RE s = false /\ is_list s = false /\ is_range s = false)
  /\ re_search VERSE_RANGE_PLUS_RE s = None
  /\ exists m,
       re_search VERSE_PLUS_RANGE_RE s = Some m
       /\ groups m = [Some w; Some c; Some v1; sfx_group S1; Some v2; sfx_group S2;
                      Some v3; sfx_group S3].
Proof.
  intros Hw Hc Hv1 HS1 Hv2 HS2 Hv3 HS3 s. subst s.
  rewrite <- (append_nil_r (verse_suffix v3 S3)).
  assert (He : at_end "" = true) by reflexivity.
  split; [|split].
  - no_simple_grammar.
  - unfold VERSE_RANGE_PLUS_RE. fwd. reflexivity.
  - unfold VERSE_PLUS_RANGE_RE. fwd. eexists. split; reflexivity.
Qed.

Lemma VERSE_PLUS_RANGE_PLUS_RE_search w c v1 S1 v2 S2 v3 S3 v4 S4 :
  bookcode w -> numeral c -> numeral v1 -> suffix S1 -> numeral v2 -> suffix S2 ->
  numeral v3 -> suffix S3 -> numeral v4 -> suffix S4 ->
  let s := w ++ "_" ++ c ++ ":" ++ verse_suffix v1 S1 ++ "," ++ verse_suffix v2 S2
             ++ "-" ++ verse_suffix v3 S3 ++ "," ++ verse_suffix v4 S4 in
  (matches VERSE_RE s = false /\ is_list s = false /\ is_range s = false)
  /\ re_search VERSE_RANGE_PLUS_RE s = None
  /\ re_search VERSE_PLUS_RANGE_RE s = None
  /\ exists m,
       re_search VERSE_PLUS_RANGE_PLUS_RE s = Some m
       /\ groups m = [Some w; Some c; Some v1; sfx_group S1; Some v2; sfx_group S2;
                      Some v3; sfx_group S3; Some v4; sfx_group S4].
Proof.
  intros Hw Hc Hv1 HS1 Hv2 HS2 Hv3 HS3 Hv4 HS4 s. subst s.
  rewrite <- (append_nil_r (verse_suffix v4 S4)).
  assert (He : at_end "" = true) by reflexivity.
  split; [|split; [|split]].
  - no_simple_grammar.
  - unfold VERSE_RANGE_PLUS_RE. fwd. reflexivity.
  - unfold VERSE_PLUS_RANGE_RE. fwd. reflexivity.
  - unfold VERSE_PLUS_RANGE_PLUS_RE. fwd. eexists. split; reflexivity.
Qed.

Lemma parse_VV_range_key (G : Globals) fuel w c (n1 n2 : Z) S1 S2 :
  debugFlag G = false ->
  (strictCheckingFlag G = true -> BibleBooksCodes G w = true) ->
  (n1 <= n2)%Z -> (Z.to_nat (n2 - n1) < fuel)%nat ->
  VerseRangeKey.parse_VV G fuel true w c (str n1) S1 (str n2) S2
  = (if BibleBooksCodes G w then []
     else [LogError "VerseRangeKey: Invalid {!r} book code" w],
     Done (range_key true w c n1 S1 n2 S2)).
Proof. intros. now rewrite parse_VV_returns. Qed.

Ltac compound_cases G w :=
  rewrite ?Z.add_0_r;
  destruct (BibleBooksCodes G w) eqn:Hb, (strictCheckingFlag G) eqn:Hs;
  cbn [negb when andb orb];
  repeat match goal with
         | |- context [assert (?x || ?y)] => destruct (x || y)
         end;
  cbn [negb when andb orb assert];
  rewrite ?bind_ret_l;
  try reflexivity;
  try (rewrite parse_VV_range_key by (first [assumption | lia | intros; congruence]);
       rewrite ?Hb; reflexivity).

(** The compound "BBB_C:V1-V2,V3", a range and a verse after it, with
    [V1 <= V2]: the key holds the range key of V1-V2 and the verse V3,
    and [getIncludedVerses] returns the verses of the range and then V3.
    Strict checking asserts that the book code is registered, that V2 is
    after V1 and that V3 is two or more after V2, where the suffixes are
    the same. A book code that is not registered is logged twice, by the
    compound branch and by [VerseRangeKey]. *)
Theorem FlexibleVersesKey_range_and_verse (G : Globals) (fuel : nat) (w : string)
        (c n1 n2 n3 : Z) (S1 S2 S3 : string) :
  debugFlag G = false -> full_match BBB_RE w = true ->
  (1 <= c <= 199)%Z -> (1 <= n1 <= n2)%Z -> (n2 <= 199)%Z -> (1 <= n3 <= 199)%Z ->
  In S1 suffixes -> In S2 suffixes -> In S3 suffixes ->
  (Z.to_nat (n2 - n1) < fuel)%nat ->
  let key :=
    FlexibleVersesKey.Build
      [FlexibleVersesKey.VerseRange (range_key true w (str c) n1 S1 n2 S2);
       FlexibleVersesKey.Verse (assigned w (str c) (str n3) S3)]
      (Some "V-V,V") in
  FlexibleVersesKey.init G fuel
    (w ++ "_" ++ str c ++ ":" ++ verse_suffix (str n1) S1 ++ "-" ++ verse_suffix (str n2) S2
       ++ "," ++ verse_suffix (str n3) S3)
  = (if BibleBooksCodes G w then []
     else if strictCheckingFlag G
          then [LogError "VerseRangeKey: Invalid {!r} book code" w]
          else [LogError "VerseRangeKey: Invalid {!r} book code" w;
                LogError "VerseRangeKey: Invalid {!r} book code" w],
     if strictCheckingFlag G
        && negb (BibleBooksCodes G w
                 && ((n1 <? n2)%Z || negb (String.eqb S2 S1))
                 && ((n2 + 1 <? n3)%Z || negb (String.eqb S3 S2)))
     then Raise AssertionError else Done key)
  /\ FlexibleVersesKey.getIncludedVerses key
     = ([], Done (plain_verses w (str c) n1 (Z.to_nat (n2 - n1))
                  ++ [assigned w (str c) (str n2) S2; assigned w (str c) (str n3) S3])%list).
Proof.
  intros Hd Hw Hc Hn1 Hn2 Hn3 HS1 HS2 HS3 Hf key. subst key. split.
  - apply full_match_BBB in Hw. apply numeral_str in Hc.
    assert (Hv1 : numeral (str n1)) by (apply numeral_str; lia).
    assert (Hv2 : numeral (str n2)) by (apply numeral_str; lia).
    assert (Hv3 : numeral (str n3)) by (apply numeral_str; lia).
    apply suffixes_suffix in HS1, HS2, HS3.
    destruct (@VERSE_RANGE_PLUS_RE_search w (str c) (str n1) S1 (str n2) S2 (str n3) S3)
      as ((N1 & N2 & N3) & m & Hm & Hg); try assumption.
    rewrite FlexibleVersesKey_init_dispatch by (intros E; congruence).
    unfold first_match_dispatch. rewrite N1, N2, N3, Hm.
    groups_simpl. rewrite !(assert_after_str G), !init_BCVS_nodebug by assumption.
    compound_cases G w.
  - unfold FlexibleVersesKey.getIncludedVerses, range_key.
    cbn [FlexibleVersesKey.verseKeyObjectList FlexibleVersesKey.extend_all
         FlexibleVersesKey.getIncludedVerses_of VerseRangeKey.getIncludedVerses
         VerseRangeKey.verseKeysList SimpleVerseKey.getIncludedVerses].
    rewrite !bind_ret_l. cbn [app]. now rewrite <- app_assoc.
Qed.

Lemma FlexibleVersesKey_range_and_verse_witness :
  let key :=
    FlexibleVersesKey.Build
      [FlexibleVersesKey.VerseRange (range_key true "EXO" (str 1) 1 "" 3 "a");
       FlexibleVersesKey.Verse (assigned "EXO" (str 1) (str 4) "c")]
      (Some "V-V,V") in
  FlexibleVersesKey.init lenient 3
    ("EXO" ++ "_" ++ str 1 ++ ":" ++ verse_suffix (str 1) "" ++ "-" ++ verse_suffix (str 3) "a"
       ++ "," ++ verse_suffix (str 4) "c")
  = ([], Done key)
  /\ FlexibleVersesKey.getIncludedVerses key
     = ([], Done (plain_verses "EXO" (str 1) 1 (Z.to_nat (3 - 1))
                  ++ [assigned "EXO" (str 1) (str 3) "a";
                      assigned "EXO" (str 1) (str 4) "c"])%list).
Proof.
  apply (@FlexibleVersesKey_range_and_verse lenient 3 "EXO" 1 1 3 4 "" "a" "c");
    first [lia | vm_compute; reflexivity | cbn; tauto | cbn; lia].
Defined.

(** The compound "BBB_C:V1,V2-V3", a verse and a range after it, with
    [V2 <= V3]: the key holds the verse V1 and the range key of V2-V3,
    and [getIncludedVerses] returns V1 and then the verses of the range.
    Strict checking asserts that the book code is registered, that V2 is
    two or more after V1 and that V3 is after V2, where the suffixes are
    the same. *)
Theorem FlexibleVersesKey_verse_and_range (G : Globals) (fuel : nat) (w : string)
        (c n1 n2 n3 : Z) (S1 S2 S3 : string) :
  debugFlag G = false -> full_match BBB_RE w = true ->
  (1 <= c <= 199)%Z -> (1 <= n1 <= 199)%Z -> (1 <= n2 <= n3)%Z -> (n3 <= 199)%Z ->
  In S1 suffixes -> In S2 suffixes -> In S3 suffixes ->
  (Z.to_nat (n3 - n2) < fuel)%nat ->
  let key :=
    FlexibleVersesKey.Build
      [FlexibleVersesKey.Verse (assigned w (str c) (str n1) S1);
       FlexibleVersesKey.VerseRange (range_key true w (str c) n2 S2 n3 S3)]
      (Some "V,V-V") in
  FlexibleVersesKey.init G fuel
    (w ++ "_" ++ str c ++ ":" ++ verse_suffix (str n1) S1 ++ "," ++ verse_suffix (str n2) S2
       ++ "-" ++ verse_suffix (str n3) S3)
  = (if BibleBooksCodes G w then []
     else if strictCheckingFlag G
          then [LogError "VerseRangeKey: Invalid {!r} book code" w]
          else [LogError "VerseRangeKey: Invalid {!r} book code" w;
                LogError "VerseRangeKey: Invalid {!r} book code" w],
     if strictCheckingFlag G
        && negb (BibleBooksCodes G w
                 && ((n1 + 1 <? n2)%Z || negb (String.eqb S2 S1))
                 && ((n2 <? n3)%Z || negb (String.eqb S3 S2)))
     then Raise AssertionError else Done key)
  /\ FlexibleVersesKey.getIncludedVerses key
     = ([], Done (assigned w (str c) (str n1) S1
                  :: plain_verses w (str c) n2 (Z.to_nat (n3 - n2))
                  ++ [assigned w (str c) (str n3) S3])%list).
Proof.
  intros Hd Hw Hc Hn1 Hn2 Hn3 HS1 HS2 HS3 Hf key. subst key. split.
  - apply full_match_BBB in Hw. apply numeral_str in Hc.
    assert (Hv1 : numeral (str n1)) by (apply numeral_str; lia).
    assert (Hv2 : numeral (str n2)) by (apply numeral_str; lia).
    assert (Hv3 : numeral (str n3)) by (apply numeral_str; lia).
    apply suffixes_suffix in HS1, HS2, HS3.
    destruct (@VERSE_PLUS_RANGE_RE_search w (str c) (str n1) S1 (str n2) S2 (str n3) S3)
      as ((N1 & N2 & N3) & N4 & m & Hm & Hg); try assumption.
    rewrite FlexibleVersesKey_init_dispatch by (intros E; congruence).
    unfold first_match_dispatch. rewrite N1, N2, N3, N4, Hm.
    groups_simpl. rewrite !(assert_after_str G), !init_BCVS_nodebug by assumption.
    compound_cases G w.
  - unfold FlexibleVersesKey.getIncludedVerses, range_key.
    cbn [FlexibleVersesKey.verseKeyObjectList FlexibleVersesKey.extend_all
         FlexibleVersesKey.getIncludedVerses_of VerseRangeKey.getIncludedVerses
         VerseRangeKey.verseKeysList SimpleVerseKey.getIncludedVerses].
    rewrite !bind_ret_l. reflexivity.
Qed.

Lemma FlexibleVersesKey_verse_and_range_witness :
  let key :=
    FlexibleVersesKey.Build
      [FlexibleVersesKey.Verse (assigned "GEN" (str 1) (str 1) "");
       FlexibleVersesKey.VerseRange (range_key true "GEN" (str 1) 3 "" 4 "")]
      (Some "V,V-V") in
  FlexibleVersesKey.init strict 2
    ("GEN" ++ "_" ++ str 1 ++ ":" ++ verse_suffix (str 1) "" ++ "," ++ verse_suffix (str 3) ""
       ++ "-" ++ verse_suffix (str 4) "")
  = ([], Done key)
  /\ FlexibleVersesKey.getIncludedVerses key
     = ([], Done (assigned "GEN" (str 1) (str 1) ""
                  :: plain_verses "GEN" (str 1) 3 (Z.to_nat (4 - 3))
                  ++ [assigned "GEN" (str 1) (str 4) ""])%list).
Proof.
  apply (@FlexibleVersesKey_verse_and_range strict 2 "GEN" 1 1 3 4 "" "" "");
    first [lia | vm_compute; reflexivity | cbn; tauto | cbn; lia].
Defined.

(** The compound "BBB_C:V1,V2-V3,V4", a range between two verses, with
    [V2 <= V3]: the key holds the verse V1, the range key of V2-V3 and
    the verse V4, and [getIncludedVerses] returns them in this order.
    Strict checking asserts that the book code is registered and the
    order of the four verses. *)
Theorem FlexibleVersesKey_verse_range_verse (G : Globals) (fuel : nat) (w : string)
        (c n1 n2 n3 n4 : Z) (S1 S2 S3 S4 : string) :
  debugFlag G = false -> full_match BBB_RE w = true ->
  (1 <= c <= 199)%Z -> (1 <= n1 <= 199)%Z -> (1 <= n2 <= n3)%Z -> (n3 <= 199)%Z ->
  (1 <= n4 <= 199)%Z ->
  In S1 suffixes -> In S2 suffixes -> In S3 suffixes -> In S4 suffixes ->
  (Z.to_nat (n3 - n2) < fuel)%nat ->
  let key :=
    FlexibleVersesKey.Build
      [FlexibleVersesKey.Verse (assigned w (str c) (str n1) S1);
       FlexibleVersesKey.VerseRange (range_key true w (str c) n2 S2 n3 S3);
       FlexibleVersesKey.Verse (assigned w (str c) (str n4) S4)]
      (Some "V,V-V,V") in
  FlexibleVersesKey.init G fuel
    (w ++ "_" ++ str c ++ ":" ++ verse_suffix (str n1) S1 ++ "," ++ verse_suffix (str n2) S2
       ++ "-" ++ verse_suffix (str n3) S3 ++ "," ++ verse_suffix (str n4) S4)
  = (if BibleBooksCodes G w then []
     else if strictCheckingFlag G
          then [LogError "VerseRangeKey: Invalid {!r} book code" w]
          else [LogError "VerseRangeKey: Invalid {!r} book code" w;
                LogError "VerseRangeKey: Invalid {!r} book code" w],
     if strictCheckingFlag G
        && negb (BibleBooksCodes G w
                 && ((n1 + 1 <? n2)%Z || negb (String.eqb S2 S1))
                 && ((n2 <? n3)%Z || negb (String.eqb S3 S2))
                 && ((n3 + 1 <? n4)%Z || negb (String.eqb S4 S3)))
     then Raise AssertionError else Done key)
  /\ FlexibleVersesKey.getIncludedVerses key
     = ([], Done (assigned w (str c) (str n1) S1
                  :: plain_verses w (str c) n2 (Z.to_nat (n3 - n2))
                  ++ [assigned w (str c) (str n3) S3; assigned w (str c) (str n4) S4])%list).
Proof.
  intros Hd Hw Hc Hn1 Hn2 Hn3 Hn4 HS1 HS2 HS3 HS4 Hf key. subst key. split.
  - apply full_match_BBB in Hw. apply numeral_str in Hc.
    assert (Hv1 : numeral (str n1)) by (apply numeral_str; lia).
    assert (Hv2 : numeral (str n2)) by (apply numeral_str; lia).
    assert (Hv3 : numeral (str n3)) by (apply numeral_str; lia).
    assert (Hv4 : numeral (str n4)) by (apply numeral_str; lia).
    apply suffixes_suffix in HS1, HS2, HS3, HS4.
    destruct (@VERSE_PLUS_RANGE_PLUS_RE_search w (str c) (str n1) S1 (str n2) S2
                (str n3) S3 (str n4) S4)
      as ((N1 & N2 & N3) & N4 & N5 & m & Hm & Hg); try assumption.
    rewrite FlexibleVersesKey_init_dispatch by (intros E; congruence).
    unfold first_match_dispatch. rewrite N1, N2, N3, N4, N5, Hm.
    groups_simpl. rewrite !(assert_after_str G), !init_BCVS_nodebug by assumption.
    compound_cases G w.
  - unfold FlexibleVersesKey.getIncludedVerses, range_key.
    cbn [FlexibleVersesKey.verseKeyObjectList FlexibleVersesKey.extend_all
         FlexibleVersesKey.getIncludedVerses_of VerseRangeKey.getIncludedVerses
         VerseRangeKey.verseKeysList SimpleVerseKey.getIncludedVerses].
    rewrite !bind_ret_l. cbn [app]. rewrite <- !app_assoc. reflexivity.
Qed.

Lemma FlexibleVersesKey_verse_range_verse_witness :
  let key :=
    FlexibleVersesKey.Build
      [FlexibleVersesKey.Verse (assigned "ZZZ" (str 1) (str 1) "");
       FlexibleVersesKey.VerseRange (range_key true "ZZZ" (str 1) 3 "" 4 "");
       FlexibleVersesKey.Verse (assigned "ZZZ" (str 1) (str 6) "")]
      (Some "V,V-V,V") in
  FlexibleVersesKey.init lenient 2
    ("ZZZ" ++ "_" ++ str 1 ++ ":" ++ verse_suffix (str 1) "" ++ "," ++ verse_suffix (str 3) ""
       ++ "-" ++ verse_suffix (str 4) "" ++ "," ++ verse_suffix (str 6) "")
  = ([LogError "VerseRangeKey: Invalid {!r} book code" "ZZZ";
      LogError "VerseRangeKey: Invalid {!r} book code" "ZZZ"], Done key)
  /\ FlexibleVersesKey.getIncludedVerses key
     = ([], Done (assigned "ZZZ" (str 1) (str 1) ""
                  :: plain_verses "ZZZ" (str 1) 3 (Z.to_nat (4 - 3))
                  ++ [assigned "ZZZ" (str 1) (str 4) "";
                      assigned "ZZZ" (str 1) (str 6) ""])%list).
Proof.
  apply (@FlexibleVersesKey_verse_range_verse lenient 2 "ZZZ" 1 1 3 4 6 "" "" "" "");
    first [lia | vm_compute; reflexivity | cbn; tauto | cbn; lia].
Defined.
